(** * Phase orchestration engine: state store, verification gate, executor

    A shallow embedding of the orchestration core of the repository
    (orchestrator/schema.py, orchestrator/models.py, orchestrator/state.py,
    orchestrator/verifier.py, agents/copilot_interface.py and
    orchestrator/executor.py) together with the properties of its
    specification.

    Conventions of the embedding.
    - The SQLite database is a record of tables; a table is the list of its
      rows in insertion (rowid) order.  Column CHECK constraints of
      schema.py are boolean predicates on strings and are evaluated by the
      INSERT and UPDATE statements that write the column.
    - [uuid.uuid4()] is a fresh natural number drawn from a counter kept in
      the state, [datetime.now()] a logical clock that ticks at each read.
    - Python code that awaits the state manager is written in a state and
      exception monad [M]; a raised exception leaves the database as the
      last committed statement left it.
    - What lies outside the store (the working tree, the artifact files, the
      Copilot process, the check commands) is supplied by a [World] record.
    - The executor reads a phase's identifier as [phase.id], an attribute
      that [models.PhaseState] does not declare; what the access yields is
      part of the world ([phase_id_attr]), with [PhaseState_id] for the
      objects of models.py and [mock_id] for the objects of the
      repository's tests. *)

From Stdlib Require Import ZArith List String Bool Lia Arith Sorted Permutation.
From stdpp Require Import base strings gmap list pretty.
Import ListNotations.

Local Set Warnings "-register-all".
Local Open Scope string_scope.
Local Open Scope Z_scope.

(** ** Python values, exceptions and the monad *)

(** agents/copilot_models.py: CopilotErrorType *)
Inductive CopilotErrorType : Type :=
  | TIMEOUT | NOT_FOUND | EXECUTION_ERROR | PARSE_ERROR | AUTH_ERROR.

Inductive exn : Type :=
  | DatabaseError (msg : string)
  | ValueError (msg : string)
  | TypeError (msg : string)
  | KeyError (key : string)
  | AttributeError (msg : string)
  | CopilotCLIError (msg : string) (error_type : CopilotErrorType)
  | PyException (msg : string).

Inductive res (A : Type) : Type :=
  | Ok (a : A)
  | Raise (e : exn).
Arguments Ok {A} a.
Arguments Raise {A} e.

Definition is_ok {A} (r : res A) : bool :=
  match r with Ok _ => true | Raise _ => false end.

(** Python's [x in [..]] on strings. *)
Definition str_in (s : string) (allowed : list string) : bool :=
  existsb (String.eqb s) allowed.

(** CHECK on a nullable column: NULL satisfies every CHECK. *)
Definition check_nullable (allowed : list string) (v : option string) : bool :=
  match v with
  | None => true
  | Some s => str_in s allowed
  end.

(** ** schema.py: the column constraints of CREATE_TABLES_SQL *)

Module Schema.

Definition runs_status : list string :=
  ["planning"; "executing"; "paused"; "completed"; "failed"; "aborted"].

Definition phases_size : list string := ["small"; "medium"; "large"].

Definition phases_status : list string :=
  ["pending"; "in_progress"; "completed"; "failed"; "skipped"].

Definition executions_status : list string :=
  ["running"; "completed"; "failed"].

Definition executions_execution_mode : list string := ["direct"; "branch"].

Definition findings_severity : list string := ["major"; "medium"; "minor"].

Definition findings_category : list string :=
  ["build"; "test"; "lint"; "security"; "spec_validation"; "custom"].

Definition artifacts_artifact_type : list string :=
  ["phase_plan"; "spec"; "copilot_output"; "findings_report";
   "verification_log"].

Definition manual_interventions_reason : list string :=
  ["max_retries_exceeded"; "user_requested"; "critical_error"].

Definition manual_interventions_action_taken : list string :=
  ["resume"; "skip"; "modify_spec"; "abort"].

End Schema.

(** ** The rows of the six tables *)

Module Run.
Record t : Type := mk {
  run_id : nat;
  updated_at : nat;
  status : string;
  total_phases : Z;
  completed_phases : Z;
  current_phase_id : option nat;
  error_message : option string
}.

Definition set_status (s : string) (now : nat) (err : option string) (r : t) : t :=
  mk (run_id r) now s (total_phases r) (completed_phases r)
     (current_phase_id r) err.

Definition set_current_phase_id (p : nat) (r : t) : t :=
  mk (run_id r) (updated_at r) (status r) (total_phases r)
     (completed_phases r) (Some p) (error_message r).

Definition incr_completed_phases (r : t) : t :=
  mk (run_id r) (updated_at r) (status r) (total_phases r)
     (completed_phases r + 1) (current_phase_id r) (error_message r).

Definition incr_total_phases (r : t) : t :=
  mk (run_id r) (updated_at r) (status r) (total_phases r + 1)
     (completed_phases r) (current_phase_id r) (error_message r).
End Run.

Module Phase.
Record t : Type := mk {
  phase_id : nat;
  run_id : nat;
  phase_number : Z;
  size : string;
  status : string;
  started_at : option nat;
  completed_at : option nat;
  branch_name : option string;
  retry_count : Z;
  max_retries : Z
}.

(** [UPDATE phases SET status = ?, started_at = ?, completed_at = ?] where
    the two timestamps are part of the statement only when given. *)
Definition set_status (s : string) (started completed : option nat) (p : t) : t :=
  mk (phase_id p) (run_id p) (phase_number p) (size p) s
     (match started with Some _ => started | None => started_at p end)
     (match completed with Some _ => completed | None => completed_at p end)
     (branch_name p) (retry_count p) (max_retries p).

Definition incr_retry_count (p : t) : t :=
  mk (phase_id p) (run_id p) (phase_number p) (size p) (status p)
     (started_at p) (completed_at p) (branch_name p) (retry_count p + 1)
     (max_retries p).

Definition set_branch_name (b : string) (p : t) : t :=
  mk (phase_id p) (run_id p) (phase_number p) (size p) (status p)
     (started_at p) (completed_at p) (Some b) (retry_count p)
     (max_retries p).
End Phase.

Module Execution.
Record t : Type := mk {
  execution_id : nat;
  phase_id : nat;
  pass_number : Z;
  started_at : nat;
  completed_at : option nat;
  status : string;
  copilot_input_path : string;
  copilot_output_path : option string;
  copilot_summary : option string;
  execution_mode : string;
  error_message : option string
}.

Definition complete (now : nat) (out summary : string) (e : t) : t :=
  mk (execution_id e) (phase_id e) (pass_number e) (started_at e) (Some now)
     "completed" (copilot_input_path e) (Some out) (Some summary)
     (execution_mode e) (error_message e).

Definition fail (now : nat) (err : string) (e : t) : t :=
  mk (execution_id e) (phase_id e) (pass_number e) (started_at e) (Some now)
     "failed" (copilot_input_path e) (copilot_output_path e)
     (copilot_summary e) (execution_mode e) (Some err).
End Execution.

Module Finding.
Record t : Type := mk {
  finding_id : nat;
  execution_id : nat;
  severity : string;
  category : string;
  title : string;
  description : string;
  evidence : string;
  suggested_fix : option string;
  resolved : bool;
  created_at : nat
}.

Definition set_resolved (f : t) : t :=
  mk (finding_id f) (execution_id f) (severity f) (category f) (title f)
     (description f) (evidence f) (suggested_fix f) true (created_at f).
End Finding.

Module Artifact.
Record t : Type := mk {
  artifact_id : nat;
  run_id : nat;
  phase_id : option nat;
  execution_id : option nat;
  artifact_type : string;
  file_path : string;
  created_at : nat
}.
End Artifact.

Module Intervention.
Record t : Type := mk {
  intervention_id : nat;
  phase_id : nat;
  created_at : nat;
  reason : string;
  action_taken : option string;
  notes : option string;
  resolved_at : option nat
}.

Definition resolve (action : string) (n : option string) (now : nat) (i : t) : t :=
  mk (intervention_id i) (phase_id i) (created_at i) (reason i)
     (Some action) n (Some now).
End Intervention.

(** The database, with the two sources of fresh values. *)
Record DB : Type := mkDB {
  runs : list Run.t;
  phases : list Phase.t;
  executions : list Execution.t;
  findings : list Finding.t;
  artifacts : list Artifact.t;
  manual_interventions : list Intervention.t;
  next_uuid : nat;
  clock : nat
}.

Definition M (A : Type) : Type := DB -> res A * DB.

Definition ret {A} (a : A) : M A := fun db => (Ok a, db).

Definition raise {A} (e : exn) : M A := fun db => (Raise e, db).

(** An expression that is evaluated without touching the store. *)
Definition lift {A} (r : res A) : M A := fun db => (r, db).

Definition bind {A B} (m : M A) (k : A -> M B) : M B :=
  fun db =>
    match m db with
    | (Ok a, db') => k a db'
    | (Raise e, db') => (Raise e, db')
    end.

(** [try: m except Exception as e: h e] *)
Definition try_except {A} (m : M A) (h : exn -> M A) : M A :=
  fun db =>
    match m db with
    | (Ok a, db') => (Ok a, db')
    | (Raise e, db') => h e db'
    end.

Notation "'let*' x ':=' m 'in' k" := (bind m (fun x => k))
  (at level 10, x name, m at level 100, k at level 200).
Notation "m ';;' k" := (bind m (fun _ => k))
  (at level 100, k at level 200, right associativity).

(** [str(uuid.uuid4())] *)
Definition uuid4 : M nat :=
  fun db =>
    (Ok (next_uuid db),
     mkDB (runs db) (phases db) (executions db) (findings db) (artifacts db)
          (manual_interventions db) (S (next_uuid db)) (clock db)).

(** [datetime.now()] *)
Definition now : M nat :=
  fun db =>
    (Ok (clock db),
     mkDB (runs db) (phases db) (executions db) (findings db) (artifacts db)
          (manual_interventions db) (next_uuid db) (S (clock db))).

Definition set_runs (l : list Run.t) (db : DB) : DB :=
  mkDB l (phases db) (executions db) (findings db) (artifacts db)
       (manual_interventions db) (next_uuid db) (clock db).

Definition set_phases (l : list Phase.t) (db : DB) : DB :=
  mkDB (runs db) l (executions db) (findings db) (artifacts db)
       (manual_interventions db) (next_uuid db) (clock db).

Definition set_executions (l : list Execution.t) (db : DB) : DB :=
  mkDB (runs db) (phases db) l (findings db) (artifacts db)
       (manual_interventions db) (next_uuid db) (clock db).

Definition set_findings (l : list Finding.t) (db : DB) : DB :=
  mkDB (runs db) (phases db) (executions db) l (artifacts db)
       (manual_interventions db) (next_uuid db) (clock db).

Definition set_artifacts (l : list Artifact.t) (db : DB) : DB :=
  mkDB (runs db) (phases db) (executions db) (findings db) l
       (manual_interventions db) (next_uuid db) (clock db).

Definition set_manual_interventions (l : list Intervention.t) (db : DB) : DB :=
  mkDB (runs db) (phases db) (executions db) (findings db) (artifacts db)
       l (next_uuid db) (clock db).

(** ** SQL helpers *)

(** [UPDATE t SET ... WHERE p]. *)
Definition update_where {A} (p : A -> bool) (f : A -> A) (l : list A) : list A :=
  map (fun r => if p r then f r else r) l.

(** [ORDER BY key]: rows with equal keys keep their insertion order. *)
Fixpoint insert_by {A} (key : A -> Z) (x : A) (l : list A) : list A :=
  match l with
  | [] => [x]
  | y :: l' => if key y <=? key x then y :: insert_by key x l' else x :: y :: l'
  end.

Definition order_by {A} (key : A -> Z) (l : list A) : list A :=
  fold_left (fun acc x => insert_by key x acc) l [].

(** [ORDER BY] over several columns, given as a comparison of rows; rows
    that compare equal keep their insertion order. *)
Fixpoint insert_le {A} (le : A -> A -> bool) (x : A) (l : list A) : list A :=
  match l with
  | [] => [x]
  | y :: l' => if le y x then y :: insert_le le x l' else x :: y :: l'
  end.

Definition sort_le {A} (le : A -> A -> bool) (l : list A) : list A :=
  fold_left (fun acc x => insert_le le x acc) l [].

(** [ORDER BY severity, created_at]: text columns compare byte by byte. *)
Definition finding_le (a b : Finding.t) : bool :=
  match String.compare (Finding.severity a) (Finding.severity b) with
  | Lt => true
  | Gt => false
  | Eq => (Finding.created_at a <=? Finding.created_at b)%nat
  end.

(** The dictionary built from the rows of
    [SELECT severity, COUNT( * ) ... GROUP BY severity]. *)
Fixpoint group_count (l : list string) : gmap string Z :=
  match l with
  | [] => ∅
  | s :: rest =>
      let m := group_count rest in
      <[s := default 0 (m !! s) + 1]> m
  end.

(** ** models.py: the field validators run when a row is read back *)

Module Models.

Definition RunState_valid (r : Run.t) : bool :=
  str_in (Run.status r)
    ["planning"; "executing"; "paused"; "completed"; "failed"; "aborted"].

Definition PhaseState_valid (p : Phase.t) : bool :=
  (0 <? Phase.phase_number p)
  && str_in (Phase.size p) ["small"; "medium"; "large"]
  && str_in (Phase.status p)
       ["pending"; "in_progress"; "completed"; "failed"; "skipped"].

Definition ExecutionState_valid (e : Execution.t) : bool :=
  (0 <? Execution.pass_number e)
  && str_in (Execution.status e) ["running"; "completed"; "failed"]
  && str_in (Execution.execution_mode e) ["direct"; "branch"].

Definition Finding_valid (f : Finding.t) : bool :=
  str_in (Finding.severity f) ["major"; "medium"; "minor"]
  && str_in (Finding.category f)
       ["build"; "test"; "lint"; "security"; "spec_validation"; "custom"].

Definition Artifact_valid (a : Artifact.t) : bool :=
  str_in (Artifact.artifact_type a)
    ["phase_plan"; "spec"; "copilot_output"; "copilot_prompt";
     "findings_report"; "findings_report_md"; "findings_report_json";
     "verification_log"; "feedback_spec"].

Definition ManualIntervention_valid (i : Intervention.t) : bool :=
  str_in (Intervention.reason i)
    ["max_retries_exceeded"; "user_requested"; "critical_error"]
  && check_nullable ["resume"; "skip"; "modify_spec"; "abort"]
       (Intervention.action_taken i).

End Models.

(** ** state.py: StateManager *)

Module StateManager.

Definition get_run (run_id : nat) : M (option Run.t) :=
  fun db =>
    match find (fun r => Run.run_id r =? run_id)%nat (runs db) with
    | Some r =>
        if Models.RunState_valid r then (Ok (Some r), db)
        else (Raise (DatabaseError ("Failed to get run " +:+ pretty run_id)), db)
    | None => (Ok None, db)
    end.

Definition update_run_status (run_id : nat) (status : string)
    (error : option string) : M unit :=
  let* t := now in
  fun db =>
    let hit := fun r => (Run.run_id r =? run_id)%nat in
    if existsb hit (runs db) && negb (str_in status Schema.runs_status)
    then (Raise (DatabaseError "Failed to update run status"), db)
    else (Ok tt, set_runs (update_where hit (Run.set_status status t error) (runs db)) db).

Definition get_phase (phase_id : nat) : M (option Phase.t) :=
  fun db =>
    match find (fun p => Phase.phase_id p =? phase_id)%nat (phases db) with
    | Some p =>
        if Models.PhaseState_valid p then (Ok (Some p), db)
        else (Raise (DatabaseError ("Failed to get phase " +:+ pretty phase_id)), db)
    | None => (Ok None, db)
    end.

Definition get_phases_for_run (run_id : nat) : M (list Phase.t) :=
  fun db =>
    let rows :=
      order_by Phase.phase_number
        (List.filter (fun p => Phase.run_id p =? run_id)%nat (phases db)) in
    if forallb Models.PhaseState_valid rows then (Ok rows, db)
    else (Raise (DatabaseError ("Failed to get phases for run " +:+ pretty run_id)), db).

(** The run a phase belongs to: [SELECT run_id FROM phases WHERE phase_id = ?]. *)
Definition run_id_of_phase (phase_id : nat) (db : DB) : option nat :=
  option_map Phase.run_id
    (find (fun p => Phase.phase_id p =? phase_id)%nat (phases db)).

Definition run_of_phase_is (phase_id : nat) (db : DB) (r : Run.t) : bool :=
  match run_id_of_phase phase_id db with
  | Some rid => (Run.run_id r =? rid)%nat
  | None => false
  end.

Definition update_phase_status (phase_id : nat) (status : string)
    (started_at completed_at : option nat) : M unit :=
  fun db =>
    let hit := fun p => (Phase.phase_id p =? phase_id)%nat in
    if existsb hit (phases db) && negb (str_in status Schema.phases_status)
    then (Raise (DatabaseError "Failed to update phase status"), db)
    else
      let db1 :=
        set_phases
          (update_where hit (Phase.set_status status started_at completed_at)
             (phases db)) db in
      let db2 :=
        if String.eqb status "in_progress" then
          set_runs
            (update_where (run_of_phase_is phase_id db1)
               (Run.set_current_phase_id phase_id) (runs db1)) db1
        else if String.eqb status "completed" then
          set_runs
            (update_where (run_of_phase_is phase_id db1)
               Run.incr_completed_phases (runs db1)) db1
        else db1 in
      (Ok tt, db2).

Definition increment_phase_retry (phase_id : nat) : M Z :=
  fun db =>
    let hit := fun p => (Phase.phase_id p =? phase_id)%nat in
    let db1 := set_phases (update_where hit Phase.incr_retry_count (phases db)) db in
    match find hit (phases db1) with
    | Some p => (Ok (Phase.retry_count p), db1)
    | None => (Ok 0, db1)
    end.

Definition get_current_phase (run_id : nat) : M (option Phase.t) :=
  fun db =>
    let rows :=
      order_by Phase.phase_number
        (List.filter (fun p => (Phase.run_id p =? run_id)%nat
                          && String.eqb (Phase.status p) "in_progress")
           (phases db)) in
    match rows with
    | p :: _ =>
        if Models.PhaseState_valid p then (Ok (Some p), db)
        else (Raise (DatabaseError "Failed to get current phase"), db)
    | [] => (Ok None, db)
    end.

Definition create_execution (phase_id : nat) (pass_number : Z)
    (copilot_input_path execution_mode : string) : M Execution.t :=
  let* execution_id := uuid4 in
  let* t := now in
  fun db =>
    let row :=
      Execution.mk execution_id phase_id pass_number t None "running"
        copilot_input_path None None execution_mode None in
    if negb (str_in execution_mode Schema.executions_execution_mode)
    then (Raise (DatabaseError "Failed to create execution"), db)
    else
      let db1 := set_executions (executions db ++ [row]) db in
      if Models.ExecutionState_valid row then (Ok row, db1)
      else (Raise (DatabaseError "Failed to create execution"), db1).

Definition complete_execution (execution_id : nat)
    (copilot_output_path copilot_summary : string) : M unit :=
  let* t := now in
  fun db =>
    (Ok tt,
     set_executions
       (update_where (fun e => Execution.execution_id e =? execution_id)%nat
          (Execution.complete t copilot_output_path copilot_summary)
          (executions db)) db).

Definition fail_execution (execution_id : nat) (error : string) : M unit :=
  let* t := now in
  fun db =>
    (Ok tt,
     set_executions
       (update_where (fun e => Execution.execution_id e =? execution_id)%nat
          (Execution.fail t error) (executions db)) db).

Definition get_executions_for_phase (phase_id : nat) : M (list Execution.t) :=
  fun db =>
    let rows :=
      order_by Execution.pass_number
        (List.filter (fun e => Execution.phase_id e =? phase_id)%nat (executions db)) in
    if forallb Models.ExecutionState_valid rows then (Ok rows, db)
    else (Raise (DatabaseError "Failed to get executions"), db).

Definition add_finding (execution_id : nat)
    (severity category title description evidence : string)
    (suggested_fix : option string) : M Finding.t :=
  let* finding_id := uuid4 in
  let* t := now in
  fun db =>
    let row :=
      Finding.mk finding_id execution_id severity category title description
        evidence suggested_fix false t in
    if str_in severity Schema.findings_severity
       && str_in category Schema.findings_category
    then (Ok row, set_findings (findings db ++ [row]) db)
    else (Raise (DatabaseError "Failed to add finding"), db).

(** The rows are returned grouped by execution; callers only group them by
    severity again. *)
Definition get_findings_for_phase (phase_id : nat) : M (list Finding.t) :=
  fun db =>
    let of_phase := fun f =>
      existsb (fun e => (Execution.execution_id e =? Finding.execution_id f)%nat
                        && (Execution.phase_id e =? phase_id)%nat)
        (executions db) in
    let rows := List.filter of_phase (findings db) in
    if forallb Models.Finding_valid rows then (Ok rows, db)
    else (Raise (DatabaseError "Failed to get findings for phase"), db).

Definition register_artifact (run_id : nat) (artifact_type file_path : string)
    (phase_id execution_id : option nat) : M Artifact.t :=
  let* artifact_id := uuid4 in
  let* t := now in
  fun db =>
    let row :=
      Artifact.mk artifact_id run_id phase_id execution_id artifact_type
        file_path t in
    if str_in artifact_type Schema.artifacts_artifact_type
    then (Ok row, set_artifacts (artifacts db ++ [row]) db)
    else (Raise (DatabaseError "Failed to register artifact"), db).

Definition get_artifacts_for_phase (phase_id : nat) : M (list Artifact.t) :=
  fun db =>
    let rows :=
      order_by (fun a => Z.of_nat (Artifact.created_at a))
        (List.filter
           (fun a => match Artifact.phase_id a with
                     | Some p => (p =? phase_id)%nat
                     | None => false
                     end) (artifacts db)) in
    if forallb Models.Artifact_valid rows then (Ok rows, db)
    else (Raise (DatabaseError "Failed to get phase artifacts"), db).

Definition create_intervention (phase_id : nat) (reason : string)
    : M Intervention.t :=
  let* intervention_id := uuid4 in
  let* t := now in
  fun db =>
    let row := Intervention.mk intervention_id phase_id t reason None None None in
    if negb (str_in reason Schema.manual_interventions_reason)
    then (Raise (DatabaseError "Failed to create intervention"), db)
    else
      let db1 := set_manual_interventions (manual_interventions db ++ [row]) db in
      if Models.ManualIntervention_valid row then (Ok row, db1)
      else (Raise (DatabaseError "Failed to create intervention"), db1).

Definition resolve_intervention (intervention_id : nat) (action : string)
    (notes : option string) : M unit :=
  let* t := now in
  fun db =>
    let hit := fun i => (Intervention.intervention_id i =? intervention_id)%nat in
    if existsb hit (manual_interventions db)
       && negb (str_in action Schema.manual_interventions_action_taken)
    then (Raise (DatabaseError "Failed to resolve intervention"), db)
    else
      (Ok tt,
       set_manual_interventions
         (update_where hit (Intervention.resolve action notes t)
            (manual_interventions db)) db).

Definition is_pending_for (run_id : nat) (db : DB) (i : Intervention.t) : bool :=
  existsb (fun p => (Phase.phase_id p =? Intervention.phase_id i)%nat
                    && (Phase.run_id p =? run_id)%nat) (phases db)
  && match Intervention.resolved_at i with None => true | Some _ => false end.

Definition get_pending_interventions (run_id : nat) : M (list Intervention.t) :=
  fun db =>
    let rows :=
      order_by (fun i => Z.of_nat (Intervention.created_at i))
        (List.filter (is_pending_for run_id db) (manual_interventions db)) in
    if forallb Models.ManualIntervention_valid rows then (Ok rows, db)
    else (Raise (DatabaseError "Failed to get pending interventions"), db).

(** [create_phase].  The columns title, intent, created_at and plan_json,
    which nothing here reads back, are not part of [Phase.t]; the row is
    validated by the [PhaseState] that is returned, after the commit. *)
Definition create_phase (run_id : nat) (phase_number max_retries : Z)
    (size : string) : M Phase.t :=
  let* phase_id := uuid4 in
  let* t := now in
  fun db =>
    let row :=
      Phase.mk phase_id run_id phase_number size "pending" None None None 0
        max_retries in
    if negb (str_in size Schema.phases_size)
    then (Raise (DatabaseError "Failed to create phase"), db)
    else
      let db1 := set_phases (phases db ++ [row]) db in
      let db2 :=
        set_runs
          (update_where (fun r => Run.run_id r =? run_id)%nat
             Run.incr_total_phases (runs db1)) db1 in
      if Models.PhaseState_valid row then (Ok row, db2)
      else (Raise (DatabaseError "Failed to create phase"), db2).

Definition get_findings_for_execution (execution_id : nat)
    : M (list Finding.t) :=
  fun db =>
    let rows :=
      sort_le finding_le
        (List.filter (fun f => Finding.execution_id f =? execution_id)%nat
           (findings db)) in
    if forallb Models.Finding_valid rows then (Ok rows, db)
    else (Raise (DatabaseError "Failed to get findings"), db).

(** [get_findings_summary]: the rows are not validated, and a severity
    without findings has no entry. *)
Definition get_findings_summary (execution_id : nat) : M (gmap string Z) :=
  fun db =>
    (Ok (group_count
           (map Finding.severity
              (List.filter (fun f => Finding.execution_id f =? execution_id)%nat
                 (findings db)))),
     db).

Definition mark_finding_resolved (finding_id : nat) : M unit :=
  fun db =>
    (Ok tt,
     set_findings
       (update_where (fun f => Finding.finding_id f =? finding_id)%nat
          Finding.set_resolved (findings db)) db).

Definition get_unresolved_findings (execution_id : nat)
    (severities : list string) : M (list Finding.t) :=
  fun db =>
    let rows :=
      sort_le finding_le
        (List.filter
           (fun f => (Finding.execution_id f =? execution_id)%nat
                     && str_in (Finding.severity f) severities
                     && negb (Finding.resolved f))
           (findings db)) in
    if forallb Models.Finding_valid rows then (Ok rows, db)
    else (Raise (DatabaseError "Failed to get unresolved findings"), db).

(** [get_artifacts_for_run]: [if artifact_type:] takes the unfiltered query
    for [None] and for the empty string. *)
Definition get_artifacts_for_run (run_id : nat) (artifact_type : option string)
    : M (list Artifact.t) :=
  fun db =>
    let of_type := fun a =>
      match artifact_type with
      | Some ty =>
          if String.eqb ty "" then true
          else String.eqb (Artifact.artifact_type a) ty
      | None => true
      end in
    let rows :=
      order_by (fun a => Z.of_nat (Artifact.created_at a))
        (List.filter (fun a => (Artifact.run_id a =? run_id)%nat && of_type a)
           (artifacts db)) in
    if forallb Models.Artifact_valid rows then (Ok rows, db)
    else (Raise (DatabaseError "Failed to get artifacts"), db).

Definition get_artifact (artifact_id : nat) : M (option Artifact.t) :=
  fun db =>
    match find (fun a => Artifact.artifact_id a =? artifact_id)%nat (artifacts db) with
    | Some a =>
        if Models.Artifact_valid a then (Ok (Some a), db)
        else (Raise (DatabaseError
                       ("Failed to get artifact " +:+ pretty artifact_id)), db)
    | None => (Ok None, db)
    end.

(** [recover_run]: an unknown run raises RunNotFoundError, which the
    enclosing handler turns into a DatabaseError. *)
Definition recover_run (run_id : nat) : M (Run.t * option Phase.t) :=
  let* run := get_run run_id in
  match run with
  | None => raise (DatabaseError "Failed to recover run")
  | Some r =>
      let* current_phase := get_current_phase run_id in
      ret (r, current_phase)
  end.

End StateManager.

(** ** verifier.py: configuration and the threshold gate *)

Module Verifier.

(** [d.get(k, dflt)] and [d[k]] on a dictionary of counts. *)
Definition dict_get (d : gmap string Z) (k : string) (dflt : Z) : Z :=
  default dflt (d !! k).

Definition dict_item (d : gmap string Z) (k : string) : res Z :=
  match d !! k with
  | Some v => Ok v
  | None => Raise (KeyError k)
  end.

(** The part of [VerificationConfig] that the gate reads.  Which check
    categories are enabled decides which external commands run; their
    outcome is supplied by the world (see [World.checks]). *)
Record VerificationConfig : Type := mkVerificationConfig {
  findings_thresholds : gmap string Z
}.

Definition default_findings_thresholds : gmap string Z :=
  {[ "major" := 0; "medium" := 3; "minor" := 10 ]}.

(** [VerificationConfig.__init__(config_dict)]; the argument is
    [config_dict]'s entry for "findings_thresholds", if any. *)
Definition VerificationConfig_init (configured : option (gmap string Z))
    : VerificationConfig :=
  mkVerificationConfig (default default_findings_thresholds configured).

(** The warning logged when a threshold is exceeded formats
    [findings_summary[k]] and [thresholds[k]], which raise KeyError on a
    missing key. *)
Definition log_exceeded (findings_summary thresholds : gmap string Z)
    (k : string) : res unit :=
  match dict_item findings_summary k with
  | Raise e => Raise e
  | Ok _ =>
      match dict_item thresholds k with
      | Raise e => Raise e
      | Ok _ => Ok tt
      end
  end.

Definition exceeded (findings_summary thresholds : gmap string Z)
    (k : string) : res bool :=
  match log_exceeded findings_summary thresholds k with
  | Raise e => Raise e
  | Ok _ => Ok false
  end.

Definition _check_findings_thresholds (config : VerificationConfig)
    (findings_summary : gmap string Z) : res bool :=
  let thresholds := findings_thresholds config in
  if dict_get thresholds "major" 0 <? dict_get findings_summary "major" 0
  then exceeded findings_summary thresholds "major"
  else if dict_get thresholds "medium" 3 <? dict_get findings_summary "medium" 0
  then exceeded findings_summary thresholds "medium"
  else if dict_get thresholds "minor" 10 <? dict_get findings_summary "minor" 0
  then exceeded findings_summary thresholds "minor"
  else Ok true.

End Verifier.

(** ** agents/copilot_models.py and agents/copilot_interface.py *)

(** A parsed JSON document; Python's [None] is [JNull]. *)
Inductive json : Type :=
  | JNull
  | JBool (b : bool)
  | JNum (n : Z)
  | JStr (s : string)
  | JArr (items : list json)
  | JObj (members : list (string * json)).

(** Truth value of a Python object ([if json_output:]). *)
Definition json_truthy (j : json) : bool :=
  match j with
  | JNull => false
  | JBool b => b
  | JNum n => negb (n =? 0)
  | JStr s => negb (String.eqb s "")
  | JArr items => match items with [] => false | _ => true end
  | JObj members => match members with [] => false | _ => true end
  end.

(** [d.get(k)] on a decoded JSON object: of duplicate members the decoder
    keeps the last one. *)
Fixpoint json_get (k : string) (members : list (string * json)) : option json :=
  match members with
  | [] => None
  | (k', v) :: rest =>
      match json_get k rest with
      | Some v' => Some v'
      | None => if String.eqb k' k then Some v else None
      end
  end.

Module Copilot.

(** A patch is a [Dict[str, str]]. *)
Definition patch : Type := list (string * string).

Definition patch_has (k : string) (p : patch) : bool :=
  existsb (fun kv => String.eqb (fst kv) k) p.

Record CopilotExecutionResult : Type := mkResult {
  success : bool;
  output_path : option string;
  summary : option string;
  files_modified : list string;
  files_created : list string;
  error_message : option string;
  error_type : option CopilotErrorType;
  changes_summary : option string;
  tests_added : list string;
  potential_issues : list string;
  completion_status : option string;
  patches : list patch
}.

(** [CopilotExecutionResult(success=False, error_message=.., error_type=..)] *)
Definition failure (msg : string) (ty : CopilotErrorType)
    (status : option string) : CopilotExecutionResult :=
  mkResult false None None [] [] (Some msg) (Some ty) None [] [] status [].

(** Field validation of the result model, on values taken from the JSON
    document: [Optional[str]], [List[str]] and [List[Dict[str, str]]].
    [None] is a validation error. *)
Definition as_optional_str (v : option json) : option (option string) :=
  match v with
  | None | Some JNull => Some None
  | Some (JStr s) => Some (Some s)
  | Some _ => None
  end.

Fixpoint all_str (items : list json) : option (list string) :=
  match items with
  | [] => Some []
  | JStr s :: rest => option_map (cons s) (all_str rest)
  | _ :: _ => None
  end.

(** A field read with [json_output.get(k, [])]. *)
Definition as_list_str (v : option json) : option (list string) :=
  match v with
  | None => Some []
  | Some (JArr items) => all_str items
  | Some _ => None
  end.

Fixpoint as_dict_str (members : list (string * json)) : option patch :=
  match members with
  | [] => Some []
  | (k, JStr s) :: rest => option_map (cons (k, s)) (as_dict_str rest)
  | _ :: _ => None
  end.

Fixpoint all_patches (items : list json) : option (list patch) :=
  match items with
  | [] => Some []
  | JObj members :: rest =>
      match as_dict_str members, all_patches rest with
      | Some p, Some ps => Some (p :: ps)
      | _, _ => None
      end
  | _ :: _ => None
  end.

Definition as_patches (v : option json) : option (list patch) :=
  match v with
  | None => Some []
  | Some (JArr items) => all_patches items
  | Some _ => None
  end.

(** What [execute_spec] observes of the spawned process. *)
Inductive cli_outcome : Type :=
  | CliTimeout
  | CliExit (returncode : Z) (stderr_not_found stderr_auth : bool)
            (json_output : json)
  | CliFileNotFound
  | CliUnexpected.

Definition no_actionable_changes : string :=
  "No actionable changes generated - patches field is empty".

Definition unexpected_error : string :=
  "Unexpected error executing Copilot CLI".

(** The result built from a JSON object on exit code 0. *)
Definition result_of_json (artifact_dir : string)
    (members : list (string * json)) : CopilotExecutionResult :=
  match as_optional_str (json_get "changes_summary" members),
        as_list_str (json_get "files_modified" members),
        as_list_str (json_get "files_created" members),
        as_list_str (json_get "tests_added" members),
        as_list_str (json_get "potential_issues" members),
        as_optional_str (json_get "completion_status" members),
        as_patches (json_get "patches" members) with
  | Some changes, Some modified, Some created, Some tests, Some issues,
    Some status, Some ps =>
      let result :=
        mkResult true (Some (artifact_dir +:+ "/copilot_output.json")) changes
          modified created
          None None changes tests issues status ps in
      match patches result with
      | [] => failure no_actionable_changes EXECUTION_ERROR (Some "blocked")
      | _ :: _ => result
      end
  | _, _, _, _, _, _, _ => failure unexpected_error EXECUTION_ERROR None
  end.

(** [CopilotCLIInterface.execute_spec], after the process has ended.  The
    text of a caught exception that the source appends to
    [unexpected_error] is left out. *)
Definition execute_spec (timeout : Z) (artifact_dir : string)
    (o : cli_outcome) : CopilotExecutionResult :=
  match o with
  | CliTimeout =>
      failure ("Copilot execution timed out after " +:+ pretty timeout +:+ "s")
        TIMEOUT None
  | CliExit returncode stderr_not_found stderr_auth json_output =>
      if negb (returncode =? 0) then
        failure ("Copilot CLI failed with exit code " +:+ pretty returncode)
          (if stderr_not_found then NOT_FOUND
           else if stderr_auth then AUTH_ERROR else EXECUTION_ERROR)
          None
      else if json_truthy json_output then
        match json_output with
        | JObj members => result_of_json artifact_dir members
        | _ => failure unexpected_error EXECUTION_ERROR None
        end
      else
        failure "Copilot did not return JSON output as required" PARSE_ERROR None
  | CliFileNotFound => failure "GitHub CLI not found" NOT_FOUND None
  | CliUnexpected => failure unexpected_error EXECUTION_ERROR None
  end.

(** [needle in hay] on [str] and on [bytes]. *)
Definition contains (needle hay : string) : bool :=
  match String.index 0 needle hay with
  | Some _ => true
  | None => false
  end.

(** What [validate_environment] observes of a [gh] process it spawns: the
    process ends, the executable is missing (FileNotFoundError, with its
    text), or [wait_for] times out.  The output is taken as decoded. *)
Inductive proc_outcome : Type :=
  | ProcExit (returncode : Z) (stdout stderr : string)
  | ProcNotFound (msg : string)
  | ProcTimeout.

Record CopilotValidationResult : Type := mkValidation {
  valid : bool;
  gh_cli_available : bool;
  copilot_extension_installed : bool;
  authenticated : bool;
  copilot_access : bool;
  error_messages : list string;
  gh_version : option string
}.

(** [CopilotCLIInterface.validate_environment].  [version_of stdout] is the
    group matched by [re.search(r"gh version (\S+)", stdout)], if any; the
    three outcomes are those of [gh --version], [gh extension list] and
    [gh auth status].  Only the first check catches FileNotFoundError. *)
Definition validate_environment (version_of : string -> option string)
    (version extension auth : proc_outcome) : res CopilotValidationResult :=
  match version with
  | ProcNotFound msg =>
      Ok (mkValidation false false false false false
            ["gh CLI not found: " +:+ msg] None)
  | ProcTimeout =>
      Ok (mkValidation false false false false false ["gh CLI not found: "] None)
  | ProcExit returncode stdout _ =>
      let gh := returncode =? 0 in
      let ver := if gh then version_of stdout else None in
      let errs1 := if gh then [] else ["gh CLI not found or not working"] in
      match extension with
      | ProcNotFound msg => Raise (PyException msg)
      | _ =>
          let ext :=
            match extension with
            | ProcExit _ out _ =>
                contains "github/gh-copilot" out || contains "copilot" out
            | _ => false
            end in
          let errs2 :=
            match extension with
            | ProcTimeout => ["Timeout checking Copilot extension"]
            | _ =>
                if ext then []
                else ["Copilot extension not installed. "
                      +:+ "Run: gh extension install github/gh-copilot"]
            end in
          match auth with
          | ProcNotFound msg => Raise (PyException msg)
          | _ =>
              let logged_in :=
                match auth with
                | ProcExit _ out err =>
                    contains "Logged in to github.com" (out +:+ err)
                | _ => false
                end in
              let errs3 :=
                match auth with
                | ProcTimeout => ["Timeout checking authentication"]
                | _ =>
                    if logged_in then []
                    else ["Not authenticated to GitHub. Run: gh auth login"]
                end in
              let access := ext && logged_in in
              Ok (mkValidation (gh && ext && logged_in && access) gh ext
                    logged_in access (errs1 ++ errs2 ++ errs3) ver)
          end
      end
  end.

End Copilot.

(** ** Python call binding *)

Inductive pyval : Type :=
  | PStr (s : string)
  | PInt (n : Z)
  | PId (id : nat).

Definition kwargs : Type := list (string * pyval).

Definition kw_lookup (k : string) (kw : kwargs) : option pyval :=
  option_map snd (find (fun kv => String.eqb (fst kv) k) kw).

Definition kw_str (k : string) (kw : kwargs) : string :=
  match kw_lookup k kw with
  | Some (PStr s) => s
  | Some (PInt n) => pretty n
  | Some (PId id) => pretty id
  | None => ""
  end.

Definition kw_opt_str (k : string) (kw : kwargs) : option string :=
  match kw_lookup k kw with
  | Some _ => Some (kw_str k kw)
  | None => None
  end.

Definition kw_id (k : string) (kw : kwargs) : nat :=
  match kw_lookup k kw with
  | Some (PId id) => id
  | Some (PInt n) => Z.to_nat n
  | _ => 0%nat
  end.

(** Binding of a call made with keyword arguments only to a parameter list
    (name, has a default): a keyword that names no parameter, or a parameter
    without default that no keyword names, raises TypeError. *)
Definition bind_keywords (params : list (string * bool)) (kw : kwargs)
    : res unit :=
  match find (fun k => negb (str_in k (map fst params))) (map fst kw) with
  | Some k => Raise (TypeError ("got an unexpected keyword argument '" +:+ k +:+ "'"))
  | None =>
      match find (fun p => negb (snd p) && negb (str_in (fst p) (map fst kw))) params with
      | Some p => Raise (TypeError ("missing required argument '" +:+ fst p +:+ "'"))
      | None => Ok tt
      end
  end.

(** Parameters of [StateManager.add_finding] after [self]; only
    [suggested_fix] has a default. *)
Definition add_finding_params : list (string * bool) :=
  [("execution_id", false); ("severity", false); ("category", false);
   ("title", false); ("description", false); ("evidence", false);
   ("suggested_fix", true)].

(** A call of [self.state_manager.add_finding] with the keyword arguments
    [kw]. *)
Definition call_add_finding (kw : kwargs) : M Finding.t :=
  match bind_keywords add_finding_params kw with
  | Raise e => raise e
  | Ok _ =>
      StateManager.add_finding (kw_id "execution_id" kw) (kw_str "severity" kw)
        (kw_str "category" kw) (kw_str "title" kw) (kw_str "description" kw)
        (kw_str "evidence" kw) (kw_opt_str "suggested_fix" kw)
  end.

(** ** The world outside the store *)

Inductive Severity : Type := Major | Medium | Minor.

Inductive Category : Type :=
  | Build | Test | Lint | Security | SpecValidation | Custom.

Definition severity_str (s : Severity) : string :=
  match s with Major => "major" | Medium => "medium" | Minor => "minor" end.

Definition category_str (c : Category) : string :=
  match c with
  | Build => "build" | Test => "test" | Lint => "lint"
  | Security => "security" | SpecValidation => "spec_validation"
  | Custom => "custom"
  end.

(** A finding as the checks create it, before it is persisted. *)
Record Found : Type := mkFound {
  found_severity : Severity;
  found_category : Category;
  found_title : string;
  found_description : string;
  found_evidence : string;
  found_suggested_fix : string
}.

(** What the enabled checks of one verification pass produce. *)
Record CheckOutcome : Type := mkCheckOutcome {
  checks_ran : list string;
  all_findings : list Found;
  unmet_checklist_items : list string
}.

(** Configuration of the executor and the behaviour of its collaborators;
    the collaborators are indexed by phase identifier and pass number. *)
Record World : Type := mkWorld {
  max_retries : Z;                       (* config.execution.max_retries *)
  copilot_mode : string;                 (* config.execution.copilot_mode *)
  artifact_base_path : string;           (* config.paths.artifact_base_path *)
  copilot_interface : bool;              (* self.copilot_interface is not None *)
  copilot_timeout : Z;
  git_repo : bool;                       (* self.git_repo is not None *)
  configured_thresholds : option (gmap string Z);
  environment_valid : bool;              (* validate_environment().valid *)
  spec_rendered : nat -> Z -> bool;      (* the spec text is rendered and written *)
  prompt_rendered : nat -> Z -> bool;    (* the prompt template is rendered *)
  cli : nat -> Z -> Copilot.cli_outcome;
  prompt_file_exists : nat -> Z -> bool;
  patches_dir_exists : nat -> Z -> bool;
  patch_file_exists : nat -> Z -> nat -> bool;
  git_apply : nat -> Z -> nat -> bool;   (* git apply --check of patch idx *)
  phase_branch : nat -> option string;   (* the branch created and checked out *)
  checks : nat -> Z -> CheckOutcome;
  feedback_spec_written : nat -> Z -> bool;
  modified_spec_exists : bool;           (* os.path.exists(modified_spec_path) *)
  phase_id_attr : Phase.t -> res nat     (* phase.id *)
}.

(** [phase.id] on a [models.PhaseState], which has the fields of the phases
    table and no [id]. *)
Definition PhaseState_id (p : Phase.t) : res nat :=
  Raise (AttributeError "'PhaseState' object has no attribute 'id'").

(** [phase.id] on the phase objects of the executor's tests. *)
Definition mock_id (p : Phase.t) : res nat := Ok (Phase.phase_id p).

(** The world [w] with phase objects that carry [id]. *)
Definition with_mock_ids (w : World) : World :=
  mkWorld (max_retries w) (copilot_mode w) (artifact_base_path w)
    (copilot_interface w) (copilot_timeout w) (git_repo w)
    (configured_thresholds w) (environment_valid w) (spec_rendered w)
    (prompt_rendered w) (cli w) (prompt_file_exists w) (patches_dir_exists w)
    (patch_file_exists w) (git_apply w) (phase_branch w) (checks w)
    (feedback_spec_written w) (modified_spec_exists w) mock_id.

(** ** verifier.py: one verification pass *)

Module PhaseVerifier.

Record VerificationResult : Type := mkVerificationResult {
  passed : bool;
  findings : list Found;
  findings_summary : gmap string Z;
  failed_checklist_items : list string;
  checks_run : list string
}.

(** [sum(1 for f in all_findings if f.severity == s)] *)
Definition count_severity (s : string) (fs : list Found) : Z :=
  Z.of_nat
    (length
       (List.filter (fun f => String.eqb (severity_str (found_severity f)) s) fs)).

Definition summarize (fs : list Found) : gmap string Z :=
  {[ "major" := count_severity "major" fs;
     "medium" := count_severity "medium" fs;
     "minor" := count_severity "minor" fs ]}.

(** One iteration of the loop that persists the findings; a failure to
    persist is logged and skipped. *)
Definition persist_finding (execution_id : nat) (f : Found) : M unit :=
  try_except
    (call_add_finding
       [("execution_id", PId execution_id);
        ("severity", PStr (severity_str (found_severity f)));
        ("category", PStr (category_str (found_category f)));
        ("title", PStr (found_title f));
        ("description", PStr (found_description f));
        ("evidence", PStr (found_evidence f));
        ("suggested_fix", PStr (found_suggested_fix f))] ;;
     ret tt)
    (fun _ => ret tt).

Fixpoint persist_findings (execution_id : nat) (fs : list Found) : M unit :=
  match fs with
  | [] => ret tt
  | f :: rest => persist_finding execution_id f ;; persist_findings execution_id rest
  end.

Definition verify_phase_execution (w : World) (execution_id phase_id : nat)
    (pass_number : Z) : M VerificationResult :=
  let outcome := checks w phase_id pass_number in
  let fs := all_findings outcome in
  let summary := summarize fs in
  persist_findings execution_id fs ;;
  match Verifier._check_findings_thresholds
          (Verifier.VerificationConfig_init (configured_thresholds w)) summary with
  | Raise e => raise e
  | Ok p =>
      ret (mkVerificationResult p fs summary (unmet_checklist_items outcome)
             (checks_ran outcome))
  end.

End PhaseVerifier.

(** ** executor.py: PhaseExecutor *)

(** [d[k]] on a patch dictionary (of duplicate keys the last one counts). *)
Fixpoint patch_get (k : string) (p : Copilot.patch) : string :=
  match p with
  | [] => ""
  | (k', v) :: rest =>
      if Copilot.patch_has k rest then patch_get k rest
      else if String.eqb k' k then v else ""
  end.

(** [s or dflt] on an optional string. *)
Definition str_or (s : option string) (dflt : string) : string :=
  match s with
  | Some v => if String.eqb v "" then dflt else v
  | None => dflt
  end.

Definition str_truthy (s : option string) : bool :=
  match s with
  | Some v => negb (String.eqb v "")
  | None => false
  end.

Definition exn_str (e : exn) : string :=
  match e with
  | DatabaseError m => "Database error: " +:+ m
  | ValueError m | TypeError m | AttributeError m | PyException m => m
  | KeyError k => "'" +:+ k +:+ "'"
  | CopilotCLIError m _ => "CopilotCLIError: " +:+ m
  end.

Module PhaseExecutor.
Section WithWorld.

Variable w : World.

(** [artifact_base_path / run_id / phase_id / f"pass_{pass_number}"] *)
Definition artifact_dir (run_id phase_id : nat) (pass_number : Z) : string :=
  artifact_base_path w +:+ "/" +:+ pretty run_id +:+ "/" +:+ pretty phase_id
    +:+ "/pass_" +:+ pretty pass_number.

Definition phase_not_found {A} (phase_id : nat) : M A :=
  raise (ValueError ("Phase " +:+ pretty phase_id +:+ " not found")).

(** Reads the phase and logs; nothing is written. *)
Definition report_phase_progress (phase_id : nat) : M unit :=
  StateManager.get_phase phase_id ;; ret tt.

Definition generate_phase_spec (phase_id : nat) (pass_number : Z) : M string :=
  let* phase := StateManager.get_phase phase_id in
  match phase with
  | None => phase_not_found phase_id
  | Some phase =>
      if spec_rendered w phase_id pass_number then
        let spec_path :=
          artifact_dir (Phase.run_id phase) phase_id pass_number +:+ "/spec.md" in
        StateManager.register_artifact (Phase.run_id phase) "spec" spec_path
          (Some phase_id) None ;;
        ret spec_path
      else raise (PyException "specification could not be rendered")
  end.

Definition _render_copilot_prompt (phase_id : nat) (pass_number : Z) : M unit :=
  let* phase := StateManager.get_phase phase_id in
  match phase with
  | None => phase_not_found phase_id
  | Some _ =>
      (if 1 <? pass_number
       then StateManager.get_findings_for_phase phase_id ;; ret tt
       else ret tt) ;;
      if prompt_rendered w phase_id pass_number then ret tt
      else raise (PyException "prompt could not be rendered")
  end.

(** The loop over [enumerate(result.patches)]: the files applied and the
    failures (file or index, reason). *)
Fixpoint apply_each (phase_id : nat) (pass_number : Z) (idx : nat)
    (ps : list Copilot.patch) (applied : list string)
    (failed : list (string * string)) : list string * list (string * string) :=
  match ps with
  | [] => (applied, failed)
  | p :: rest =>
      if negb (Copilot.patch_has "file" p && Copilot.patch_has "diff" p) then
        apply_each phase_id pass_number (S idx) rest applied
          (failed ++ [(pretty idx, "Invalid format")])
      else if negb (patch_file_exists w phase_id pass_number idx) then
        apply_each phase_id pass_number (S idx) rest applied
          (failed ++ [(patch_get "file" p, "Patch file not found")])
      else if git_apply w phase_id pass_number idx then
        apply_each phase_id pass_number (S idx) rest
          (applied ++ [patch_get "file" p]) failed
      else
        apply_each phase_id pass_number (S idx) rest applied
          (failed ++ [(patch_get "file" p, "git apply failed")])
  end.

(** Keyword arguments of the [add_finding] call made when patches failed;
    [evidence] is [json.dumps(failed_patches)], abbreviated to the
    failed names. *)
Definition patch_failure_finding (id : nat) (pass_number : Z)
    (failed : list (string * string)) : kwargs :=
  [("phase_id", PId id);
   ("pass_number", PInt pass_number);
   ("severity", PStr "major");
   ("title", PStr "Patch application failures");
   ("description",
    PStr ("Failed to apply " +:+ pretty (length failed) +:+ " patches"));
   ("evidence", PStr (String.concat ", " (map fst failed)));
   ("suggested_fix",
    PStr "Review patch conflicts and regenerate patches with proper context")].

Definition _apply_copilot_patches (phase : Phase.t)
    (result : Copilot.CopilotExecutionResult) (pass_number : Z) : M bool :=
  if negb (git_repo w) then ret false
  else
    match Copilot.patches result with
    | [] => ret false
    | _ :: _ =>
        if negb (patches_dir_exists w (Phase.phase_id phase) pass_number)
        then ret false
        else
          try_except
            (let '(applied, failed) :=
               apply_each (Phase.phase_id phase) pass_number 0
                 (Copilot.patches result) [] [] in
             match failed with
             | [] => ret true
             | _ :: _ =>
                 let* id := lift (phase_id_attr w phase) in
                 call_add_finding (patch_failure_finding id pass_number failed) ;;
                 ret false
             end)
            (fun _ => ret false)
    end.

(** [result.success = False] with the error of a failed patch application. *)
Definition patches_failed (result : Copilot.CopilotExecutionResult)
    : Copilot.CopilotExecutionResult :=
  Copilot.mkResult false (Copilot.output_path result) (Copilot.summary result)
    (Copilot.files_modified result) (Copilot.files_created result)
    (Some "Failed to apply one or more patches") (Some EXECUTION_ERROR)
    (Copilot.changes_summary result) (Copilot.tests_added result)
    (Copilot.potential_issues result) (Copilot.completion_status result)
    (Copilot.patches result).

(** The statements of [execute_with_copilot] that follow the call of
    [execute_spec] inside its [try] block.  The commit made in branch mode
    after the patches were applied acts on the working tree only. *)
Definition record_copilot_result (phase : Phase.t) (execution_id : nat)
    (pass_number : Z) (result : Copilot.CopilotExecutionResult)
    : M Copilot.CopilotExecutionResult :=
  let phase_id := Phase.phase_id phase in
  let dir := artifact_dir (Phase.run_id phase) phase_id pass_number in
  (if Copilot.success result then
     StateManager.complete_execution execution_id
       (str_or (Copilot.output_path result) "")
       (str_or (Copilot.summary result) "")
   else
     StateManager.fail_execution execution_id
       (str_or (Copilot.error_message result) "Unknown error")) ;;
  (if str_truthy (Copilot.output_path result) then
     StateManager.register_artifact (Phase.run_id phase) "copilot_output"
       (str_or (Copilot.output_path result) "") (Some phase_id) None ;;
     ret tt
   else ret tt) ;;
  (if prompt_file_exists w phase_id pass_number then
     StateManager.register_artifact (Phase.run_id phase) "copilot_prompt"
       (dir +:+ "/copilot_prompt.md") (Some phase_id) None ;;
     ret tt
   else ret tt) ;;
  if Copilot.success result
     && match Copilot.patches result with [] => false | _ => true end
  then
    let* patch_success := _apply_copilot_patches phase result pass_number in
    if negb patch_success then ret (patches_failed result)
    else ret result
  else ret result.

Definition execute_with_copilot (phase_id : nat) (spec_path : string)
    (pass_number : Z) : M Copilot.CopilotExecutionResult :=
  if negb (copilot_interface w) then
    ret (Copilot.mkResult false None None [] []
           (Some "Copilot CLI integration is disabled") None None [] [] None [])
  else
    let* phase := StateManager.get_phase phase_id in
    match phase with
    | None => phase_not_found phase_id
    | Some phase =>
        let dir := artifact_dir (Phase.run_id phase) phase_id pass_number in
        _render_copilot_prompt phase_id pass_number ;;
        (if 1 <? pass_number
         then StateManager.get_findings_for_phase phase_id ;; ret tt
         else ret tt) ;;
        let execution_mode :=
          if String.eqb (copilot_mode w) "branch" then "branch" else "direct" in
        let* execution_state :=
          StateManager.create_execution phase_id pass_number spec_path
            execution_mode in
        let execution_id := Execution.execution_id execution_state in
        try_except
          (record_copilot_result phase execution_id pass_number
             (Copilot.execute_spec (copilot_timeout w) dir
                (cli w phase_id pass_number)))
          (fun e =>
             match e with
             | CopilotCLIError _ error_type =>
                 StateManager.fail_execution execution_id (exn_str e) ;;
                 ret (Copilot.failure (exn_str e) error_type None)
             | _ => raise e
             end)
    end.

(** [max(executions, key=lambda e: e.started_at)]: the first execution
    with the greatest start time. *)
Fixpoint latest_execution (executions : list Execution.t) : option Execution.t :=
  match executions with
  | [] => None
  | e :: rest =>
      match latest_execution rest with
      | Some e' =>
          if (Execution.started_at e <? Execution.started_at e')%nat
          then Some e' else Some e
      | None => Some e
      end
  end.

(** The result returned when the phase has no execution. *)
Definition vacuous_pass : PhaseVerifier.VerificationResult :=
  PhaseVerifier.mkVerificationResult true []
    {[ "major" := 0; "medium" := 0; "minor" := 0 ]} [] [].

Definition _run_verification (phase : Phase.t) (pass_number : Z)
    : M PhaseVerifier.VerificationResult :=
  let* executions := StateManager.get_executions_for_phase (Phase.phase_id phase) in
  match latest_execution executions with
  | None => ret vacuous_pass
  | Some latest =>
      let dir := artifact_dir (Phase.run_id phase) (Phase.phase_id phase) pass_number in
      let* verification_result :=
        PhaseVerifier.verify_phase_execution w (Execution.execution_id latest)
          (Phase.phase_id phase) pass_number in
      StateManager.register_artifact (Phase.run_id phase) "findings_report_md"
        (dir +:+ "/findings_report.md") (Some (Phase.phase_id phase)) None ;;
      StateManager.register_artifact (Phase.run_id phase) "findings_report_json"
        (dir +:+ "/Findings.json") (Some (Phase.phase_id phase)) None ;;
      ret verification_result
  end.

Definition _handle_verification_failure (phase : Phase.t) (pass_number : Z)
    : M bool :=
  let* id := lift (phase_id_attr w phase) in
  let dir := artifact_dir (Phase.run_id phase) id pass_number in
  StateManager.get_executions_for_phase id ;;
  if feedback_spec_written w (Phase.phase_id phase) pass_number then
    StateManager.register_artifact (Phase.run_id phase) "feedback_spec"
      (dir +:+ "/feedback_spec_pass_" +:+ pretty pass_number +:+ ".md")
      (Some (Phase.phase_id phase)) None ;;
    ret true
  else raise (PyException "feedback spec could not be written").

(** Branch operations act on the working tree and catch their own
    exceptions; of the store they touch only [phases.branch_name], which
    [create_phase_branch] sets once the branch is checked out. *)
Definition create_phase_branch (phase : Phase.t) : M string :=
  if negb (String.eqb (copilot_mode w) "branch") then ret ""
  else if negb (git_repo w) then ret ""
  else
    match phase_branch w (Phase.phase_id phase) with
    | None => ret ""
    | Some branch_name =>
        match phase_id_attr w phase with
        | Raise _ => ret ""
        | Ok id =>
            fun db =>
              (Ok branch_name,
               set_phases
                 (update_where (fun p => Phase.phase_id p =? id)%nat
                    (Phase.set_branch_name branch_name) (phases db)) db)
        end
    end.

Definition merge_phase_branch (phase : Phase.t) : M unit := ret tt.

Definition cleanup_phase_branch (phase : Phase.t) : M unit := ret tt.

Definition handle_execution_error (phase_id : nat) (error : exn) : M unit :=
  let* phase := StateManager.get_phase phase_id in
  match phase with
  | None => ret tt
  | Some _ => StateManager.update_phase_status phase_id "failed" None None
  end.

Definition handle_manual_intervention (phase_id : nat) : M nat :=
  let* phase := StateManager.get_phase phase_id in
  match phase with
  | None => phase_not_found phase_id
  | Some phase =>
      let* intervention :=
        StateManager.create_intervention phase_id "max_retries_exceeded" in
      StateManager.update_phase_status phase_id "paused" None None ;;
      StateManager.update_run_status (Phase.run_id phase) "paused" None ;;
      ret (Intervention.intervention_id intervention)
  end.

Inductive loop_ctl : Type :=
  | Continue
  | Break
  | Return (b : bool).

(** The body of [for pass_number in range(1, max_retries + 1)]. *)
Definition one_pass (phase_id : nat) (phase : Phase.t) (branch_name : string)
    (pass_number : Z) : M loop_ctl :=
  report_phase_progress phase_id ;;
  try_except
    (let* spec_path := generate_phase_spec phase_id pass_number in
     report_phase_progress phase_id ;;
     let* copilot_result := execute_with_copilot phase_id spec_path pass_number in
     if negb (Copilot.success copilot_result) then
       StateManager.increment_phase_retry phase_id ;;
       if pass_number <? max_retries w then
         report_phase_progress phase_id ;;
         ret Continue
       else
         raise (PyException
                  ("Copilot execution failed: "
                   +:+ str_or (Copilot.error_message copilot_result) "None"))
     else
       report_phase_progress phase_id ;;
       report_phase_progress phase_id ;;
       let* verification_result := _run_verification phase pass_number in
       if negb (PhaseVerifier.passed verification_result) then
         let* retrying :=
           (if pass_number <? max_retries w then
              let* should_retry := _handle_verification_failure phase pass_number in
              if should_retry then
                StateManager.increment_phase_retry phase_id ;;
                report_phase_progress phase_id ;;
                ret true
              else ret false
            else ret false) in
         if retrying then ret Continue
         else
           raise (PyException
                    ("Verification failed after " +:+ pretty (max_retries w)
                     +:+ " attempts."))
       else
         let* t := now in
         StateManager.update_phase_status phase_id "completed" None (Some t) ;;
         (if negb (String.eqb branch_name "") then merge_phase_branch phase
          else ret tt) ;;
         ret (Return true))
    (fun e =>
       StateManager.increment_phase_retry phase_id ;;
       if pass_number =? max_retries w then
         handle_execution_error phase_id e ;;
         ret Break
       else ret Continue).

(** The loop: [None] when it ends without returning. *)
Fixpoint pass_loop (phase_id : nat) (phase : Phase.t) (branch_name : string)
    (passes : list Z) : M (option bool) :=
  match passes with
  | [] => ret None
  | pass_number :: rest =>
      let* ctl := one_pass phase_id phase branch_name pass_number in
      match ctl with
      | Continue => pass_loop phase_id phase branch_name rest
      | Break => ret None
      | Return b => ret (Some b)
      end
  end.

(** [range(1, max_retries + 1)] *)
Definition pass_numbers : list Z :=
  map Z.of_nat (seq 1 (Z.to_nat (max_retries w))).

Definition execute_single_phase (phase_id : nat) : M bool :=
  try_except
    (let* phase := StateManager.get_phase phase_id in
     match phase with
     | None => ret false
     | Some phase =>
         let* t := now in
         StateManager.update_phase_status phase_id "in_progress" (Some t) None ;;
         report_phase_progress phase_id ;;
         let* branch_name := create_phase_branch phase in
         let* returned := pass_loop phase_id phase branch_name pass_numbers in
         match returned with
         | Some b => ret b
         | None =>
             (if negb (String.eqb branch_name "") then
                let* phase' := StateManager.get_phase phase_id in
                match phase' with
                | Some p => cleanup_phase_branch p
                | None => ret tt
                end
              else ret tt) ;;
             handle_manual_intervention phase_id ;;
             ret false
         end
     end)
    (fun e => handle_execution_error phase_id e ;; ret false).

Definition resume_phase (phase_id : nat) (action : string)
    (modified_spec_path : option string) : M unit :=
  let* phase := StateManager.get_phase phase_id in
  match phase with
  | None => phase_not_found phase_id
  | Some phase =>
      let* interventions :=
        StateManager.get_pending_interventions (Phase.run_id phase) in
      match find (fun i => Intervention.phase_id i =? phase_id)%nat interventions with
      | None => ret tt
      | Some active_intervention =>
          let id := Intervention.intervention_id active_intervention in
          if String.eqb action "resume" then
            StateManager.update_phase_status phase_id "in_progress" None None ;;
            StateManager.update_run_status (Phase.run_id phase) "executing" None ;;
            StateManager.resolve_intervention id "resumed" None
          else if String.eqb action "skip" then
            StateManager.update_phase_status phase_id "skipped" None None ;;
            StateManager.resolve_intervention id "skipped" None
          else if String.eqb action "modify_spec" then
            if negb (str_truthy modified_spec_path) || negb (modified_spec_exists w)
            then raise (ValueError
                          "Valid modified_spec_path required for modify_spec action")
            else
              StateManager.update_phase_status phase_id "in_progress" None None ;;
              StateManager.update_run_status (Phase.run_id phase) "executing" None ;;
              StateManager.resolve_intervention id "modified_spec" None
          else if String.eqb action "abort" then
            StateManager.update_phase_status phase_id "failed" None None ;;
            StateManager.update_run_status (Phase.run_id phase) "aborted" None ;;
            StateManager.resolve_intervention id "aborted" None
          else raise (ValueError ("Invalid action: " +:+ action))
      end
  end.

(** [sorted(phases, key=lambda p: p.phase_number)] *)
Definition sorted_phases (l : list Phase.t) : list Phase.t :=
  order_by Phase.phase_number l.

Definition recover_execution (run_id : nat) : M (option nat) :=
  let* run := StateManager.get_run run_id in
  match run with
  | None => ret None
  | Some run =>
      if negb (str_in (Run.status run) ["executing"; "paused"]) then ret None
      else
        let* phases := StateManager.get_phases_for_run run_id in
        match find (fun p => str_in (Phase.status p) ["in_progress"; "paused"])
                (sorted_phases phases) with
        | Some phase =>
            let* id := lift (phase_id_attr w phase) in
            ret (Some id)
        | None => ret None
        end
  end.

Record ExecutionSummary : Type := mkSummary {
  summary_total_phases : Z;
  summary_completed : Z;
  summary_failed : Z;
  summary_skipped : Z;
  summary_in_progress : Z;
  summary_total_passes : Z;
  summary_total_executions : Z;
  summary_total_findings : Z
}.

Definition count_status (s : string) (l : list Phase.t) : Z :=
  Z.of_nat (length (List.filter (fun p => String.eqb (Phase.status p) s) l)).

Fixpoint count_passes (l : list Phase.t) : M Z :=
  match l with
  | [] => ret 0
  | phase :: rest =>
      let* id := lift (phase_id_attr w phase) in
      let* artifacts := StateManager.get_artifacts_for_phase id in
      let* n := count_passes rest in
      ret (Z.of_nat
             (length
                (List.filter
                   (fun a => String.eqb (Artifact.artifact_type a) "specification")
                   artifacts)) + n)
  end.

Fixpoint count_executions_findings (l : list Phase.t) : M (Z * Z) :=
  match l with
  | [] => ret (0, 0)
  | phase :: rest =>
      let* id := lift (phase_id_attr w phase) in
      let* phase_executions := StateManager.get_executions_for_phase id in
      let* phase_findings := StateManager.get_findings_for_phase id in
      let* n := count_executions_findings rest in
      ret (Z.of_nat (length phase_executions) + fst n,
           Z.of_nat (length phase_findings) + snd n)
  end.

Definition generate_execution_summary (run_id : nat) : M ExecutionSummary :=
  let* phases := StateManager.get_phases_for_run run_id in
  let* total_passes := count_passes phases in
  let* totals := count_executions_findings phases in
  ret (mkSummary (Z.of_nat (length phases)) (count_status "completed" phases)
         (count_status "failed" phases) (count_status "skipped" phases)
         (count_status "in_progress" phases) total_passes (fst totals)
         (snd totals)).

Section Orchestration.

(** The method [execute_single_phase] that [execute_phases] awaits. *)
Variable run_phase : nat -> M bool.

(** The loop over [phases_sorted]; [true] when the loop returns from
    [execute_phases], [false] when it runs to its end. *)
Fixpoint phases_loop (run_id : nat) (l : list Phase.t) : M bool :=
  match l with
  | [] => ret false
  | phase :: rest =>
      if String.eqb (Phase.status phase) "skipped" then phases_loop run_id rest
      else
        let* id := lift (phase_id_attr w phase) in
        let* success := run_phase id in
        if negb success then
          let* run_state := StateManager.get_run run_id in
          if match run_state with
             | Some r => String.eqb (Run.status r) "paused"
             | None => false
             end
          then ret true
          else
            StateManager.update_run_status run_id "failed" None ;;
            ret true
        else phases_loop run_id rest
  end.

Definition execute_phases_with (run_id : nat) : M unit :=
  try_except
    ((if copilot_interface w && negb (environment_valid w) then
        StateManager.update_run_status run_id "failed" None ;;
        raise (PyException "Copilot validation failed")
      else ret tt) ;;
     let* phases := StateManager.get_phases_for_run run_id in
     match phases with
     | [] => ret tt
     | _ :: _ =>
         StateManager.update_run_status run_id "executing" None ;;
         let* returned := phases_loop run_id (sorted_phases phases) in
         if returned then ret tt
         else
           StateManager.update_run_status run_id "completed" None ;;
           generate_execution_summary run_id ;;
           ret tt
     end)
    (fun e =>
       StateManager.update_run_status run_id "failed" None ;;
       raise e).

End Orchestration.

Definition execute_phases (run_id : nat) : M unit :=
  execute_phases_with execute_single_phase run_id.

End WithWorld.
End PhaseExecutor.

(** ** Notions used to state the properties *)

Definition find_run (run_id : nat) (db : DB) : option Run.t :=
  find (fun r => Run.run_id r =? run_id)%nat (runs db).

Definition find_phase (phase_id : nat) (db : DB) : option Phase.t :=
  find (fun p => Phase.phase_id p =? phase_id)%nat (phases db).

Definition run_status_of (run_id : nat) (db : DB) : option string :=
  option_map Run.status (find_run run_id db).

(** The phases of a run, as rows of the table. *)
Definition phase_of_run (db : DB) (run_id : nat) (p : Phase.t) : Prop :=
  In p (phases db) /\ Phase.run_id p = run_id.

(** A phase that recovery may resume. *)
Definition resumable (p : Phase.t) : bool :=
  str_in (Phase.status p) ["in_progress"; "paused"].

(** The reading of "most recent" by position in the run: no resumable phase
    of the run has a greater phase number. *)
Definition most_recent_resumable (db : DB) (run_id : nat) (p : Phase.t) : Prop :=
  phase_of_run db run_id p /\ resumable p = true /\
  forall q, phase_of_run db run_id q -> resumable q = true ->
            Phase.phase_number q <= Phase.phase_number p.

(** The reading of "most recent" by time: no resumable phase of the run was
    started later. *)
Definition latest_started_resumable (db : DB) (run_id : nat) (p : Phase.t) : Prop :=
  phase_of_run db run_id p /\ resumable p = true /\
  forall q t, phase_of_run db run_id q -> resumable q = true ->
              Phase.started_at q = Some t ->
              exists t', Phase.started_at p = Some t' /\ (t <= t')%nat.

(** What the code returns: no resumable phase of the run has a smaller
    phase number. *)
Definition first_resumable (db : DB) (run_id : nat) (p : Phase.t) : Prop :=
  phase_of_run db run_id p /\ resumable p = true /\
  forall q, phase_of_run db run_id q -> resumable q = true ->
            Phase.phase_number p <= Phase.phase_number q.

Definition first_in_progress (db : DB) (run_id : nat) (p : Phase.t) : Prop :=
  phase_of_run db run_id p /\ Phase.status p = "in_progress" /\
  forall q, phase_of_run db run_id q -> Phase.status q = "in_progress" ->
            Phase.phase_number p <= Phase.phase_number q.

(** The order that [order_by] establishes. *)
Definition key_le {A} (key : A -> Z) (a b : A) : Prop := key a <= key b.

(** The phase is stored, can be read back, and has the given retry count
    and status. *)
Definition phase_at (phase_id : nat) (db : DB) (c : Z) (st : string) : Prop :=
  exists p, find_phase phase_id db = Some p
            /\ Models.PhaseState_valid p = true
            /\ Phase.retry_count p = c /\ Phase.status p = st.

(** The rows of a run's phases can be read back. *)
Definition phases_readable (db : DB) (run_id : nat) : Prop :=
  forall p, phase_of_run db run_id p -> Models.PhaseState_valid p = true.

(** Number of phases of a run whose status is completed. *)
Definition count_completed (run_id : nat) (db : DB) : Z :=
  Z.of_nat
    (length
       (List.filter
          (fun p => (Phase.run_id p =? run_id)%nat
                    && String.eqb (Phase.status p) "completed") (phases db))).

Definition counter_consistent (db : DB) : bool :=
  forallb (fun r => Run.completed_phases r =? count_completed (Run.run_id r) db)
    (runs db).

(** Every non-skipped phase of the list succeeds, one after the other: the
    state reached after the last of them. *)
Fixpoint succeed_all (run_phase : nat -> M bool) (l : list Phase.t) (db : DB)
    : option DB :=
  match l with
  | [] => Some db
  | p :: rest =>
      if String.eqb (Phase.status p) "skipped" then succeed_all run_phase rest db
      else
        match run_phase (Phase.phase_id p) db with
        | (Ok true, db1) => succeed_all run_phase rest db1
        | _ => None
        end
  end.


(** Number of phases of a run. *)
Definition count_phases (run_id : nat) (db : DB) : Z :=
  Z.of_nat
    (length (List.filter (fun p => (Phase.run_id p =? run_id)%nat) (phases db))).

(** Every run's [total_phases] is the number of its phases. *)
Definition totals_consistent (db : DB) : bool :=
  forallb (fun r => Run.total_phases r =? count_phases (Run.run_id r) db)
    (runs db).

(** Number of findings of an execution with a given severity. *)
Definition count_findings (execution_id : nat) (severity : string) (db : DB) : Z :=
  Z.of_nat
    (length
       (List.filter
          (fun f => (Finding.execution_id f =? execution_id)%nat
                    && String.eqb (Finding.severity f) severity)
          (findings db))).

(** The row that persisting a finding adds. *)
Definition finding_row (execution_id : nat) (f : Found) (id t : nat) : Finding.t :=
  Finding.mk id execution_id (severity_str (found_severity f))
    (category_str (found_category f)) (found_title f) (found_description f)
    (found_evidence f) (Some (found_suggested_fix f)) false t.

(** The rows added for a list of findings, from the given identifier and
    time on. *)
Fixpoint finding_rows (execution_id : nat) (fs : list Found) (id t : nat)
    : list Finding.t :=
  match fs with
  | [] => []
  | f :: rest =>
      finding_row execution_id f id t :: finding_rows execution_id rest (S id) (S t)
  end.

(** A computation keeps a relation between the store it starts from and the
    store it leaves, whether it returns or raises. *)
Definition preserved (R : DB -> DB -> Prop) {A} (m : M A) : Prop :=
  forall db, R db (snd (m db)).

(** A phase row without the columns that executing phase [pid] writes. *)
Definition phase_frame (pid : nat) (q : Phase.t) : Phase.t :=
  if (Phase.phase_id q =? pid)%nat
  then Phase.mk (Phase.phase_id q) (Phase.run_id q) (Phase.phase_number q)
         (Phase.size q) "" None None None 0 (Phase.max_retries q)
  else q.

Definition run_key (r : Run.t) : nat * string * Z :=
  (Run.run_id r, Run.status r, Run.total_phases r).

Definition execution_key (e : Execution.t) : nat * nat * Z :=
  (Execution.execution_id e, Execution.phase_id e, Execution.pass_number e).

(** What executing phase [pid] leaves in place: the runs with their status
    and phase count, every other phase row, the identity of the phase
    itself, the executions recorded so far (which may be closed), and the
    findings, artifacts and interventions recorded so far. *)
Definition frame_kept (pid : nat) (db db' : DB) : Prop :=
  map run_key (runs db') = map run_key (runs db)
  /\ map (phase_frame pid) (phases db') = map (phase_frame pid) (phases db)
  /\ map execution_key (executions db) `prefix_of` map execution_key (executions db')
  /\ findings db `prefix_of` findings db'
  /\ artifacts db `prefix_of` artifacts db'
  /\ manual_interventions db `prefix_of` manual_interventions db'.

(** [phase.id], where it can be read, is the phase's identifier. *)
Definition ids_faithful (w : World) : Prop :=
  forall p id, phase_id_attr w p = Ok id -> id = Phase.phase_id p.

(** A patch that the loop of [_apply_copilot_patches] applies: it names a
    file and a diff, its patch file exists and git accepts it. *)
Definition patch_applies (w : World) (phase_id : nat) (pass_number : Z)
    (idx : nat) (p : Copilot.patch) : bool :=
  Copilot.patch_has "file" p && Copilot.patch_has "diff" p
  && patch_file_exists w phase_id pass_number idx
  && git_apply w phase_id pass_number idx.

(** All patches apply, counted from index [idx]. *)
Fixpoint all_apply (w : World) (phase_id : nat) (pass_number : Z) (idx : nat)
    (ps : list Copilot.patch) : bool :=
  match ps with
  | [] => true
  | p :: rest =>
      patch_applies w phase_id pass_number idx p
      && all_apply w phase_id pass_number (S idx) rest
  end.

(** Every execution that is running in [db'] was already there in [db]. *)
Definition none_left_running (db db' : DB) : Prop :=
  forall e, In e (executions db') -> Execution.status e = "running" ->
            In e (executions db).

(** The phase is stored and its row passes the validation of [PhaseState]. *)
Definition phase_readable (phase_id : nat) (db : DB) : Prop :=
  exists p, find_phase phase_id db = Some p /\ Models.PhaseState_valid p = true.

(** A phase that can be read in [db] can be read in [db']. *)
Definition readable_kept (phase_id : nat) (db db' : DB) : Prop :=
  phase_readable phase_id db -> phase_readable phase_id db'.

(** ** Example inputs *)

Module Example.

(** A run with a single pending phase. *)
Definition db0 : DB :=
  mkDB [Run.mk 1 0 "planning" 1 0 None None]
       [Phase.mk 10 1 1 "medium" "pending" None None None 0 2]
       [] [] [] [] 100 1.

(** A run without phases. *)
Definition db_no_phases : DB :=
  mkDB [Run.mk 1 0 "planning" 0 0 None None] [] [] [] [] [] 100 1.

(** A run whose only phase was skipped. *)
Definition db_skipped_phase : DB :=
  mkDB [Run.mk 1 0 "planning" 1 0 None None]
       [Phase.mk 10 1 1 "medium" "skipped" None None None 0 2]
       [] [] [] [] 100 1.

(** A run with two pending phases. *)
Definition db_two_phases : DB :=
  mkDB [Run.mk 1 0 "planning" 2 0 None None]
       [Phase.mk 10 1 1 "medium" "pending" None None None 0 2;
        Phase.mk 11 1 2 "small" "pending" None None None 0 2]
       [] [] [] [] 100 1.

(** An interrupted run: phase 1 completed, phase 2 in progress. *)
Definition db_interrupted : DB :=
  mkDB [Run.mk 1 9 "executing" 2 1 (Some 11%nat) None]
       [Phase.mk 10 1 1 "medium" "completed" (Some 2%nat) (Some 5%nat) None 0 2;
        Phase.mk 11 1 2 "small" "in_progress" (Some 6%nat) None None 0 2]
       [] [] [] [] 100 10.

(** A run in which phases 1 and 2 are both in progress, phase 2 started
    later. *)
Definition db_two_in_progress : DB :=
  mkDB [Run.mk 1 9 "executing" 2 0 (Some 11%nat) None]
       [Phase.mk 10 1 1 "medium" "in_progress" (Some 2%nat) None None 0 2;
        Phase.mk 11 1 2 "small" "in_progress" (Some 6%nat) None None 0 2]
       [] [] [] [] 100 10.

Definition quiet_checks : nat -> Z -> CheckOutcome :=
  fun _ _ => mkCheckOutcome ["spec_validation"] [] [].

(** max_retries = 2, direct mode, the Copilot process times out at every
    pass. *)
Definition copilot_times_out : World :=
  mkWorld 2 "direct" "data/artifacts" true 600 true None true
    (fun _ _ => true) (fun _ _ => true) (fun _ _ => Copilot.CliTimeout)
    (fun _ _ => true) (fun _ _ => true) (fun _ _ _ => true)
    (fun _ _ _ => true) (fun _ => None) quiet_checks (fun _ _ => true) false
    PhaseState_id.

(** max_retries = 2, direct mode, no Copilot interface (the loaded
    configuration has no [copilot] section). *)
Definition copilot_disabled : World :=
  mkWorld 2 "direct" "data/artifacts" false 600 true None true
    (fun _ _ => true) (fun _ _ => true) (fun _ _ => Copilot.CliTimeout)
    (fun _ _ => true) (fun _ _ => true) (fun _ _ _ => true)
    (fun _ _ _ => true) (fun _ => None) quiet_checks (fun _ _ => true) false
    PhaseState_id.

(** A world in which the patch with index 0 applies and every other patch
    is rejected by git. *)
Definition second_patch_rejected : World :=
  mkWorld 2 "direct" "data/artifacts" true 600 true None true
    (fun _ _ => true) (fun _ _ => true) (fun _ _ => Copilot.CliTimeout)
    (fun _ _ => false) (fun _ _ => true) (fun _ _ _ => true)
    (fun _ _ idx => (idx =? 0)%nat) (fun _ => None) quiet_checks
    (fun _ _ => true) false PhaseState_id.

(** As [copilot_times_out], with the modified specification file of a
    [modify_spec] action present. *)
Definition modified_spec_present : World :=
  mkWorld 2 "direct" "data/artifacts" true 600 true None true
    (fun _ _ => true) (fun _ _ => true) (fun _ _ => Copilot.CliTimeout)
    (fun _ _ => true) (fun _ _ => true) (fun _ _ _ => true)
    (fun _ _ _ => true) (fun _ => None) quiet_checks (fun _ _ => true) true
    PhaseState_id.

(** The store after [db0]'s phase exhausted its retries. *)
Definition escalated : DB :=
  snd (PhaseExecutor.execute_single_phase copilot_times_out 10 db0).

Definition two_patches : Copilot.CopilotExecutionResult :=
  Copilot.mkResult true (Some "copilot_output.json") (Some "two files") []
    [] None None (Some "two files") [] [] None
    [[("file", "a.py"); ("diff", "--- a/a.py")];
     [("file", "b.py"); ("diff", "--- a/b.py")]].

Definition phase10 : Phase.t :=
  Phase.mk 10 1 1 "medium" "in_progress" (Some 1%nat) None None 0 2.

(** Test doubles for [execute_single_phase], as the repository's tests
    patch it. *)
Definition always_succeeds : nat -> M bool := fun _ => ret true.

Definition pauses_run (run_id : nat) : nat -> M bool :=
  fun _ => StateManager.update_run_status run_id "paused" None ;; ret false.

Definition always_fails : nat -> M bool := fun _ => ret false.

(** Checks that report a failed build and a lint issue at every pass. *)
Definition failing_checks : nat -> Z -> CheckOutcome :=
  fun _ _ =>
    mkCheckOutcome ["build"; "lint"]
      [mkFound Major Build "Build Failed" "The build command failed with errors"
         "Exit Code: 1" "Fix compilation errors";
       mkFound Minor Lint "Linting Issues Found" "Code style violations detected"
         "Exit Code: 1" "Run formatter and fix linting issues"]
      [].

(** Copilot answers with one well-formed patch that git accepts; the
    prompt file is gone by the time the executor looks for it; the checks
    report findings. *)
Definition copilot_answers : World :=
  mkWorld 2 "direct" "data/artifacts" true 600 true None true
    (fun _ _ => true) (fun _ _ => true)
    (fun _ _ =>
       Copilot.CliExit 0 false false
         (JObj [("changes_summary", JStr "one file");
                ("patches",
                 JArr [JObj [("file", JStr "a.py"); ("diff", JStr "--- a/a.py")]])]))
    (fun _ _ => false) (fun _ _ => true) (fun _ _ _ => true)
    (fun _ _ _ => true) (fun _ => None) failing_checks (fun _ _ => true) false
    PhaseState_id.

(** A store with one execution of phase 10 that has a recorded finding. *)
Definition db_with_finding : DB :=
  mkDB [Run.mk 1 0 "executing" 1 0 (Some 10%nat) None]
       [Phase.mk 10 1 1 "medium" "in_progress" (Some 1%nat) None None 0 2]
       [Execution.mk 20 10 1 2 (Some 3%nat) "completed" "spec.md"
          (Some "copilot_output.json") (Some "one file") "direct" None]
       [Finding.mk 30 20 "medium" "test" "Test Failures Detected"
          "Found 1 test failure(s)" "Exit Code: 1" None false 4]
       [] [] 100 10.

End Example.

(** The outcome of [resume_phase] on the escalated store of the example:
    what is raised, and the statuses and interventions left behind. *)
Definition resume_outcome (action : string)
    : res unit * list string * list string * list (option string * option nat) :=
  let out :=
    PhaseExecutor.resume_phase Example.modified_spec_present 10 action
      (Some "modified_spec.md") Example.escalated in
  (fst out,
   map Phase.status (phases (snd out)),
   map Run.status (runs (snd out)),
   map (fun i => (Intervention.action_taken i, Intervention.resolved_at i))
     (manual_interventions (snd out))).

(** * Properties *)

(** ** Reading and writing the store *)

(** One step of a monadic computation whose outcome [E] is known. *)
Ltac run_op E :=
  cbv beta iota; unfold bind at 1; cbv beta iota; rewrite E; cbv beta iota.

Lemma find_existsb {A} (f : A -> bool) (l : list A) (x : A) :
  find f l = Some x -> existsb f l = true.
Proof.
  intros H. apply existsb_exists. exists x.
  apply find_some in H. exact H.
Qed.

Lemma get_phase_found (phase_id : nat) (db db' : DB) (p : Phase.t) :
  StateManager.get_phase phase_id db = (Ok (Some p), db') ->
  db' = db /\ find_phase phase_id db = Some p /\ Models.PhaseState_valid p = true.
Proof.
  unfold StateManager.get_phase, find_phase.
  destruct (find _ (phases db)) as [q|] eqn:Hf; [|discriminate].
  destruct (Models.PhaseState_valid q) eqn:Hv; [|discriminate].
  intros [= <- <-]. auto.
Qed.

(** Reads leave the store unchanged. *)
Lemma get_run_ro (run_id : nat) (db : DB) : snd (StateManager.get_run run_id db) = db.
Proof.
  unfold StateManager.get_run. destruct (find _ _) as [r|]; [|reflexivity].
  destruct (Models.RunState_valid r); reflexivity.
Qed.

Lemma get_phases_for_run_ro (run_id : nat) (db : DB) :
  snd (StateManager.get_phases_for_run run_id db) = db.
Proof. unfold StateManager.get_phases_for_run. destruct (forallb _ _); reflexivity. Qed.

Lemma get_artifacts_for_phase_ro (phase_id : nat) (db : DB) :
  snd (StateManager.get_artifacts_for_phase phase_id db) = db.
Proof. unfold StateManager.get_artifacts_for_phase. destruct (forallb _ _); reflexivity. Qed.

Lemma get_executions_for_phase_ro (phase_id : nat) (db : DB) :
  snd (StateManager.get_executions_for_phase phase_id db) = db.
Proof. unfold StateManager.get_executions_for_phase. destruct (forallb _ _); reflexivity. Qed.

Lemma get_findings_for_phase_ro (phase_id : nat) (db : DB) :
  snd (StateManager.get_findings_for_phase phase_id db) = db.
Proof. unfold StateManager.get_findings_for_phase. destruct (forallb _ _); reflexivity. Qed.

Lemma lift_ro {A} (r : res A) (db : DB) : snd (lift r db) = db.
Proof. reflexivity. Qed.

(** A step of a sequence that returns, and one that raises. *)
Lemma bind_step {A B} (m : M A) (k : A -> M B) (db db1 : DB) (a : A) :
  m db = (Ok a, db1) -> bind m k db = k a db1.
Proof. unfold bind. now intros ->. Qed.

Lemma bind_stop {A B} (m : M A) (k : A -> M B) (db db1 : DB) (e : exn) :
  m db = (Raise e, db1) -> bind m k db = (Raise e, db1).
Proof. unfold bind. now intros ->. Qed.

Lemma bind_ro {A B} (m : M A) (k : A -> M B) (db : DB) :
  snd (m db) = db -> (forall a, snd (k a db) = db) -> snd (bind m k db) = db.
Proof.
  unfold bind. destruct (m db) as [[a|e] db']; cbn; intros ->; auto.
Qed.

Create HintDb read_only.

#[local] Hint Resolve get_run_ro get_phases_for_run_ro get_artifacts_for_phase_ro
  get_executions_for_phase_ro get_findings_for_phase_ro lift_ro : read_only.

(** A sequence of reads is a read. *)
Ltac read_only :=
  repeat (apply bind_ro; [solve [auto with read_only]|intros ?]);
  try reflexivity.

Lemma count_passes_ro (w : World) (l : list Phase.t) (db : DB) :
  snd (PhaseExecutor.count_passes w l db) = db.
Proof.
  induction l as [|p l IH]; [reflexivity|]. cbn [PhaseExecutor.count_passes].
  read_only.
Qed.

Lemma count_executions_findings_ro (w : World) (l : list Phase.t) (db : DB) :
  snd (PhaseExecutor.count_executions_findings w l db) = db.
Proof.
  induction l as [|p l IH]; [reflexivity|].
  cbn [PhaseExecutor.count_executions_findings]. read_only.
Qed.

#[local] Hint Resolve count_passes_ro count_executions_findings_ro : read_only.

Lemma generate_execution_summary_ro (w : World) (run_id : nat) (db : DB) :
  snd (PhaseExecutor.generate_execution_summary w run_id db) = db.
Proof. unfold PhaseExecutor.generate_execution_summary. read_only. Qed.

(** Writing a status that the runs table admits. *)
Lemma update_run_status_ok (run_id : nat) (status : string) (db : DB) :
  str_in status Schema.runs_status = true ->
  StateManager.update_run_status run_id status None db
  = (Ok tt,
     set_runs
       (update_where (fun r => Run.run_id r =? run_id)%nat
          (Run.set_status status (clock db) None) (runs db))
       (mkDB (runs db) (phases db) (executions db) (findings db) (artifacts db)
          (manual_interventions db) (next_uuid db) (S (clock db)))).
Proof.
  intros Hs. unfold StateManager.update_run_status, bind, now.
  cbv beta iota. rewrite Hs. cbn [negb]. rewrite andb_false_r. reflexivity.
Qed.

Lemma find_update_where {A} (hit : A -> bool) (f : A -> A) (l : list A) :
  (forall a, hit (f a) = hit a) ->
  find hit (update_where hit f l) = option_map f (find hit l).
Proof.
  intros Hf. induction l as [|a l IH]; [reflexivity|]. cbn.
  destruct (hit a) eqn:Ha.
  - rewrite Hf, Ha. reflexivity.
  - rewrite Ha. exact IH.
Qed.

Lemma find_update_where_key {A} (key hit : A -> bool) (f : A -> A) (l : list A) :
  (forall a, key (f a) = key a) ->
  find key (update_where hit f l)
  = option_map (fun a => if hit a then f a else a) (find key l).
Proof.
  intros Hf. induction l as [|a l IH]; [reflexivity|]. cbn.
  destruct (hit a) eqn:Ha; [rewrite Hf|]; destruct (key a); cbn; rewrite ?Ha; auto.
Qed.

Lemma run_status_after_update (run_id : nat) (status : string) (db : DB) :
  str_in status Schema.runs_status = true ->
  find_run run_id db <> None ->
  run_status_of run_id (snd (StateManager.update_run_status run_id status None db))
  = Some status.
Proof.
  intros Hs Hex. rewrite (update_run_status_ok _ _ _ Hs). cbn.
  unfold run_status_of, find_run in *. cbn.
  rewrite find_update_where by reflexivity.
  destruct (find _ (runs db)); [reflexivity|congruence].
Qed.

(** ** The threshold gate *)

Section Thresholds.
Import Verifier.

Lemma exceeded_present (summary thresholds : gmap string Z) (k : string) (a b : Z) :
  summary !! k = Some a -> thresholds !! k = Some b ->
  exceeded summary thresholds k = Ok false.
Proof.
  intros Hs Ht. unfold exceeded, log_exceeded, dict_item.
  rewrite Hs, Ht. reflexivity.
Qed.

Lemma check_with_triple (t summary : gmap string Z)
    (major medium minor tmajor tmedium tminor : Z) :
  summary !! "major" = Some major ->
  summary !! "medium" = Some medium ->
  summary !! "minor" = Some minor ->
  t !! "major" = Some tmajor ->
  t !! "medium" = Some tmedium ->
  t !! "minor" = Some tminor ->
  _check_findings_thresholds (mkVerificationConfig t) summary
  = Ok ((major <=? tmajor) && (medium <=? tmedium) && (minor <=? tminor)).
Proof.
  intros H1 H2 H3 H4 H5 H6.
  unfold _check_findings_thresholds, dict_get. cbn [findings_thresholds].
  rewrite H1, H2, H3, H4, H5, H6. cbn [default].
  rewrite (exceeded_present _ _ _ _ _ H1 H4),
          (exceeded_present _ _ _ _ _ H2 H5),
          (exceeded_present _ _ _ _ _ H3 H6).
  unfold id.
  destruct (Z.ltb_spec tmajor major), (Z.leb_spec major tmajor); try lia;
  destruct (Z.ltb_spec tmedium medium), (Z.leb_spec medium tmedium); try lia;
  destruct (Z.ltb_spec tminor minor), (Z.leb_spec minor tminor); try lia;
  reflexivity.
Qed.
End Thresholds.

(** C1.  For every findings summary (counts of major, medium and minor
    findings) and every configured threshold triple, the decision of
    [_check_findings_thresholds] is (major <= t.major and medium <= t.medium
    and minor <= t.minor), equality included; when no thresholds are
    configured the triple is 0/3/10.  The decision is a function of the
    summary and the thresholds alone. *)
Theorem check_findings_thresholds_decision
    (configured : option (gmap string Z)) (summary : gmap string Z)
    (major medium minor : Z) :
  summary !! "major" = Some major ->
  summary !! "medium" = Some medium ->
  summary !! "minor" = Some minor ->
  (forall t tmajor tmedium tminor,
      configured = Some t ->
      t !! "major" = Some tmajor ->
      t !! "medium" = Some tmedium ->
      t !! "minor" = Some tminor ->
      Verifier._check_findings_thresholds
        (Verifier.VerificationConfig_init configured) summary
      = Ok ((major <=? tmajor) && (medium <=? tmedium) && (minor <=? tminor)))
  /\ (configured = None ->
      Verifier._check_findings_thresholds
        (Verifier.VerificationConfig_init configured) summary
      = Ok ((major <=? 0) && (medium <=? 3) && (minor <=? 10))).
Proof.
  intros H1 H2 H3. split.
  - intros t a b c -> Ha Hb Hc. now apply check_with_triple.
  - intros ->. apply check_with_triple; auto; reflexivity.
Qed.

Lemma check_findings_thresholds_decision_witness :
  Verifier._check_findings_thresholds (Verifier.VerificationConfig_init None)
    {[ "major" := 0; "medium" := 3; "minor" := 10 ]} = Ok true
  /\ Verifier._check_findings_thresholds
       (Verifier.VerificationConfig_init (Some {[ "major" := 1; "medium" := 1; "minor" := 1 ]}))
       {[ "major" := 0; "medium" := 3; "minor" := 10 ]} = Ok false.
Proof.
  pose proof (check_findings_thresholds_decision None
                {[ "major" := 0; "medium" := 3; "minor" := 10 ]} 0 3 10
                eq_refl eq_refl eq_refl) as [_ Hd].
  pose proof (check_findings_thresholds_decision
                (Some {[ "major" := 1; "medium" := 1; "minor" := 1 ]})
                {[ "major" := 0; "medium" := 3; "minor" := 10 ]} 0 3 10
                eq_refl eq_refl eq_refl) as [Hc _].
  split.
  - exact (Hd eq_refl).
  - exact (Hc _ 1 1 1 eq_refl eq_refl eq_refl eq_refl).
Defined.

(** ** Escalation *)

(** Whenever the phase exists, escalation records the intervention and then
    fails on the status it writes: the phases table does not admit
    "paused". *)
Lemma handle_manual_intervention_raises (phase_id : nat) (db : DB)
    (p : Phase.t) :
  StateManager.get_phase phase_id db = (Ok (Some p), db) ->
  exists db',
    PhaseExecutor.handle_manual_intervention phase_id db
    = (Raise (DatabaseError "Failed to update phase status"), db')
    /\ phases db' = phases db
    /\ runs db' = runs db
    /\ manual_interventions db'
       = (manual_interventions db
          ++ [Intervention.mk (next_uuid db) phase_id (clock db)
                "max_retries_exceeded" None None None])%list.
Proof.
  intros Hg. destruct (get_phase_found _ _ _ _ Hg) as (_ & Hf & _).
  unfold find_phase in Hf. apply find_existsb in Hf.
  eexists. unfold PhaseExecutor.handle_manual_intervention, bind at 1.
  rewrite Hg.
  unfold StateManager.create_intervention, StateManager.update_phase_status,
    bind, uuid4, now. cbn.
  rewrite Hf. cbn. repeat split; reflexivity.
Qed.

(** C2.  With max_retries = 2 and the Generation Service failing at both
    passes of the only phase, [execute_single_phase] creates exactly one
    intervention with reason max_retries_exceeded, returns False and leaves
    the phase in "failed" and the run in the status it had, where the
    specification has both end in "paused".  Driven by [execute_phases] over
    phase objects that carry [id], the run ends in "failed". *)
Theorem escalation_scenario_ends_failed :
  let out := PhaseExecutor.execute_single_phase Example.copilot_times_out 10 Example.db0 in
  let db' := snd out in
  let db'' :=
    snd (PhaseExecutor.execute_phases (with_mock_ids Example.copilot_times_out) 1
           Example.db0) in
  fst out = Ok false
  /\ map Execution.status (executions db') = ["failed"; "failed"]
  /\ map Intervention.reason (manual_interventions db') = ["max_retries_exceeded"]
  /\ map Phase.status (phases db') = ["failed"]
  /\ map Run.status (runs db') = map Run.status (runs Example.db0)
  /\ map Intervention.reason (manual_interventions db'') = ["max_retries_exceeded"]
  /\ map Phase.status (phases db'') = ["failed"]
  /\ map Run.status (runs db'') = ["failed"].
Proof. vm_compute. auto 10. Qed.

(** C3.  With max_retries = 2 and no Copilot interface, the phase is set to
    the terminal status "failed" with retry_count = 3: the last pass counts
    the failed attempt twice. *)
Theorem retry_count_exceeds_max_retries :
  let db' := snd (PhaseExecutor.execute_single_phase Example.copilot_disabled 10 Example.db0) in
  map (fun p => (Phase.status p, Phase.retry_count p, Phase.max_retries p)) (phases db')
  = [("failed", 3, 2)]
  /\ max_retries Example.copilot_disabled = 2.
Proof. vm_compute. auto. Qed.

Section Exhaustion.
Variable w : World.
Variable pid : nat.
Hypothesis no_interface : copilot_interface w = false.
Hypothesis specs_rendered : forall k, spec_rendered w pid k = true.
Hypothesis retries_positive : 1 <= max_retries w.

Lemma phase_at_get (db : DB) (c : Z) (st : string) :
  phase_at pid db c st ->
  exists p, StateManager.get_phase pid db = (Ok (Some p), db)
            /\ Phase.phase_id p = pid.
Proof.
  intros (p & Hf & Hv & _). exists p. unfold StateManager.get_phase.
  unfold find_phase in Hf. rewrite Hf, Hv. split; [reflexivity|].
  apply find_some in Hf as [_ Hid]. now apply Nat.eqb_eq.
Qed.

Lemma phase_at_same_phases (db db' : DB) (c : Z) (st : string) :
  phases db' = phases db -> phase_at pid db c st -> phase_at pid db' c st.
Proof. unfold phase_at, find_phase. now intros ->. Qed.

Lemma report_ok (db : DB) (c : Z) (st : string) :
  phase_at pid db c st -> PhaseExecutor.report_phase_progress pid db = (Ok tt, db).
Proof.
  intros H. destruct (phase_at_get _ _ _ H) as (p & Hg & _).
  unfold PhaseExecutor.report_phase_progress, bind. now rewrite Hg.
Qed.

Lemma find_phase_updated (f : Phase.t -> Phase.t) (db : DB) :
  (forall p, Phase.phase_id (f p) = Phase.phase_id p) ->
  find (fun p => Phase.phase_id p =? pid)%nat
    (update_where (fun p => Phase.phase_id p =? pid)%nat f (phases db))
  = option_map f (find_phase pid db).
Proof.
  intros Hid. unfold find_phase.
  induction (phases db) as [|a l IH]; [reflexivity|]. cbn.
  destruct (Phase.phase_id a =? pid)%nat eqn:Ha.
  - rewrite Hid, Ha. reflexivity.
  - rewrite Ha. exact IH.
Qed.

Lemma increment_ok (db : DB) (c : Z) (st : string) :
  phase_at pid db c st ->
  exists db', StateManager.increment_phase_retry pid db = (Ok (c + 1), db')
              /\ phase_at pid db' (c + 1) st.
Proof.
  intros (p & Hf & Hv & Hc & Hs).
  unfold StateManager.increment_phase_retry. cbv zeta. cbn [phases set_phases].
  eexists.
  rewrite (find_phase_updated Phase.incr_retry_count db (fun _ => eq_refl)).
  rewrite Hf. cbn [option_map Phase.incr_retry_count Phase.retry_count].
  rewrite Hc. split; [reflexivity|].
  exists (Phase.incr_retry_count p). unfold find_phase at 1.
  cbn [phases set_phases].
  rewrite (find_phase_updated Phase.incr_retry_count db (fun _ => eq_refl)).
  rewrite Hf. cbn. rewrite Hc. auto.
Qed.

Lemma update_status_ok (db : DB) (c : Z) (st s : string) (a b : option nat) :
  phase_at pid db c st -> str_in s Schema.phases_status = true ->
  exists db', StateManager.update_phase_status pid s a b db = (Ok tt, db')
              /\ phase_at pid db' c s.
Proof.
  intros (p & Hf & Hv & Hc & Hs) Hok.
  unfold StateManager.update_phase_status. cbv zeta. eexists.
  rewrite Hok. cbn [negb]. rewrite andb_false_r. split; [reflexivity|].
  exists (Phase.set_status s a b p).
  assert (Hfind : find_phase pid
                    (set_phases
                       (update_where (fun p => Phase.phase_id p =? pid)%nat
                          (Phase.set_status s a b) (phases db)) db)
                  = Some (Phase.set_status s a b p)).
  { unfold find_phase at 1. cbn [phases set_phases].
    rewrite (find_phase_updated (Phase.set_status s a b) db (fun _ => eq_refl)).
    now rewrite Hf. }
  split.
  - destruct (String.eqb s "in_progress"); [exact Hfind|].
    destruct (String.eqb s "completed"); exact Hfind.
  - repeat split; try assumption.
    unfold Models.PhaseState_valid in *.
    cbn [Phase.set_status Phase.phase_number Phase.size Phase.status].
    apply andb_true_iff in Hv as [Hv _]. rewrite Hv. exact Hok.
Qed.

Lemma handle_error_ok (db : DB) (c : Z) (st : string) (e : exn) :
  phase_at pid db c st ->
  exists db', PhaseExecutor.handle_execution_error pid e db = (Ok tt, db')
              /\ phase_at pid db' c "failed".
Proof.
  intros H. destruct (phase_at_get _ _ _ H) as (p & Hg & _).
  destruct (update_status_ok db c st "failed" None None H eq_refl) as (db' & Hu & H').
  exists db'. unfold PhaseExecutor.handle_execution_error, bind.
  rewrite Hg. auto.
Qed.

Lemma spec_ok (db : DB) (c : Z) (st : string) (k : Z) :
  phase_at pid db c st ->
  exists path db', PhaseExecutor.generate_phase_spec w pid k db = (Ok path, db')
                   /\ phase_at pid db' c st.
Proof.
  intros H. destruct (phase_at_get _ _ _ H) as (p & Hg & _).
  unfold PhaseExecutor.generate_phase_spec, bind at 1. rewrite Hg, specs_rendered.
  do 2 eexists. split; [reflexivity|].
  apply (phase_at_same_phases db); [reflexivity|exact H].
Qed.

Lemma copilot_fails (path : string) (k : Z) (db : DB) :
  exists r, PhaseExecutor.execute_with_copilot w pid path k db = (Ok r, db)
            /\ Copilot.success r = false.
Proof.
  unfold PhaseExecutor.execute_with_copilot. rewrite no_interface.
  eexists. split; reflexivity.
Qed.

Lemma escalation_raises (db : DB) (c : Z) (st : string) :
  phase_at pid db c st ->
  exists e db', PhaseExecutor.handle_manual_intervention pid db = (Raise e, db')
                /\ phase_at pid db' c st.
Proof.
  intros H. destruct (phase_at_get _ _ _ H) as (p & Hg & _).
  destruct (handle_manual_intervention_raises pid db p Hg) as (db' & Hr & Hp & _).
  do 2 eexists. split; [exact Hr|].
  now apply (phase_at_same_phases db).
Qed.

Lemma branch_ok (p : Phase.t) (db : DB) (c : Z) (st : string) :
  Phase.phase_id p = pid -> phase_at pid db c st ->
  exists b db', PhaseExecutor.create_phase_branch w p db = (Ok b, db')
                /\ phase_at pid db' c st.
Proof.
  intros Hid H. unfold PhaseExecutor.create_phase_branch.
  destruct (negb (String.eqb (copilot_mode w) "branch"));
    [do 2 eexists; split; [reflexivity|exact H]|].
  destruct (negb (git_repo w)); [do 2 eexists; split; [reflexivity|exact H]|].
  destruct (phase_branch w (Phase.phase_id p)) as [name|];
    [|do 2 eexists; split; [reflexivity|exact H]].
  destruct (phase_id_attr w p) as [id|e];
    [|do 2 eexists; split; [reflexivity|exact H]].
  do 2 eexists. split; [reflexivity|].
  destruct H as (q & Hf & Hv & Hc & Hs).
  exists (if (Phase.phase_id q =? id)%nat then Phase.set_branch_name name q else q).
  unfold find_phase in *. cbn [phases set_phases].
  rewrite (find_update_where_key _ _ (Phase.set_branch_name name))
    by reflexivity.
  rewrite Hf. cbn [option_map].
  destruct (Phase.phase_id q =? id)%nat; repeat split; assumption.
Qed.

(** A pass before the last one counts one retry and continues; the last
    pass counts two and marks the phase failed. *)
Lemma one_pass_fails (phase : Phase.t) (branch_name : string) (k : Z)
    (db : DB) (c : Z) (st : string) :
  phase_at pid db c st -> k <= max_retries w ->
  exists db',
    if k <? max_retries w
    then PhaseExecutor.one_pass w pid phase branch_name k db = (Ok PhaseExecutor.Continue, db')
         /\ phase_at pid db' (c + 1) st
    else PhaseExecutor.one_pass w pid phase branch_name k db = (Ok PhaseExecutor.Break, db')
         /\ phase_at pid db' (c + 2) "failed".
Proof.
  intros H Hk.
  pose proof (report_ok _ _ _ H) as Hr0.
  destruct (spec_ok db c st k H) as (path & db1 & Hspec & H1).
  pose proof (report_ok _ _ _ H1) as Hr1.
  destruct (copilot_fails path k db1) as (r & Hcop & Hfail).
  destruct (increment_ok db1 c st H1) as (db2 & Hinc & H2).
  assert (Hbody :
    PhaseExecutor.one_pass w pid phase branch_name k db
    = try_except
        (if k <? max_retries w
         then PhaseExecutor.report_phase_progress pid ;; ret PhaseExecutor.Continue
         else raise (PyException
                       ("Copilot execution failed: "
                        +:+ str_or (Copilot.error_message r) "None")))
        (fun e =>
           StateManager.increment_phase_retry pid ;;
           if k =? max_retries w then
             PhaseExecutor.handle_execution_error pid e ;;
             ret PhaseExecutor.Break
           else ret PhaseExecutor.Continue) db2).
  { unfold PhaseExecutor.one_pass, bind at 1. rewrite Hr0.
    unfold try_except, bind at 1. rewrite Hspec.
    unfold bind at 1. rewrite Hr1.
    unfold bind at 1. rewrite Hcop, Hfail. cbn [negb].
    unfold bind at 1. rewrite Hinc. reflexivity. }
  rewrite Hbody. unfold try_except.
  destruct (Z.ltb_spec k (max_retries w)) as [Hlt|Hge].
  - exists db2. unfold bind. rewrite (report_ok _ _ _ H2). auto.
  - destruct (increment_ok db2 (c + 1) st H2) as (db3 & Hinc3 & H3).
    destruct (handle_error_ok db3 (c + 1 + 1) st
                (PyException
                   ("Copilot execution failed: "
                    +:+ str_or (Copilot.error_message r) "None")) H3)
      as (db4 & Herr & H4).
    exists db4. unfold raise, bind. rewrite Hinc3.
    replace (k =? max_retries w) with true by (symmetry; apply Z.eqb_eq; lia).
    rewrite Herr. replace (c + 2) with (c + 1 + 1) by lia. auto.
Qed.

Lemma pass_loop_exhausts (phase : Phase.t) (branch_name : string) (len : nat) :
  forall (a : nat) (db : DB) (c : Z) (st : string),
    phase_at pid db c st ->
    Z.of_nat (S a) + Z.of_nat len = max_retries w ->
    exists db',
      PhaseExecutor.pass_loop w pid phase branch_name
        (map Z.of_nat (seq (S a) (S len))) db = (Ok None, db')
      /\ phase_at pid db' (c + Z.of_nat (S len) + 1) "failed".
Proof.
  induction len as [|len IH]; intros a db c st H Hsum.
  - destruct (one_pass_fails phase branch_name (Z.of_nat (S a)) db c st H)
      as (db' & Hpass); [lia|].
    destruct (Z.ltb_spec (Z.of_nat (S a)) (max_retries w)) as [Hlt|_]; [lia|].
    destruct Hpass as [Hpass H'].
    exists db'. cbn [seq map PhaseExecutor.pass_loop]. unfold bind. rewrite Hpass.
    split; [reflexivity|]. replace (c + Z.of_nat 1 + 1) with (c + 2) by lia. exact H'.
  - destruct (one_pass_fails phase branch_name (Z.of_nat (S a)) db c st H)
      as (db1 & Hpass); [lia|].
    destruct (Z.ltb_spec (Z.of_nat (S a)) (max_retries w)) as [_|Hge]; [|lia].
    destruct Hpass as [Hpass H1].
    destruct (IH (S a) db1 (c + 1) st H1) as (db' & Hloop & H'); [lia|].
    exists db'. change (seq (S a) (S (S len))) with (S a :: seq (S (S a)) (S len)).
    cbn [map PhaseExecutor.pass_loop]. unfold bind at 1. rewrite Hpass.
    split; [exact Hloop|].
    replace (c + Z.of_nat (S (S len)) + 1) with (c + 1 + Z.of_nat (S len) + 1) by lia.
    exact H'.
Qed.

(** Without a Copilot interface every pass fails, and a phase that starts
    with retry count [c] ends failed with retry count
    [c + max_retries + 1]. *)
Lemma exhausted_phase_exceeds_max_retries (db : DB) (c : Z) (st : string) :
  phase_at pid db c st ->
  exists db',
    PhaseExecutor.execute_single_phase w pid db = (Ok false, db')
    /\ phase_at pid db' (c + max_retries w + 1) "failed".
Proof.
  intros H. destruct (phase_at_get _ _ _ H) as (p & Hg & Hid).
  unfold PhaseExecutor.execute_single_phase, try_except, bind at 1.
  rewrite Hg. unfold bind at 1, now. cbv beta iota.
  set (db0 := mkDB _ _ _ _ _ _ _ _).
  assert (H0 : phase_at pid db0 c st) by (apply (phase_at_same_phases db); auto).
  destruct (update_status_ok db0 c st "in_progress" (Some (clock db)) None H0 eq_refl)
    as (db1 & Hu & H1).
  unfold bind at 1. rewrite Hu.
  unfold bind at 1. rewrite (report_ok _ _ _ H1).
  destruct (branch_ok p db1 c "in_progress" Hid H1) as (b & db2 & Hb & H2).
  unfold bind at 1. rewrite Hb.
  unfold PhaseExecutor.pass_numbers.
  destruct (Z.to_nat (max_retries w)) as [|len] eqn:Hlen; [lia|].
  destruct (pass_loop_exhausts p b len 0 db2 c "in_progress" H2) as (db3 & Hloop & H3);
    [lia|].
  unfold bind at 1. rewrite Hloop.
  replace (c + Z.of_nat (S len) + 1) with (c + max_retries w + 1) in H3 by lia.
  set (c' := c + max_retries w + 1) in *.
  assert (Hclean : exists db4,
             (if negb (String.eqb b "")
              then let* phase' := StateManager.get_phase pid in
                   match phase' with
                   | Some p0 => PhaseExecutor.cleanup_phase_branch p0
                   | None => ret tt
                   end
              else ret tt) db3 = (Ok tt, db4) /\ phase_at pid db4 c' "failed").
  { destruct (phase_at_get _ _ _ H3) as (p3 & Hg3 & _).
    exists db3. destruct (negb (String.eqb b "")); [|auto].
    unfold bind. rewrite Hg3. auto. }
  destruct Hclean as (db4 & Hclean & H4).
  unfold bind at 1. rewrite Hclean.
  destruct (escalation_raises db4 c' "failed" H4) as (e & db5 & Hesc & H5).
  unfold bind at 1. rewrite Hesc.
  destruct (handle_error_ok db5 c' "failed" e H5) as (db6 & Herr & H6).
  unfold bind. rewrite Herr. exists db6. auto.
Qed.
End Exhaustion.

(** ** Running the phases of a run *)

Section Loop.
Variable w : World.
Variable run_phase : nat -> M bool.
Variable run_id : nat.
Hypothesis ids : forall p, phase_id_attr w p = Ok (Phase.phase_id p).

Lemma phases_loop_succeed (l rest : list Phase.t) (db db1 : DB) :
  succeed_all run_phase l db = Some db1 ->
  PhaseExecutor.phases_loop w run_phase run_id (l ++ rest) db
  = PhaseExecutor.phases_loop w run_phase run_id rest db1.
Proof.
  revert db. induction l as [|p l IH]; intros db; cbn.
  - now intros [= ->].
  - destruct (String.eqb (Phase.status p) "skipped"); [apply IH|].
    unfold bind at 1, lift. rewrite ids. unfold bind at 1.
    destruct (run_phase (Phase.phase_id p) db) as [[[|]|e] db'];
      try discriminate. cbn. apply IH.
Qed.

Lemma phases_loop_failure (p : Phase.t) (post : list Phase.t) (db1 db2 : DB) :
  Phase.status p <> "skipped" ->
  run_phase (Phase.phase_id p) db1 = (Ok false, db2) ->
  (run_status_of run_id db2 = Some "paused" ->
   PhaseExecutor.phases_loop w run_phase run_id (p :: post) db1 = (Ok true, db2))
  /\ (run_status_of run_id db2 <> Some "paused" ->
      let out := PhaseExecutor.phases_loop w run_phase run_id (p :: post) db1 in
      out = (Ok true, snd (StateManager.update_run_status run_id "failed" None db2))
      \/ exists e, out = (Raise e, db2)).
Proof.
  intros Hns Hrun.
  assert (Hloop :
    PhaseExecutor.phases_loop w run_phase run_id (p :: post) db1
    = match StateManager.get_run run_id db2 with
      | (Ok run_state, db') =>
          (if match run_state with
              | Some r => String.eqb (Run.status r) "paused"
              | None => false
              end
           then ret true
           else StateManager.update_run_status run_id "failed" None ;; ret true) db'
      | (Raise e, db') => (Raise e, db')
      end).
  { cbn [PhaseExecutor.phases_loop].
    destruct (String.eqb_spec (Phase.status p) "skipped") as [|_]; [contradiction|].
    unfold bind at 1, lift. rewrite ids.
    unfold bind at 1. rewrite Hrun. reflexivity. }
  cbv zeta. rewrite Hloop.
  unfold StateManager.get_run, run_status_of, find_run.
  destruct (find _ (runs db2)) as [r|] eqn:Hf; cbn [option_map].
  - split.
    + intros [= Hp].
      assert (Hv : Models.RunState_valid r = true)
        by (unfold Models.RunState_valid; rewrite Hp; reflexivity).
      rewrite Hv, Hp. reflexivity.
    + intros Hnp. destruct (Models.RunState_valid r); [|right; eexists; reflexivity].
      destruct (String.eqb_spec (Run.status r) "paused") as [Heq|_];
        [congruence|].
      left. unfold bind.
      rewrite (update_run_status_ok run_id "failed" db2 eq_refl). reflexivity.
  - split; [discriminate|]. intros _. left. unfold bind.
    rewrite (update_run_status_ok run_id "failed" db2 eq_refl). reflexivity.
Qed.
End Loop.

(** Over the phase objects of models.py the loop runs no phase: it stops at
    the first phase that is not skipped, on [phase.id]. *)
Lemma phases_loop_without_id (w : World) (run_phase : nat -> M bool)
    (run_id : nat) (l : list Phase.t) (db : DB) :
  (forall p, phase_id_attr w p = PhaseState_id p) ->
  PhaseExecutor.phases_loop w run_phase run_id l db
  = if forallb (fun p => String.eqb (Phase.status p) "skipped") l
    then (Ok false, db)
    else (Raise (AttributeError "'PhaseState' object has no attribute 'id'"), db).
Proof.
  intros Hid. induction l as [|p l IH]; [reflexivity|].
  cbn [PhaseExecutor.phases_loop forallb].
  destruct (String.eqb (Phase.status p) "skipped"); [exact IH|].
  unfold bind, lift. rewrite Hid. reflexivity.
Qed.

Lemma execute_phases_without_id (w : World) (run_phase run_phase' : nat -> M bool)
    (run_id : nat) (db : DB) :
  (forall p, phase_id_attr w p = PhaseState_id p) ->
  PhaseExecutor.execute_phases_with w run_phase run_id db
  = PhaseExecutor.execute_phases_with w run_phase' run_id db.
Proof.
  intros Hid. unfold PhaseExecutor.execute_phases_with, try_except, bind.
  destruct (_ db) as [[u|e] db0]; [|reflexivity].
  destruct (StateManager.get_phases_for_run run_id db0) as [[[|p ps]|e] db1];
    try reflexivity.
  destruct (StateManager.update_run_status run_id "executing" None db1)
    as [[u'|e] db2]; [|reflexivity].
  now rewrite !phases_loop_without_id.
Qed.

(** Over phase objects that carry [id], as the doubles of the repository's
    tests do, once the environment validation has passed and for a run with
    at least one phase: the first non-skipped phase that fails halts the
    run, and the store is left as that phase left it when the run was paused
    meanwhile and with the run marked failed otherwise; when every
    non-skipped phase succeeds the run is marked completed, and it stays so
    when the summary can be generated. *)
Theorem execute_phases_outcome (w : World) (run_phase : nat -> M bool)
    (run_id : nat) (db : DB) (phases : list Phase.t) :
  (forall p, phase_id_attr w p = Ok (Phase.phase_id p)) ->
  copilot_interface w && negb (environment_valid w) = false ->
  StateManager.get_phases_for_run run_id db = (Ok phases, db) ->
  phases <> [] ->
  let start := snd (StateManager.update_run_status run_id "executing" None db) in
  let final := snd (PhaseExecutor.execute_phases_with w run_phase run_id db) in
  (forall pre p post db1 db2,
      PhaseExecutor.sorted_phases phases = (pre ++ p :: post)%list ->
      succeed_all run_phase pre start = Some db1 ->
      Phase.status p <> "skipped" ->
      run_phase (Phase.phase_id p) db1 = (Ok false, db2) ->
      (run_status_of run_id db2 = Some "paused" -> final = db2)
      /\ (run_status_of run_id db2 <> Some "paused" ->
          final = snd (StateManager.update_run_status run_id "failed" None db2)
          /\ (find_run run_id db2 <> None ->
              run_status_of run_id final = Some "failed")))
  /\ (forall db1,
      succeed_all run_phase (PhaseExecutor.sorted_phases phases) start = Some db1 ->
      let marked := snd (StateManager.update_run_status run_id "completed" None db1) in
      (find_run run_id db1 <> None -> run_status_of run_id marked = Some "completed")
      /\ (is_ok (fst (PhaseExecutor.generate_execution_summary w run_id marked)) = true ->
          final = marked)).
Proof.
  intros ids Hval Hget Hne start final.
  assert (Hstart : StateManager.update_run_status run_id "executing" None db
                   = (Ok tt, start)).
  { unfold start. now rewrite (update_run_status_ok run_id "executing" db eq_refl). }
  assert (Hbody : forall out,
             PhaseExecutor.phases_loop w run_phase run_id
               (PhaseExecutor.sorted_phases phases) start = out ->
             final
             = snd (try_except
                      (let* returned := (fun _ => out) in
                       if (returned : bool) then ret tt
                       else
                         StateManager.update_run_status run_id "completed" None ;;
                         PhaseExecutor.generate_execution_summary w run_id ;;
                         ret tt)
                      (fun e =>
                         StateManager.update_run_status run_id "failed" None ;;
                         raise e) start)).
  { intros out <-. unfold final, PhaseExecutor.execute_phases_with.
    rewrite Hval. unfold try_except, bind at 1 2. cbn [ret].
    rewrite Hget. destruct phases as [|p0 ps]; [contradiction|].
    unfold bind at 1. rewrite Hstart. reflexivity. }
  split.
  - intros pre p post db1 db2 Hsplit Hpre Hns Hrun.
    pose proof (phases_loop_succeed w run_phase run_id ids pre (p :: post) _ _ Hpre) as Hloop.
    rewrite <- Hsplit in Hloop.
    destruct (phases_loop_failure w run_phase run_id ids p post db1 db2 Hns Hrun)
      as [Hpaused Hother].
    split.
    + intros Hp. rewrite (Hbody _ (eq_trans Hloop (Hpaused Hp))). reflexivity.
    + intros Hnp.
      assert (Hfinal : final
                = snd (StateManager.update_run_status run_id "failed" None db2)).
      { destruct (Hother Hnp) as [Hout|[e Hout]];
          rewrite (Hbody _ (eq_trans Hloop Hout)).
        - reflexivity.
        - unfold try_except, bind. cbv beta iota.
          rewrite (update_run_status_ok run_id "failed" db2 eq_refl). reflexivity. }
      split; [exact Hfinal|].
      intros Hex. rewrite Hfinal. now apply run_status_after_update.
  - intros db1 Hall marked. split.
    + intros Hex. now apply run_status_after_update.
    + intros Hsum.
      pose proof (phases_loop_succeed w run_phase run_id ids _ [] _ _ Hall) as Hloop.
      rewrite app_nil_r in Hloop.
      rewrite (Hbody _ Hloop).
      assert (Hc : StateManager.update_run_status run_id "completed" None db1
                   = (Ok tt, marked)).
      { unfold marked. now rewrite (update_run_status_ok run_id "completed" db1 eq_refl). }
      unfold try_except, bind. cbn [PhaseExecutor.phases_loop ret].
      rewrite Hc.
      pose proof (generate_execution_summary_ro w run_id marked) as Hro.
      destruct (PhaseExecutor.generate_execution_summary w run_id marked)
        as [[s|e] db'] eqn:Hs; cbn in Hro, Hsum; [|discriminate].
      subst db'. reflexivity.
Qed.

Lemma execute_phases_outcome_witness :
  run_status_of 1
    (snd (PhaseExecutor.execute_phases_with (with_mock_ids Example.copilot_disabled)
            Example.always_succeeds 1 Example.db_two_phases))
  = Some "completed"
  /\ run_status_of 1
       (snd (PhaseExecutor.execute_phases_with (with_mock_ids Example.copilot_disabled)
               (Example.pauses_run 1) 1 Example.db_two_phases))
     = Some "paused"
  /\ run_status_of 1
       (snd (PhaseExecutor.execute_phases_with (with_mock_ids Example.copilot_disabled)
               Example.always_fails 1 Example.db_two_phases))
     = Some "failed".
Proof.
  assert (Hne : [Phase.mk 10 1 1 "medium" "pending" None None None 0 2;
                 Phase.mk 11 1 2 "small" "pending" None None None 0 2] <> [])
    by discriminate.
  split; [|split].
  - destruct (execute_phases_outcome (with_mock_ids Example.copilot_disabled)
                Example.always_succeeds 1 Example.db_two_phases _
                (fun _ => eq_refl) eq_refl eq_refl Hne) as [_ Hall].
    edestruct (Hall _ eq_refl) as [Hmarked Hfinal].
    rewrite (Hfinal eq_refl). apply Hmarked. discriminate.
  - destruct (execute_phases_outcome (with_mock_ids Example.copilot_disabled)
                (Example.pauses_run 1) 1 Example.db_two_phases _
                (fun _ => eq_refl) eq_refl eq_refl Hne) as [Hfail _].
    edestruct (Hfail [] (Phase.mk 10 1 1 "medium" "pending" None None None 0 2)
                 [Phase.mk 11 1 2 "small" "pending" None None None 0 2])
      as [Hpaused _]; [reflexivity|reflexivity|discriminate|reflexivity|].
    rewrite (Hpaused eq_refl). reflexivity.
  - destruct (execute_phases_outcome (with_mock_ids Example.copilot_disabled)
                Example.always_fails 1 Example.db_two_phases _
                (fun _ => eq_refl) eq_refl eq_refl Hne) as [Hfail _].
    edestruct (Hfail [] (Phase.mk 10 1 1 "medium" "pending" None None None 0 2)
                 [Phase.mk 11 1 2 "small" "pending" None None None 0 2])
      as [_ Hother]; [reflexivity|reflexivity|discriminate|reflexivity|].
    apply Hother; discriminate.
Defined.

(** A run without phases returns early, on [if not phases], and keeps its
    status. *)
Lemma run_without_phases_is_not_marked_completed :
  let db := Example.db_no_phases in
  let final := snd (PhaseExecutor.execute_phases Example.copilot_disabled 1 db) in
  StateManager.get_phases_for_run 1 db = (Ok [], db)
  /\ succeed_all (PhaseExecutor.execute_single_phase Example.copilot_disabled)
       (PhaseExecutor.sorted_phases [])
       (snd (StateManager.update_run_status 1 "executing" None db))
     <> None
  /\ final = db
  /\ run_status_of 1 final = Some "planning"
  /\ run_status_of 1 final <> Some "completed".
Proof.
  repeat split; try reflexivity; discriminate.
Qed.

Lemma get_phases_for_run_same (run_id : nat) (db db' : DB) (l : list Phase.t) :
  phases db' = phases db ->
  StateManager.get_phases_for_run run_id db = (Ok l, db) ->
  StateManager.get_phases_for_run run_id db' = (Ok l, db').
Proof.
  unfold StateManager.get_phases_for_run. intros ->.
  destruct (forallb _ _); [|discriminate]. now intros [= <-].
Qed.

(** Over the phase objects of models.py the summary of a run with phases
    cannot be generated. *)
Lemma summary_without_id (w : World) (run_id : nat) (db : DB) (p : Phase.t)
    (l : list Phase.t) :
  (forall p, phase_id_attr w p = PhaseState_id p) ->
  StateManager.get_phases_for_run run_id db = (Ok (p :: l), db) ->
  PhaseExecutor.generate_execution_summary w run_id db
  = (Raise (AttributeError "'PhaseState' object has no attribute 'id'"), db).
Proof.
  intros Hid Hget. unfold PhaseExecutor.generate_execution_summary.
  unfold bind at 1. rewrite Hget. cbn [PhaseExecutor.count_passes].
  unfold bind, lift. rewrite Hid. reflexivity.
Qed.

(** Over the phase objects of models.py, once the environment validation
    has passed, every run with at least one phase ends failed on
    [phase.id], whatever [execute_single_phase] would do: in the loop when a
    phase is not skipped, in the summary when all are.  No phase row and no
    execution is touched. *)
Lemma execute_phases_fails_on_model_objects (w : World) (run_phase : nat -> M bool)
    (run_id : nat) (db : DB) (l : list Phase.t) :
  (forall p, phase_id_attr w p = PhaseState_id p) ->
  copilot_interface w && negb (environment_valid w) = false ->
  StateManager.get_phases_for_run run_id db = (Ok l, db) ->
  l <> [] ->
  let out := PhaseExecutor.execute_phases_with w run_phase run_id db in
  fst out = Raise (AttributeError "'PhaseState' object has no attribute 'id'")
  /\ phases (snd out) = phases db
  /\ executions (snd out) = executions db
  /\ (find_run run_id db <> None ->
      run_status_of run_id (snd out) = Some "failed").
Proof.
  intros Hid Hval Hget Hne. cbv zeta.
  assert (Hupd : forall st d, str_in st Schema.runs_status = true ->
             StateManager.update_run_status run_id st None d
             = (Ok tt, snd (StateManager.update_run_status run_id st None d))).
  { intros st d Hst. now rewrite (update_run_status_ok run_id st d Hst). }
  assert (Hkeep : forall st d, str_in st Schema.runs_status = true ->
             phases (snd (StateManager.update_run_status run_id st None d)) = phases d
             /\ executions (snd (StateManager.update_run_status run_id st None d))
                = executions d).
  { intros st d Hst. rewrite (update_run_status_ok run_id st d Hst). auto. }
  assert (Hex : forall st d, str_in st Schema.runs_status = true ->
             find_run run_id d <> None ->
             find_run run_id (snd (StateManager.update_run_status run_id st None d))
             <> None).
  { intros st d Hst Hd. pose proof (run_status_after_update run_id st d Hst Hd) as H.
    intros Hn. unfold run_status_of in H. rewrite Hn in H. discriminate. }
  unfold PhaseExecutor.execute_phases_with, try_except. rewrite Hval.
  rewrite (bind_step _ _ db db tt) by reflexivity.
  rewrite (bind_step _ _ _ _ _ Hget).
  destruct l as [|p0 ps]; [contradiction|].
  set (start := snd (StateManager.update_run_status run_id "executing" None db)).
  rewrite (bind_step _ _ _ _ _ (Hupd "executing" db eq_refl)). fold start.
  destruct (Hkeep "executing" db eq_refl) as [Hp1 He1]. fold start in Hp1, He1.
  pose proof (phases_loop_without_id w run_phase run_id
                (PhaseExecutor.sorted_phases (p0 :: ps)) start Hid) as Hloop.
  destruct (forallb _ _).
  - rewrite (bind_step _ _ _ _ _ Hloop).
    set (marked := snd (StateManager.update_run_status run_id "completed" None start)).
    rewrite (bind_step _ _ _ _ _ (Hupd "completed" start eq_refl)). fold marked.
    destruct (Hkeep "completed" start eq_refl) as [Hp2 He2]. fold marked in Hp2, He2.
    assert (Hget' : StateManager.get_phases_for_run run_id marked
                    = (Ok (p0 :: ps), marked)).
    { apply (get_phases_for_run_same run_id db); [congruence|exact Hget]. }
    rewrite (bind_stop _ _ _ _ _ (summary_without_id w run_id marked p0 ps Hid Hget')).
    rewrite (bind_step _ _ _ _ _ (Hupd "failed" marked eq_refl)).
    destruct (Hkeep "failed" marked eq_refl) as [Hp3 He3].
    cbn [raise fst snd]. repeat split; try congruence.
    intros Hrun. apply run_status_after_update; [reflexivity|].
    apply Hex; [reflexivity|]. now apply Hex.
  - rewrite (bind_stop _ _ _ _ _ Hloop).
    rewrite (bind_step _ _ _ _ _ (Hupd "failed" start eq_refl)).
    destruct (Hkeep "failed" start eq_refl) as [Hp3 He3].
    cbn [raise fst snd]. repeat split; try congruence.
    intros Hrun. apply run_status_after_update; [reflexivity|].
    now apply Hex.
Qed.

(** C4.  Over the phase objects that the state manager returns,
    [execute_phases] executes no phase and completes no run.  On a run with
    two pending phases it raises AttributeError on [phase.id] before a phase
    is executed and leaves the run failed, also when [execute_single_phase]
    would succeed for every phase; on a run whose only phase is skipped it
    marks the run completed and then, the summary raising on [phase.id],
    failed.  Over phase objects that carry [id] both runs end completed. *)
Theorem execute_phases_stops_on_phase_id :
  let w := Example.copilot_disabled in
  let no_id := AttributeError "'PhaseState' object has no attribute 'id'" in
  let pending := PhaseExecutor.execute_phases w 1 Example.db_two_phases in
  let patched :=
    PhaseExecutor.execute_phases_with w Example.always_succeeds 1
      Example.db_two_phases in
  let skipped := PhaseExecutor.execute_phases w 1 Example.db_skipped_phase in
  fst pending = Raise no_id
  /\ map Run.status (runs (snd pending)) = ["failed"]
  /\ map Phase.status (phases (snd pending)) = ["pending"; "pending"]
  /\ executions (snd pending) = []
  /\ patched = pending
  /\ fst skipped = Raise no_id
  /\ map Run.status (runs (snd skipped)) = ["failed"]
  /\ snd skipped
     = snd (StateManager.update_run_status 1 "failed" None
              (snd (StateManager.update_run_status 1 "completed" None
                      (snd (StateManager.update_run_status 1 "executing" None
                              Example.db_skipped_phase)))))
  /\ map Run.status
       (runs (snd (PhaseExecutor.execute_phases_with (with_mock_ids w)
                     Example.always_succeeds 1 Example.db_two_phases)))
     = ["completed"]
  /\ map Run.status
       (runs (snd (PhaseExecutor.execute_phases (with_mock_ids w) 1
                     Example.db_skipped_phase)))
     = ["completed"].
Proof. vm_compute. auto 10. Qed.

(** ** Recovery *)

Section OrderBy.
Context {A : Type} (key : A -> Z).

Lemma insert_by_In (x y : A) (l : list A) :
  In y (insert_by key x l) <-> y = x \/ In y l.
Proof.
  induction l as [|a l IH]; cbn.
  - intuition.
  - destruct (key a <=? key x); cbn; rewrite ?IH; intuition.
Qed.

Lemma fold_insert_In (y : A) (l acc : list A) :
  In y (fold_left (fun acc x => insert_by key x acc) l acc) <-> In y l \/ In y acc.
Proof.
  revert acc. induction l as [|a l IH]; intros acc; cbn.
  - intuition.
  - rewrite IH, insert_by_In. intuition.
Qed.

Lemma order_by_In (y : A) (l : list A) : In y (order_by key l) <-> In y l.
Proof. unfold order_by. rewrite fold_insert_In. cbn. intuition. Qed.

Lemma insert_by_sorted (x : A) (l : list A) :
  StronglySorted (key_le key) l -> StronglySorted (key_le key) (insert_by key x l).
Proof.
  induction 1 as [|a l Hs IH Hall]; cbn.
  - constructor; constructor.
  - destruct (Z.leb_spec (key a) (key x)) as [Hle|Hlt].
    + constructor; [exact IH|].
      apply List.Forall_forall. intros y Hy. apply insert_by_In in Hy.
      destruct Hy as [->|Hy]; [exact Hle|].
      rewrite List.Forall_forall in Hall. now apply Hall.
    + constructor; [constructor; assumption|].
      constructor; [unfold key_le; lia|].
      rewrite List.Forall_forall in Hall |- *. intros y Hy.
      specialize (Hall y Hy). unfold key_le in *. lia.
Qed.

Lemma fold_insert_sorted (l acc : list A) :
  StronglySorted (key_le key) acc ->
  StronglySorted (key_le key) (fold_left (fun acc x => insert_by key x acc) l acc).
Proof.
  revert acc. induction l as [|a l IH]; intros acc Hacc; cbn; [exact Hacc|].
  apply IH, insert_by_sorted, Hacc.
Qed.

Lemma order_by_sorted (l : list A) : StronglySorted (key_le key) (order_by key l).
Proof. apply fold_insert_sorted. constructor. Qed.

Lemma sorted_find_least (P : A -> bool) (l : list A) (x : A) :
  StronglySorted (key_le key) l -> find P l = Some x ->
  forall y, In y l -> P y = true -> key x <= key y.
Proof.
  induction 1 as [|a l Hs IH Hall]; cbn; [discriminate|].
  destruct (P a) eqn:Pa.
  - intros [= <-] y [<-|Hy] _; [lia|].
    rewrite List.Forall_forall in Hall. exact (Hall y Hy).
  - intros Hf y [<-|Hy] Py; [congruence|]. now apply IH.
Qed.

Lemma sorted_head_least (l : list A) (x : A) (rest : list A) :
  StronglySorted (key_le key) l -> l = x :: rest ->
  forall y, In y l -> key x <= key y.
Proof.
  intros Hs -> y [<-|Hy]; [lia|].
  apply StronglySorted_inv in Hs as [_ Hall].
  rewrite List.Forall_forall in Hall. exact (Hall y Hy).
Qed.
End OrderBy.

Lemma phases_of_run_In (db : DB) (run_id : nat) (p : Phase.t) :
  In p (List.filter (fun p => Phase.run_id p =? run_id)%nat (phases db))
  <-> phase_of_run db run_id p.
Proof.
  unfold phase_of_run. rewrite List.filter_In, Nat.eqb_eq. reflexivity.
Qed.

Lemma get_run_found (run_id : nat) (db : DB) (r : Run.t) :
  find_run run_id db = Some r -> Models.RunState_valid r = true ->
  StateManager.get_run run_id db = (Ok (Some r), db).
Proof.
  unfold StateManager.get_run, find_run. intros -> ->. reflexivity.
Qed.

Lemma get_phases_for_run_readable (run_id : nat) (db : DB) :
  phases_readable db run_id ->
  StateManager.get_phases_for_run run_id db
  = (Ok (order_by Phase.phase_number
           (List.filter (fun p => Phase.run_id p =? run_id)%nat (phases db))), db).
Proof.
  intros Hr. unfold StateManager.get_phases_for_run.
  replace (forallb _ _) with true; [reflexivity|].
  symmetry. apply List.forallb_forall. intros p Hp.
  apply order_by_In, phases_of_run_In in Hp. now apply Hr.
Qed.

Lemma recoverable_status_valid (r : Run.t) :
  str_in (Run.status r) ["executing"; "paused"] = true ->
  Models.RunState_valid r = true.
Proof.
  unfold Models.RunState_valid, str_in. cbn.
  destruct (String.eqb (Run.status r) "executing"),
           (String.eqb (Run.status r) "paused"); cbn;
    rewrite ?orb_true_r; auto; discriminate.
Qed.

(** Over the phase objects of models.py [recover_execution] names no
    phase: it raises on [phase.id] once it has found one. *)
Lemma recover_execution_without_id (w : World) (run_id : nat) (db : DB)
    (pid : nat) :
  (forall p, phase_id_attr w p = PhaseState_id p) ->
  fst (PhaseExecutor.recover_execution w run_id db) <> Ok (Some pid).
Proof.
  intros Hid. unfold PhaseExecutor.recover_execution, bind at 1.
  destruct (StateManager.get_run run_id db) as [[[r|]|e] db1]; try discriminate.
  destruct (negb _); [discriminate|]. unfold bind at 1.
  destruct (StateManager.get_phases_for_run run_id db1) as [[l|e] db2];
    [|discriminate].
  destruct (find _ _) as [p|]; [|discriminate].
  unfold bind, lift. rewrite Hid. discriminate.
Qed.

(** C5.  For every recoverable run whose phases can be read,
    [recover_run] returns the in-progress phase with the least phase number
    and, over phase objects whose [id] is their identifier,
    [recover_execution] returns the phase with the least phase number among
    those in progress or paused (none when there is none); neither writes
    the store. *)
Theorem recovery_resumes_first_open_phase (w : World) (db : DB) (run_id : nat)
    (r : Run.t) :
  find_run run_id db = Some r ->
  str_in (Run.status r) ["executing"; "paused"] = true ->
  phases_readable db run_id ->
  ((forall p, phase_id_attr w p = Ok (Phase.phase_id p)) ->
   exists point,
      PhaseExecutor.recover_execution w run_id db = (Ok point, db)
      /\ match point with
         | Some pid => exists p, Phase.phase_id p = pid /\ first_resumable db run_id p
         | None => forall q, phase_of_run db run_id q -> resumable q = false
         end)
  /\ (exists current,
      StateManager.recover_run run_id db = (Ok (r, current), db)
      /\ match current with
         | Some p => first_in_progress db run_id p
         | None => forall q, phase_of_run db run_id q ->
                             Phase.status q <> "in_progress"
         end).
Proof.
  intros Hrun Hst Hread.
  pose proof (get_run_found _ _ _ Hrun (recoverable_status_valid _ Hst)) as Hget.
  split.
  - intros ids.
    unfold PhaseExecutor.recover_execution, bind at 1. rewrite Hget, Hst. cbn [negb].
    unfold bind at 1. rewrite (get_phases_for_run_readable _ _ Hread).
    unfold PhaseExecutor.sorted_phases.
    set (rows := order_by Phase.phase_number (order_by Phase.phase_number _)).
    assert (Hin : forall q, In q rows <-> phase_of_run db run_id q).
    { intros q. unfold rows. now rewrite !order_by_In, phases_of_run_In. }
    assert (Hsorted : StronglySorted (key_le Phase.phase_number) rows)
      by apply order_by_sorted.
    fold resumable.
    destruct (find resumable rows) as [p|] eqn:Hf;
      [unfold bind, lift; rewrite ids|];
      eexists; (split; [reflexivity|]); cbn.
    + exists p. split; [reflexivity|].
      pose proof (List.find_some _ _ Hf) as [Hp Hres].
      repeat split; try (now apply Hin); try exact Hres.
      intros q Hq Hqr. apply (sorted_find_least _ _ _ _ Hsorted Hf); [now apply Hin|exact Hqr].
    + intros q Hq. apply Hin in Hq.
      exact (List.find_none _ _ Hf q Hq).
  - unfold StateManager.recover_run, bind at 1. rewrite Hget.
    unfold bind, StateManager.get_current_phase.
    set (rows := order_by Phase.phase_number _).
    assert (Hin : forall q, In q rows <->
                            phase_of_run db run_id q /\ Phase.status q = "in_progress").
    { intros q. unfold rows, phase_of_run.
      rewrite order_by_In, List.filter_In, andb_true_iff, Nat.eqb_eq, String.eqb_eq.
      tauto. }
    assert (Hsorted : StronglySorted (key_le Phase.phase_number) rows)
      by apply order_by_sorted.
    destruct rows as [|p rest] eqn:Hrows.
    + eexists. split; [reflexivity|]. cbn.
      intros q Hq Hs. apply (proj2 (Hin q)); auto.
    + assert (Hp : In p (p :: rest)) by (left; reflexivity).
      apply Hin in Hp as [Hp Hs].
      rewrite (Hread p Hp). eexists. split; [reflexivity|]. cbn.
      repeat split; try apply Hp; try exact Hs.
      intros q Hq Hqs.
      apply (sorted_head_least _ _ _ _ Hsorted eq_refl). apply Hin. auto.
Qed.

Lemma recovery_resumes_first_open_phase_witness :
  exists point,
    PhaseExecutor.recover_execution (with_mock_ids Example.copilot_disabled) 1
      Example.db_interrupted
    = (Ok point, Example.db_interrupted)
    /\ match point with
       | Some pid => exists p, Phase.phase_id p = pid
                               /\ first_resumable Example.db_interrupted 1 p
       | None => forall q, phase_of_run Example.db_interrupted 1 q -> resumable q = false
       end.
Proof.
  refine (proj1 (recovery_resumes_first_open_phase
                   (with_mock_ids Example.copilot_disabled) Example.db_interrupted
                   1 _ eq_refl eq_refl _) (fun _ => eq_refl)).
  intros p [[<-|[<-|[]]] _]; reflexivity.
Defined.

(** C5 with "most recent" in place of "first" fails when two phases of a
    run are in progress: phase 1 is returned, which is the most recent
    neither by phase number nor by start time. *)
Lemma recovery_returns_first_not_most_recent :
  PhaseExecutor.recover_execution (with_mock_ids Example.copilot_disabled) 1
    Example.db_two_in_progress
  = (Ok (Some 10%nat), Example.db_two_in_progress)
  /\ (exists p, StateManager.recover_run 1 Example.db_two_in_progress
                = (Ok p, Example.db_two_in_progress)
                /\ option_map Phase.phase_id (snd p) = Some 10%nat)
  /\ (forall p, Phase.phase_id p = 10%nat ->
                ~ most_recent_resumable Example.db_two_in_progress 1 p)
  /\ (forall p, Phase.phase_id p = 10%nat ->
                ~ latest_started_resumable Example.db_two_in_progress 1 p).
Proof.
  split; [reflexivity|]. split; [eexists; split; reflexivity|]. split.
  - intros p Hid (Hp & _ & Hmax).
    destruct Hp as [[<-|[<-|[]]] _]; [|discriminate Hid].
    specialize (Hmax (Phase.mk 11 1 2 "small" "in_progress" (Some 6%nat) None None 0 2)).
    cbn in Hmax. assert (2 <= 1); [|lia].
    apply Hmax; [|reflexivity]. split; [right; left; reflexivity|reflexivity].
  - intros p Hid (Hp & _ & Hmax).
    destruct Hp as [[<-|[<-|[]]] _]; [|discriminate Hid].
    destruct (Hmax (Phase.mk 11 1 2 "small" "in_progress" (Some 6%nat) None None 0 2) 6%nat)
      as (t' & Ht' & Hle); [split; [right; left; reflexivity|reflexivity]|reflexivity|reflexivity|].
    cbn in Ht'. injection Ht' as <-. lia.
Qed.

(** ** Patch application *)

(** The [add_finding] call raises before anything is stored, on [phase.id]
    or on keywords that do not bind, so the pass never writes the store. *)
Lemma apply_copilot_patches_records_nothing (w : World) (phase : Phase.t)
    (result : Copilot.CopilotExecutionResult) (pass_number : Z) (db : DB) :
  snd (PhaseExecutor._apply_copilot_patches w phase result pass_number db) = db.
Proof.
  unfold PhaseExecutor._apply_copilot_patches.
  destruct (git_repo w); [|reflexivity]. cbn [negb].
  destruct (Copilot.patches result) as [|p ps] eqn:Hp; [reflexivity|].
  destruct (patches_dir_exists w _ _); [|reflexivity]. cbn [negb].
  unfold try_except.
  destruct (PhaseExecutor.apply_each _ _ _ _ _ _ _) as [applied [|f failed]];
    [reflexivity|].
  unfold bind at 1, lift. destruct (phase_id_attr w phase); reflexivity.
Qed.

(** C6.  On a change-set of two patches of which the first applies and the
    second is rejected, the pass reports failure and records no Finding:
    the keywords of its [add_finding] call do not bind to the parameters of
    [StateManager.add_finding].  This is so over phase objects that carry
    [id] as over those of models.py. *)
Theorem failed_patch_records_no_finding :
  let w := Example.second_patch_rejected in
  let failed := [("b.py", "git apply failed")] in
  PhaseExecutor.apply_each w 10 1 0 (Copilot.patches Example.two_patches) [] []
  = (["a.py"], failed)
  /\ call_add_finding (PhaseExecutor.patch_failure_finding 10 1 failed) Example.db0
     = (Raise (TypeError "got an unexpected keyword argument 'phase_id'"),
        Example.db0)
  /\ PhaseExecutor._apply_copilot_patches (with_mock_ids w) Example.phase10
       Example.two_patches 1 Example.db0
     = (Ok false, Example.db0)
  /\ PhaseExecutor._apply_copilot_patches w Example.phase10 Example.two_patches 1
       Example.db0
     = (Ok false, Example.db0)
  /\ findings Example.db0 = [].
Proof. vm_compute. auto 10. Qed.

(** ** The Generation Service response *)





(** ** The completed-phases counter *)

(** C8.  Setting an already completed phase to completed again increments
    the run's counter a second time: the counter is 2 while one phase is
    completed. *)
Theorem completed_counter_double_counts :
  let db1 := snd (StateManager.update_phase_status 10 "completed" None (Some 7%nat) Example.db0) in
  let db2 := snd (StateManager.update_phase_status 10 "completed" None (Some 8%nat) db1) in
  counter_consistent Example.db0 = true
  /\ counter_consistent db1 = true
  /\ map Run.completed_phases (runs db2) = [2]
  /\ count_completed 1 db2 = 1
  /\ counter_consistent db2 = false.
Proof. vm_compute. auto. Qed.

(** ** Resuming after an intervention *)

Lemma resolve_intervention_rejects (intervention_id : nat) (action : string)
    (notes : option string) (db : DB) :
  existsb (fun i => Intervention.intervention_id i =? intervention_id)%nat
    (manual_interventions db) = true ->
  str_in action ["resumed"; "skipped"; "modified_spec"; "aborted"] = true ->
  fst (StateManager.resolve_intervention intervention_id action notes db)
  = Raise (DatabaseError "Failed to resolve intervention")
  /\ manual_interventions
       (snd (StateManager.resolve_intervention intervention_id action notes db))
     = manual_interventions db.
Proof.
  intros Hex Hact.
  assert (Hbad : str_in action Schema.manual_interventions_action_taken = false).
  { unfold str_in in *. cbn in *.
    repeat match goal with
           | H : context [String.eqb action ?s] |- _ =>
               destruct (String.eqb_spec action s); [subst; reflexivity|]; cbn in H
           end.
    discriminate. }
  unfold StateManager.resolve_intervention, bind, now. cbv beta iota.
  cbn [manual_interventions]. rewrite Hex, Hbad. split; reflexivity.
Qed.

Lemma update_phase_status_admitted (phase_id : nat) (s : string)
    (a b : option nat) (db : DB) :
  str_in s Schema.phases_status = true ->
  exists db', StateManager.update_phase_status phase_id s a b db = (Ok tt, db')
              /\ manual_interventions db' = manual_interventions db.
Proof.
  intros Hs. unfold StateManager.update_phase_status. cbv zeta. eexists.
  rewrite Hs. cbn [negb]. rewrite andb_false_r. split; [reflexivity|].
  destruct (String.eqb s "in_progress"); [reflexivity|].
  destruct (String.eqb s "completed"); reflexivity.
Qed.

Lemma pending_intervention_stored (run_id phase_id : nat) (db : DB)
    (rows : list Intervention.t) (i : Intervention.t) :
  StateManager.get_pending_interventions run_id db = (Ok rows, db) ->
  find (fun i => Intervention.phase_id i =? phase_id)%nat rows = Some i ->
  existsb
    (fun j => Intervention.intervention_id j =? Intervention.intervention_id i)%nat
    (manual_interventions db) = true.
Proof.
  unfold StateManager.get_pending_interventions.
  destruct (forallb _ _); [|discriminate]. intros [= <-] Hf.
  apply List.find_some in Hf as [Hin _].
  apply order_by_In, List.filter_In in Hin as [Hin _].
  apply existsb_exists. exists i. split; [exact Hin|apply Nat.eqb_refl].
Qed.

(** With an open intervention [i] for the phase, each action leads
    [resume_phase] to the call that resolves [i], with one of the four
    action values of the executor and with the interventions untouched. *)
Lemma resume_phase_reaches_resolve (w : World) (phase_id : nat) (action : string)
    (modified_spec_path : option string) (db : DB) (p : Phase.t)
    (rows : list Intervention.t) (i : Intervention.t) :
  StateManager.get_phase phase_id db = (Ok (Some p), db) ->
  StateManager.get_pending_interventions (Phase.run_id p) db = (Ok rows, db) ->
  find (fun i => Intervention.phase_id i =? phase_id)%nat rows = Some i ->
  str_in action ["resume"; "skip"; "modify_spec"; "abort"] = true ->
  (action = "modify_spec" ->
   str_truthy modified_spec_path = true /\ modified_spec_exists w = true) ->
  exists a db',
    PhaseExecutor.resume_phase w phase_id action modified_spec_path db
    = StateManager.resolve_intervention (Intervention.intervention_id i) a None db'
    /\ str_in a ["resumed"; "skipped"; "modified_spec"; "aborted"] = true
    /\ manual_interventions db' = manual_interventions db.
Proof.
  intros Hg Hpend Hfind Hact Hpath.
  unfold PhaseExecutor.resume_phase.
  run_op Hg. run_op Hpend. rewrite Hfind.
  assert (Hrun : forall s db',
             str_in s Schema.runs_status = true ->
             exists db'', StateManager.update_run_status (Phase.run_id p) s None db'
                          = (Ok tt, db'')
                          /\ manual_interventions db'' = manual_interventions db').
  { intros s db' Hs. eexists. split; [apply (update_run_status_ok _ _ _ Hs)|reflexivity]. }
  destruct (String.eqb_spec action "resume") as [->|Hn1].
  { destruct (update_phase_status_admitted phase_id "in_progress" None None db eq_refl)
      as (db1 & E1 & M1).
    destruct (Hrun "executing" db1 eq_refl) as (db2 & E2 & M2).
    run_op E1. run_op E2. exists "resumed", db2. repeat split. congruence. }
  destruct (String.eqb_spec action "skip") as [->|Hn2].
  { destruct (update_phase_status_admitted phase_id "skipped" None None db eq_refl)
      as (db1 & E1 & M1).
    run_op E1. exists "skipped", db1. repeat split. congruence. }
  destruct (String.eqb_spec action "modify_spec") as [->|Hn3].
  { destruct (Hpath eq_refl) as [-> ->]. cbn [negb orb].
    destruct (update_phase_status_admitted phase_id "in_progress" None None db eq_refl)
      as (db1 & E1 & M1).
    destruct (Hrun "executing" db1 eq_refl) as (db2 & E2 & M2).
    run_op E1. run_op E2. exists "modified_spec", db2. repeat split. congruence. }
  destruct (String.eqb_spec action "abort") as [->|Hn4].
  { destruct (update_phase_status_admitted phase_id "failed" None None db eq_refl)
      as (db1 & E1 & M1).
    destruct (Hrun "aborted" db1 eq_refl) as (db2 & E2 & M2).
    run_op E1. run_op E2. exists "aborted", db2. repeat split. congruence. }
  exfalso. unfold str_in in Hact. cbn in Hact.
  repeat match type of Hact with
         | context [String.eqb action ?s] =>
             destruct (String.eqb_spec action s); [congruence|]; cbn in Hact
         end.
  discriminate.
Qed.

(** Whatever the action, [resume_phase] then ends in a DatabaseError and
    leaves the interventions as they were. *)
Lemma resume_phase_never_resolves (w : World) (phase_id : nat) (action : string)
    (modified_spec_path : option string) (db : DB) (p : Phase.t)
    (rows : list Intervention.t) (i : Intervention.t) :
  StateManager.get_phase phase_id db = (Ok (Some p), db) ->
  StateManager.get_pending_interventions (Phase.run_id p) db = (Ok rows, db) ->
  find (fun i => Intervention.phase_id i =? phase_id)%nat rows = Some i ->
  str_in action ["resume"; "skip"; "modify_spec"; "abort"] = true ->
  (action = "modify_spec" ->
   str_truthy modified_spec_path = true /\ modified_spec_exists w = true) ->
  let out := PhaseExecutor.resume_phase w phase_id action modified_spec_path db in
  fst out = Raise (DatabaseError "Failed to resolve intervention")
  /\ manual_interventions (snd out) = manual_interventions db.
Proof.
  intros Hg Hpend Hfind Hact Hpath.
  destruct (resume_phase_reaches_resolve w phase_id action modified_spec_path db p
              rows i Hg Hpend Hfind Hact Hpath) as (a & db' & -> & Ha & Hsame).
  pose proof (pending_intervention_stored _ _ _ _ _ Hpend Hfind) as Hstored.
  destruct (resolve_intervention_rejects (Intervention.intervention_id i) a None db')
    as [Hr Hm]; [now rewrite Hsame|exact Ha|].
  cbv zeta. rewrite Hr, Hm. auto.
Qed.

(** C9.  On the escalated store, whose phase has one open intervention,
    each of the four actions changes the statuses and then fails to resolve
    the intervention: the action value it writes is rejected by the
    manual_interventions table, so the intervention stays open with no
    action_taken. *)
Theorem resume_leaves_intervention_open :
  map (fun i => (Intervention.phase_id i, Intervention.resolved_at i))
    (manual_interventions Example.escalated) = [(10%nat, None)]
  /\ resume_outcome "resume"
     = (Raise (DatabaseError "Failed to resolve intervention"),
        ["in_progress"], ["executing"], [(None, None)])
  /\ resume_outcome "skip"
     = (Raise (DatabaseError "Failed to resolve intervention"),
        ["skipped"], ["planning"], [(None, None)])
  /\ resume_outcome "modify_spec"
     = (Raise (DatabaseError "Failed to resolve intervention"),
        ["in_progress"], ["executing"], [(None, None)])
  /\ resume_outcome "abort"
     = (Raise (DatabaseError "Failed to resolve intervention"),
        ["failed"], ["aborted"], [(None, None)]).
Proof. vm_compute. auto 10. Qed.

(** ** Verification without an execution *)

(** C10.  When no execution is recorded for the phase, [_run_verification]
    returns a passed result with no findings, a zero summary and an empty
    list of checks, and writes nothing. *)
Theorem run_verification_without_execution_passes (w : World) (phase : Phase.t)
    (pass_number : Z) (db : DB) :
  (forall e, In e (executions db) -> Execution.phase_id e <> Phase.phase_id phase) ->
  exists result,
    PhaseExecutor._run_verification w phase pass_number db = (Ok result, db)
    /\ PhaseVerifier.passed result = true
    /\ PhaseVerifier.findings result = []
    /\ PhaseVerifier.findings_summary result
       = {[ "major" := 0; "medium" := 0; "minor" := 0 ]}
    /\ PhaseVerifier.failed_checklist_items result = []
    /\ PhaseVerifier.checks_run result = [].
Proof.
  intros Hnone.
  assert (Hf : List.filter (fun e => Execution.phase_id e =? Phase.phase_id phase)%nat
                 (executions db) = []).
  { induction (executions db) as [|e l IH]; [reflexivity|]. cbn.
    destruct (Nat.eqb_spec (Execution.phase_id e) (Phase.phase_id phase)) as [Heq|_].
    - exfalso. apply (Hnone e); [left; reflexivity|exact Heq].
    - apply IH. intros e' He'. apply Hnone. right. exact He'. }
  exists PhaseExecutor.vacuous_pass.
  unfold PhaseExecutor._run_verification, bind, StateManager.get_executions_for_phase.
  rewrite Hf. cbn. repeat split.
Qed.

Lemma run_verification_without_execution_passes_witness :
  exists result,
    PhaseExecutor._run_verification Example.copilot_times_out Example.phase10 1
      Example.db0 = (Ok result, Example.db0)
    /\ PhaseVerifier.passed result = true
    /\ PhaseVerifier.findings result = []
    /\ PhaseVerifier.findings_summary result
       = {[ "major" := 0; "medium" := 0; "minor" := 0 ]}
    /\ PhaseVerifier.failed_checklist_items result = []
    /\ PhaseVerifier.checks_run result = [].
Proof.
  apply (run_verification_without_execution_passes Example.copilot_times_out
           Example.phase10 1 Example.db0).
  intros e [].
Defined.

(** * Further properties of the code *)

(** ** Ordered queries *)

Section SortLe.
Context {A : Type} (le : A -> A -> bool).

Lemma insert_le_perm (x : A) (l : list A) :
  Permutation (insert_le le x l) (x :: l).
Proof.
  induction l as [|a l IH]; cbn; [reflexivity|].
  destruct (le a x); [|reflexivity].
  rewrite IH. apply perm_swap.
Qed.

Lemma fold_insert_le_perm (l acc : list A) :
  Permutation (fold_left (fun acc x => insert_le le x acc) l acc) (l ++ acc).
Proof.
  revert acc. induction l as [|a l IH]; intros acc; cbn; [reflexivity|].
  rewrite IH, insert_le_perm. symmetry. apply Permutation_middle.
Qed.

Lemma sort_le_perm (l : list A) : Permutation (sort_le le l) l.
Proof. unfold sort_le. rewrite fold_insert_le_perm. now rewrite app_nil_r. Qed.

Lemma sort_le_In (y : A) (l : list A) : In y (sort_le le l) <-> In y l.
Proof.
  split; apply Permutation_in; [|symmetry]; apply sort_le_perm.
Qed.
End SortLe.

Lemma insert_by_insert_le {A} (key : A -> Z) (x : A) (l : list A) :
  insert_by key x l = insert_le (fun y x => key y <=? key x) x l.
Proof. induction l as [|a l IH]; cbn; [reflexivity|]. now rewrite IH. Qed.

Lemma order_by_sort_le {A} (key : A -> Z) (l : list A) :
  order_by key l = sort_le (fun y x => key y <=? key x) l.
Proof.
  unfold order_by, sort_le. generalize (@nil A).
  induction l as [|a l IH]; intros acc; cbn; [reflexivity|].
  now rewrite insert_by_insert_le, IH.
Qed.

Lemma order_by_perm {A} (key : A -> Z) (l : list A) :
  Permutation (order_by key l) l.
Proof. rewrite order_by_sort_le. apply sort_le_perm. Qed.

(** ** Phases *)

Lemma find_app_none {A} (f : A -> bool) (l l' : list A) :
  find f l = None -> find f (l ++ l') = find f l'.
Proof.
  induction l as [|a l IH]; cbn; [reflexivity|].
  destruct (f a); [discriminate|exact IH].
Qed.




(** ** The counter of a run's phases *)

Lemma filter_update_where_length {A} (hit keep : A -> bool) (f : A -> A)
    (l : list A) :
  (forall a, keep (f a) = keep a) ->
  length (List.filter keep (update_where hit f l)) = length (List.filter keep l).
Proof.
  intros Hk. unfold update_where. induction l as [|a l IH]; [reflexivity|]. cbn.
  destruct (hit a); [rewrite Hk|]; destruct (keep a); cbn; now rewrite IH.
Qed.

Lemma forallb_update_where {A} (hit ok ok' : A -> bool) (f : A -> A) (l : list A) :
  (forall a, ok' (if hit a then f a else a) = ok a) ->
  forallb ok' (update_where hit f l) = forallb ok l.
Proof.
  intros H. unfold update_where. induction l as [|a l IH]; [reflexivity|]. cbn.
  now rewrite H, IH.
Qed.

Lemma count_phases_update (hit : Phase.t -> bool) (f : Phase.t -> Phase.t)
    (run_id : nat) (db : DB) :
  (forall p, Phase.run_id (f p) = Phase.run_id p) ->
  count_phases run_id (set_phases (update_where hit f (phases db)) db)
  = count_phases run_id db.
Proof.
  intros Hf. unfold count_phases. cbn [phases set_phases]. f_equal.
  apply filter_update_where_length. intros p. now rewrite Hf.
Qed.

Lemma totals_consistent_runs (hit : Run.t -> bool) (f : Run.t -> Run.t) (db : DB) :
  (forall r, Run.run_id (f r) = Run.run_id r) ->
  (forall r, Run.total_phases (f r) = Run.total_phases r) ->
  totals_consistent (set_runs (update_where hit f (runs db)) db)
  = totals_consistent db.
Proof.
  intros Hid Ht. unfold totals_consistent. cbn [runs set_runs].
  apply forallb_update_where. intros r. unfold count_phases. cbn [phases set_runs].
  destruct (hit r); [rewrite Hid, Ht|]; reflexivity.
Qed.

Lemma totals_consistent_phases (hit : Phase.t -> bool) (f : Phase.t -> Phase.t)
    (db : DB) :
  (forall p, Phase.run_id (f p) = Phase.run_id p) ->
  totals_consistent (set_phases (update_where hit f (phases db)) db)
  = totals_consistent db.
Proof.
  intros Hf. unfold totals_consistent. cbn [runs set_phases].
  induction (runs db) as [|r l IH]; [reflexivity|]. cbn.
  now rewrite count_phases_update, IH.
Qed.

Lemma totals_consistent_tick (db : DB) (u c : nat) :
  totals_consistent
    (mkDB (runs db) (phases db) (executions db) (findings db) (artifacts db)
       (manual_interventions db) u c)
  = totals_consistent db.
Proof. reflexivity. Qed.

(** X3.  If every run's total_phases equals the number of phase rows of
    that run, this still holds after create_phase, update_phase_status,
    increment_phase_retry and update_run_status, whatever their arguments
    and whether they return or raise. *)
Theorem total_phases_counter_is_kept (db : DB) :
  totals_consistent db = true ->
  (forall run_id phase_number max_retries size,
      totals_consistent
        (snd (StateManager.create_phase run_id phase_number max_retries size db))
      = true)
  /\ (forall phase_id status started_at completed_at,
      totals_consistent
        (snd (StateManager.update_phase_status phase_id status started_at
                completed_at db)) = true)
  /\ (forall phase_id,
      totals_consistent (snd (StateManager.increment_phase_retry phase_id db))
      = true)
  /\ (forall run_id status error,
      totals_consistent (snd (StateManager.update_run_status run_id status error db))
      = true).
Proof.
  intros Hc. split; [|split; [|split]].
  - intros run_id phase_number max_retries size.
    unfold StateManager.create_phase, bind, uuid4, now. cbv beta iota zeta.
    cbn [phases runs set_phases set_runs next_uuid clock].
    destruct (negb _); [exact Hc|].
    match goal with
    | |- totals_consistent (snd (if _ then (_, ?d) else _)) = true =>
        assert (H2 : totals_consistent d = true)
    end.
    2:{ destruct (Models.PhaseState_valid _); exact H2. }
    unfold totals_consistent in *. cbn [runs set_runs set_phases].
    rewrite (forallb_update_where _
               (fun r => Run.total_phases r =? count_phases (Run.run_id r) db));
      [exact Hc|].
    intros r. unfold count_phases. cbn [phases set_runs set_phases].
    rewrite List.filter_app, length_app. cbn [List.filter Phase.run_id].
    destruct (Run.run_id r =? run_id)%nat eqn:Hr'.
    + cbn [Run.total_phases Run.run_id Run.incr_total_phases].
      apply Nat.eqb_eq in Hr'. subst run_id. rewrite Nat.eqb_refl. cbn [length].
      rewrite Nat2Z.inj_add. cbn.
      destruct (Z.eqb_spec (Run.total_phases r)
                  (Z.of_nat (length (List.filter
                     (fun p => (Phase.run_id p =? Run.run_id r)%nat) (phases db)))));
        [apply Z.eqb_eq|apply Z.eqb_neq]; lia.
    + rewrite Nat.eqb_sym, Hr'. cbn [length]. now rewrite Nat.add_0_r.
  - intros phase_id status started_at completed_at.
    unfold StateManager.update_phase_status. cbv zeta.
    destruct (_ && _); [exact Hc|]. cbn [snd].
    destruct (String.eqb status "in_progress");
      [|destruct (String.eqb status "completed")];
      rewrite ?totals_consistent_runs, totals_consistent_phases; auto.
  - intros phase_id. unfold StateManager.increment_phase_retry. cbv zeta.
    match goal with
    | |- totals_consistent (snd (match ?x with _ => _ end)) = true =>
        destruct x
    end; cbn [snd]; rewrite totals_consistent_phases; auto.
  - intros run_id status error.
    unfold StateManager.update_run_status, bind, now. cbv beta iota.
    destruct (_ && _); [exact Hc|]. cbn [snd].
    rewrite (totals_consistent_runs _ _
               (mkDB (runs db) (phases db) (executions db) (findings db)
                  (artifacts db) (manual_interventions db) (next_uuid db)
                  (S (clock db)))); auto.
Qed.

(** X4.  When all phase rows of a run pass the PhaseState validation,
    get_phases_for_run returns, without changing the store, exactly the
    phases of that run (a permutation of the run's rows), sorted by
    ascending phase_number. *)
Theorem get_phases_for_run_sorted (db : DB) (run_id : nat) :
  phases_readable db run_id ->
  exists l,
    StateManager.get_phases_for_run run_id db = (Ok l, db)
    /\ (forall p, In p l <-> phase_of_run db run_id p)
    /\ StronglySorted (key_le Phase.phase_number) l
    /\ Permutation l
         (List.filter (fun p => Phase.run_id p =? run_id)%nat (phases db)).
Proof.
  intros Hread. eexists. split; [apply (get_phases_for_run_readable _ _ Hread)|].
  split; [|split].
  - intros p. now rewrite order_by_In, phases_of_run_In.
  - apply order_by_sorted.
  - apply order_by_perm.
Qed.

(** ** Findings *)

Lemma filter_app_one {A} (f : A -> bool) (l : list A) (x : A) :
  List.filter f (l ++ [x]) = (List.filter f l ++ if f x then [x] else [])%list.
Proof. rewrite List.filter_app. cbn. now destruct (f x). Qed.

(** X5.  When the findings of the execution can be read, add_finding with
    a severity and a category that the findings table allows returns an
    unresolved finding with the given fields; get_findings_for_execution
    of the same execution then returns the findings it returned before
    plus this one, one more in number. *)
Theorem add_finding_round_trip (execution_id : nat)
    (severity category title description evidence : string)
    (suggested_fix : option string) (db : DB) (l : list Finding.t) :
  str_in severity Schema.findings_severity = true ->
  str_in category Schema.findings_category = true ->
  StateManager.get_findings_for_execution execution_id db = (Ok l, db) ->
  exists f db' l',
    StateManager.add_finding execution_id severity category title description
      evidence suggested_fix db = (Ok f, db')
    /\ f = Finding.mk (next_uuid db) execution_id severity category title
             description evidence suggested_fix false (clock db)
    /\ StateManager.get_findings_for_execution execution_id db' = (Ok l', db')
    /\ (forall g, In g l' <-> g = f \/ In g l)
    /\ length l' = S (length l).
Proof.
  intros Hsev Hcat Hget.
  set (f := Finding.mk (next_uuid db) execution_id severity category title
              description evidence suggested_fix false (clock db)).
  assert (Hf : Models.Finding_valid f = true).
  { unfold Models.Finding_valid, f. cbn [Finding.severity Finding.category].
    unfold Schema.findings_severity, Schema.findings_category in *.
    now rewrite Hsev, Hcat. }
  unfold StateManager.get_findings_for_execution in Hget.
  set (old := List.filter _ (findings db)) in Hget.
  destruct (forallb Models.Finding_valid (sort_le finding_le old)) eqn:Hold;
    [|discriminate].
  injection Hget as <-.
  assert (Hin : forall g, In g (sort_le finding_le (old ++ [f]))
                          <-> g = f \/ In g (sort_le finding_le old)).
  { intros g. rewrite !sort_le_In, in_app_iff. cbn. intuition. }
  exists f. eexists. exists (sort_le finding_le (old ++ [f])).
  split; [|split; [reflexivity|split; [|split]]].
  - unfold StateManager.add_finding, bind, uuid4, now. cbv beta iota zeta.
    cbn [findings next_uuid clock]. rewrite Hsev, Hcat. reflexivity.
  - unfold StateManager.get_findings_for_execution.
    cbn [findings set_findings].
    rewrite filter_app_one. cbn [Finding.execution_id f]. rewrite Nat.eqb_refl.
    fold old.
    replace (forallb _ _) with true; [reflexivity|].
    symmetry. apply List.forallb_forall. intros g Hg.
    apply Hin in Hg as [->|Hg]; [exact Hf|].
    rewrite List.forallb_forall in Hold. now apply Hold.
  - exact Hin.
  - rewrite (Permutation_length (sort_le_perm finding_le (old ++ [f]))),
            (Permutation_length (sort_le_perm finding_le old)), length_app.
    cbn. lia.
Qed.

Lemma group_count_lookup (l : list string) (s : string) :
  group_count l !! s
  = let n := Z.of_nat (length (List.filter (String.eqb s) l)) in
    if n =? 0 then None else Some n.
Proof.
  induction l as [|a l IH]; [reflexivity|]. cbn [group_count List.filter].
  cbv zeta in *. destruct (String.eqb_spec s a) as [<-|Hne].
  - rewrite lookup_insert_eq, IH. cbn [length]. rewrite Nat2Z.inj_succ.
    assert (0 <= Z.of_nat (length (List.filter (String.eqb s) l))) by lia.
    generalize dependent (Z.of_nat (length (List.filter (String.eqb s) l))).
    intros n _ Hn.
    destruct (Z.eqb_spec (Z.succ n) 0); [lia|].
    destruct (Z.eqb_spec n 0) as [->|]; cbn; f_equal; lia.
  - rewrite lookup_insert_ne by congruence. exact IH.
Qed.

Lemma filter_map_filter_length {A} (f : A -> bool) (g : A -> string) (s : string)
    (l : list A) :
  length (List.filter (String.eqb s) (map g (List.filter f l)))
  = length (List.filter (fun a => f a && String.eqb (g a) s) l).
Proof.
  induction l as [|a l IH]; [reflexivity|]. cbn.
  destruct (f a); cbn; [|exact IH].
  rewrite (String.eqb_sym s). destruct (String.eqb (g a) s); cbn; now rewrite IH.
Qed.

(** X6.  get_findings_summary never fails and changes nothing: it maps
    each severity to the number of findings of the execution with that
    severity, and a severity without findings has no entry (rather than an
    entry 0). *)
Theorem get_findings_summary_counts (execution_id : nat) (db : DB) :
  exists summary,
    StateManager.get_findings_summary execution_id db = (Ok summary, db)
    /\ forall severity,
         summary !! severity
         = if count_findings execution_id severity db =? 0 then None
           else Some (count_findings execution_id severity db).
Proof.
  eexists. split; [reflexivity|]. intros severity.
  rewrite group_count_lookup. cbv zeta. unfold count_findings.
  now rewrite filter_map_filter_length.
Qed.

Lemma In_update_where {A} (hit : A -> bool) (f : A -> A) (l : list A) (y : A) :
  In y (update_where hit f l)
  <-> exists x, In x l /\ y = if hit x then f x else x.
Proof.
  unfold update_where. rewrite in_map_iff. split; intros (x & H1 & H2).
  - exists x. auto.
  - exists x. auto.
Qed.

(** X7.  When get_unresolved_findings returns for an execution and a
    severity filter, mark_finding_resolved of any identifier, known or
    not, succeeds, and afterwards get_unresolved_findings returns what it
    returned before without the finding that has that identifier. *)
Theorem resolved_finding_is_not_reported (finding_id execution_id : nat)
    (severities : list string) (db : DB) (l : list Finding.t) :
  StateManager.get_unresolved_findings execution_id severities db = (Ok l, db) ->
  exists db' l',
    StateManager.mark_finding_resolved finding_id db = (Ok tt, db')
    /\ StateManager.get_unresolved_findings execution_id severities db' = (Ok l', db')
    /\ (forall g, In g l' <-> In g l /\ Finding.finding_id g <> finding_id).
Proof.
  intros Hget. unfold StateManager.mark_finding_resolved.
  do 2 eexists. split; [reflexivity|].
  unfold StateManager.get_unresolved_findings in *. cbn [findings set_findings].
  set (wanted := fun f => (Finding.execution_id f =? execution_id)%nat
                          && str_in (Finding.severity f) severities
                          && negb (Finding.resolved f)) in *.
  destruct (forallb _ (sort_le finding_le (List.filter wanted (findings db))))
    eqn:Hold; [|discriminate].
  injection Hget as <-.
  assert (Hin : forall g,
             In g (sort_le finding_le
                     (List.filter wanted
                        (update_where (fun f => Finding.finding_id f =? finding_id)%nat
                           Finding.set_resolved (findings db))))
             <-> In g (sort_le finding_le (List.filter wanted (findings db)))
                 /\ Finding.finding_id g <> finding_id).
  { intros g. rewrite !sort_le_In, !List.filter_In, In_update_where. split.
    - intros [(x & Hx & ->) Hw].
      destruct (Finding.finding_id x =? finding_id)%nat eqn:Hid.
      + unfold wanted in Hw. cbn in Hw. now rewrite andb_false_r in Hw.
      + apply Nat.eqb_neq in Hid. auto.
    - intros [[Hg Hw] Hid]. split; [|exact Hw]. exists g. split; [exact Hg|].
      apply Nat.eqb_neq in Hid. now rewrite Hid. }
  split; [|exact Hin].
  replace (forallb _ _) with true; [reflexivity|].
  symmetry. apply List.forallb_forall. intros g Hg. apply Hin in Hg as [Hg _].
  rewrite List.forallb_forall in Hold. now apply Hold.
Qed.

(** ** Interventions *)

Lemma filter_pending_phases (run_id : nat) (db db' : DB)
    (l : list Intervention.t) :
  phases db' = phases db ->
  List.filter (StateManager.is_pending_for run_id db') l
  = List.filter (StateManager.is_pending_for run_id db) l.
Proof.
  intros H. apply List.filter_ext. intros i.
  unfold StateManager.is_pending_for. now rewrite H.
Qed.

(** X8.  For an existing phase, an allowed reason and an unused new
    identifier, when the pending interventions of the run can be read,
    create_intervention adds one pending intervention to
    get_pending_interventions of the phase's run; resolve_intervention of
    it with an allowed action brings the pending list back to what it was
    before. *)
Theorem intervention_round_trip (phase_id : nat) (reason action : string)
    (notes : option string) (db : DB) (p : Phase.t) (l : list Intervention.t) :
  str_in reason Schema.manual_interventions_reason = true ->
  str_in action Schema.manual_interventions_action_taken = true ->
  find_phase phase_id db = Some p ->
  StateManager.get_pending_interventions (Phase.run_id p) db = (Ok l, db) ->
  (forall i, In i (manual_interventions db) ->
             Intervention.intervention_id i <> next_uuid db) ->
  exists i db1 l1 db2 l2,
    StateManager.create_intervention phase_id reason db = (Ok i, db1)
    /\ StateManager.get_pending_interventions (Phase.run_id p) db1 = (Ok l1, db1)
    /\ (forall j, In j l1 <-> j = i \/ In j l)
    /\ StateManager.resolve_intervention (Intervention.intervention_id i) action
         notes db1 = (Ok tt, db2)
    /\ StateManager.get_pending_interventions (Phase.run_id p) db2 = (Ok l2, db2)
    /\ (forall j, In j l2 <-> In j l).
Proof.
  intros Hreason Haction Hp Hget Hfresh.
  set (i := Intervention.mk (next_uuid db) phase_id (clock db) reason None None None).
  assert (Hi : Models.ManualIntervention_valid i = true).
  { unfold Models.ManualIntervention_valid, i.
    cbn [Intervention.reason Intervention.action_taken check_nullable].
    unfold Schema.manual_interventions_reason in Hreason. now rewrite Hreason. }
  assert (Hpending : forall db', phases db' = phases db ->
                                 StateManager.is_pending_for (Phase.run_id p) db' i = true).
  { intros db' Hph. unfold StateManager.is_pending_for. rewrite Hph.
    cbn [Intervention.resolved_at Intervention.phase_id i]. rewrite andb_true_r.
    unfold find_phase in Hp. apply existsb_exists. exists p.
    pose proof (List.find_some _ _ Hp) as [Hin Hid]. split; [exact Hin|].
    now rewrite Hid, Nat.eqb_refl. }
  unfold StateManager.get_pending_interventions in Hget.
  set (old := List.filter _ (manual_interventions db)) in Hget.
  set (key := fun i => Z.of_nat (Intervention.created_at i)) in *.
  destruct (forallb _ (order_by key old)) eqn:Hold; [|discriminate].
  injection Hget as <-.
  set (db1 := set_manual_interventions (manual_interventions db ++ [i])
                (mkDB (runs db) (phases db) (executions db) (findings db)
                   (artifacts db) (manual_interventions db) (S (next_uuid db))
                   (S (clock db)))).
  assert (Hfilter1 : List.filter (StateManager.is_pending_for (Phase.run_id p) db1)
                       (manual_interventions db1) = (old ++ [i])%list).
  { rewrite (filter_pending_phases _ db db1) by reflexivity.
    unfold db1. cbn [manual_interventions set_manual_interventions].
    rewrite filter_app_one. rewrite (Hpending db eq_refl). reflexivity. }
  exists i, db1, (order_by key (old ++ [i])).
  set (t1 := clock db1).
  set (hit := fun j => (Intervention.intervention_id j =? next_uuid db)%nat).
  set (db2 := set_manual_interventions
                (update_where hit (Intervention.resolve action notes t1)
                   (manual_interventions db1))
                (mkDB (runs db1) (phases db1) (executions db1) (findings db1)
                   (artifacts db1) (manual_interventions db1) (next_uuid db1)
                   (S (clock db1)))).
  assert (Hupd : update_where hit (Intervention.resolve action notes t1)
                   (manual_interventions db1)
                 = (manual_interventions db
                    ++ [Intervention.resolve action notes t1 i])%list).
  { unfold db1, update_where. cbn [manual_interventions set_manual_interventions].
    rewrite map_app. cbn [map]. f_equal.
    - rewrite <- (map_id (manual_interventions db)) at 2.
      apply map_ext_in. intros j Hj. unfold hit.
      destruct (Nat.eqb_spec (Intervention.intervention_id j) (next_uuid db));
        [exfalso; eapply Hfresh; eauto|reflexivity].
    - unfold hit. cbn [Intervention.intervention_id i]. now rewrite Nat.eqb_refl. }
  assert (Hfilter2 : List.filter (StateManager.is_pending_for (Phase.run_id p) db2)
                       (manual_interventions db2) = old).
  { rewrite (filter_pending_phases _ db db2) by reflexivity.
    unfold db2. cbn [manual_interventions set_manual_interventions]. rewrite Hupd.
    rewrite filter_app_one.
    replace (StateManager.is_pending_for _ _ (Intervention.resolve _ _ _ _)) with false.
    2:{ unfold StateManager.is_pending_for. cbn. now rewrite andb_false_r. }
    now rewrite app_nil_r. }
  exists db2, (order_by key old).
  split; [|split; [|split; [|split; [|split]]]].
  - unfold StateManager.create_intervention, bind, uuid4, now. cbv beta iota zeta.
    cbn [next_uuid clock manual_interventions]. rewrite Hreason. cbn [negb].
    fold i. rewrite Hi. reflexivity.
  - unfold StateManager.get_pending_interventions. rewrite Hfilter1. fold key.
    replace (forallb _ _) with true; [reflexivity|].
    symmetry. apply List.forallb_forall. intros j Hj.
    apply order_by_In, in_app_iff in Hj as [Hj|[<-|[]]]; [|exact Hi].
    rewrite List.forallb_forall in Hold. apply Hold. now apply order_by_In.
  - intros j. rewrite !order_by_In, in_app_iff. cbn. intuition.
  - unfold StateManager.resolve_intervention, bind, now. cbv beta iota zeta.
    cbn [Intervention.intervention_id i]. rewrite Haction, andb_false_r.
    reflexivity.
  - unfold StateManager.get_pending_interventions. rewrite Hfilter2. fold key.
    now rewrite Hold.
  - reflexivity.
Qed.



Lemma total_phases_counter_is_kept_witness :
  totals_consistent
    (snd (StateManager.create_phase 1 2 3 "small" Example.db0)) = true.
Proof.
  apply (total_phases_counter_is_kept Example.db0 eq_refl).
Defined.

Lemma get_phases_for_run_sorted_witness :
  exists l,
    StateManager.get_phases_for_run 1 Example.db_two_in_progress
    = (Ok l, Example.db_two_in_progress)
    /\ (forall p, In p l <-> phase_of_run Example.db_two_in_progress 1 p)
    /\ StronglySorted (key_le Phase.phase_number) l
    /\ Permutation l
         (List.filter (fun p => Phase.run_id p =? 1)%nat
            (phases Example.db_two_in_progress)).
Proof.
  apply (get_phases_for_run_sorted Example.db_two_in_progress 1).
  intros p [[<-|[<-|[]]] _]; reflexivity.
Defined.

Lemma add_finding_round_trip_witness :
  exists f db' l',
    StateManager.add_finding 7 "major" "build" "Build Failed" "d" "e" None
      Example.db0 = (Ok f, db')
    /\ f = Finding.mk 100 7 "major" "build" "Build Failed" "d" "e" None false 1
    /\ StateManager.get_findings_for_execution 7 db' = (Ok l', db')
    /\ (forall g, In g l' <-> g = f \/ In g [])
    /\ length l' = 1%nat.
Proof.
  apply (add_finding_round_trip 7 "major" "build" "Build Failed" "d" "e" None
           Example.db0 []); reflexivity.
Defined.

Lemma resolved_finding_is_not_reported_witness :
  exists db' l',
    StateManager.mark_finding_resolved 5 Example.db0 = (Ok tt, db')
    /\ StateManager.get_unresolved_findings 7 ["major"] db' = (Ok l', db')
    /\ (forall g, In g l' <-> In g [] /\ Finding.finding_id g <> 5%nat).
Proof.
  apply (resolved_finding_is_not_reported 5 7 ["major"] Example.db0 []).
  reflexivity.
Defined.

Lemma intervention_round_trip_witness :
  exists i db1 l1 db2 l2,
    StateManager.create_intervention 10 "user_requested" Example.db0 = (Ok i, db1)
    /\ StateManager.get_pending_interventions 1 db1 = (Ok l1, db1)
    /\ (forall j, In j l1 <-> j = i \/ In j [])
    /\ StateManager.resolve_intervention (Intervention.intervention_id i) "skip"
         (Some "not needed") db1 = (Ok tt, db2)
    /\ StateManager.get_pending_interventions 1 db2 = (Ok l2, db2)
    /\ (forall j, In j l2 <-> In j []).
Proof.
  apply (intervention_round_trip 10 "user_requested" "skip" (Some "not needed")
           Example.db0 (Phase.mk 10 1 1 "medium" "pending" None None None 0 2) []);
    try reflexivity.
  intros i [].
Defined.

(** ** One verification pass *)

Lemma persist_finding_adds (execution_id : nat) (f : Found) (db : DB) :
  PhaseVerifier.persist_finding execution_id f db
  = (Ok tt,
     mkDB (runs db) (phases db) (executions db)
       (findings db ++ [finding_row execution_id f (next_uuid db) (clock db)])
       (artifacts db) (manual_interventions db) (S (next_uuid db)) (S (clock db))).
Proof.
  unfold PhaseVerifier.persist_finding, try_except, bind, call_add_finding.
  cbn [bind_keywords]. 
  destruct f as [sev cat t d e sf]. destruct sev, cat; reflexivity.
Qed.

Lemma persist_findings_adds (execution_id : nat) (fs : list Found) (db : DB) :
  PhaseVerifier.persist_findings execution_id fs db
  = (Ok tt,
     mkDB (runs db) (phases db) (executions db)
       (findings db ++ finding_rows execution_id fs (next_uuid db) (clock db))
       (artifacts db) (manual_interventions db)
       (length fs + next_uuid db)%nat (length fs + clock db)%nat).
Proof.
  revert db. induction fs as [|f fs IH]; intros db.
  - cbn. rewrite app_nil_r. now destruct db.
  - cbn [PhaseVerifier.persist_findings]. unfold bind.
    rewrite persist_finding_adds, IH. cbn. rewrite <- app_assoc.
    repeat f_equal; lia.
Qed.

Lemma finding_rows_length (e : nat) (fs : list Found) (id t : nat) :
  length (finding_rows e fs id t) = length fs.
Proof. revert id t. induction fs as [|f fs IH]; intros; cbn; [|rewrite IH]; auto. Qed.

Lemma finding_rows_columns (e : nat) (fs : list Found) (id t : nat) :
  map Finding.execution_id (finding_rows e fs id t) = map (fun _ => e) fs
  /\ map Finding.severity (finding_rows e fs id t)
     = map (fun f => severity_str (found_severity f)) fs
  /\ map Finding.category (finding_rows e fs id t)
     = map (fun f => category_str (found_category f)) fs
  /\ map Finding.title (finding_rows e fs id t) = map found_title fs
  /\ map Finding.resolved (finding_rows e fs id t) = map (fun _ => false) fs.
Proof.
  revert id t. induction fs as [|f fs IH]; intros id t; [cbn; auto 6|].
  destruct (IH (S id) (S t)) as (H1 & H2 & H3 & H4 & H5).
  cbn. rewrite H1, H2, H3, H4, H5. auto 6.
Qed.

Lemma count_severity_total (fs : list Found) :
  PhaseVerifier.count_severity "major" fs
  + PhaseVerifier.count_severity "medium" fs
  + PhaseVerifier.count_severity "minor" fs
  = Z.of_nat (length fs).
Proof.
  unfold PhaseVerifier.count_severity.
  induction fs as [|f fs IH]; [reflexivity|].
  cbn [List.filter length]. destruct (found_severity f); cbn [severity_str String.eqb];
    cbn; cbn in IH; lia.
Qed.

(** X9.  verify_phase_execution appends to the findings table one
    unresolved row per finding of the checks, in order, with the execution
    id, severity, category and title of the finding, and changes no
    earlier row. When it returns, the result lists the same findings and
    its summary holds the major, medium and minor counts, which add up to
    the number of findings. *)
Theorem verification_persists_every_finding (w : World)
    (execution_id phase_id : nat) (pass_number : Z) (db : DB) :
  let fs := all_findings (checks w phase_id pass_number) in
  let out := PhaseVerifier.verify_phase_execution w execution_id phase_id pass_number db in
  (exists rows,
      findings (snd out) = (findings db ++ rows)%list
      /\ map Finding.execution_id rows = map (fun _ => execution_id) fs
      /\ map Finding.severity rows = map (fun f => severity_str (found_severity f)) fs
      /\ map Finding.category rows = map (fun f => category_str (found_category f)) fs
      /\ map Finding.title rows = map found_title fs
      /\ map Finding.resolved rows = map (fun _ => false) fs)
  /\ (forall r, fst out = Ok r ->
      PhaseVerifier.findings r = fs
      /\ PhaseVerifier.findings_summary r
         = {[ "major" := PhaseVerifier.count_severity "major" fs;
              "medium" := PhaseVerifier.count_severity "medium" fs;
              "minor" := PhaseVerifier.count_severity "minor" fs ]}
      /\ PhaseVerifier.count_severity "major" fs
         + PhaseVerifier.count_severity "medium" fs
         + PhaseVerifier.count_severity "minor" fs = Z.of_nat (length fs)).
Proof.
  intros fs out. unfold out, PhaseVerifier.verify_phase_execution, bind.
  fold fs. rewrite persist_findings_adds.
  destruct (Verifier._check_findings_thresholds _ _) as [p|e]; cbn [fst snd ret raise findings].
  - split.
    + eexists. split; [reflexivity|]. apply finding_rows_columns.
    + intros r [= <-]. cbn. split; [reflexivity|]. split; [reflexivity|].
      apply count_severity_total.
  - split; [|discriminate].
    eexists. split; [reflexivity|]. apply finding_rows_columns.
Qed.

Lemma findings_summary_lookup (execution_id : nat) (db : DB) (severity : string) :
  fst (StateManager.get_findings_summary execution_id db)
  = Ok (group_count
          (map Finding.severity
             (List.filter (fun f => Finding.execution_id f =? execution_id)%nat
                (findings db))))
  /\ default 0
       (group_count
          (map Finding.severity
             (List.filter (fun f => Finding.execution_id f =? execution_id)%nat
                (findings db))) !! severity)
     = count_findings execution_id severity db.
Proof.
  split; [reflexivity|].
  rewrite group_count_lookup. cbv zeta. unfold count_findings.
  rewrite filter_map_filter_length.
  destruct (Z.eqb_spec (Z.of_nat (length (List.filter
              (fun a => (Finding.execution_id a =? execution_id)%nat
                        && String.eqb (Finding.severity a) severity)
              (findings db)))) 0) as [->|]; reflexivity.
Qed.

Lemma count_finding_rows (e : nat) (s : string) (fs : list Found) (id t : nat) :
  Z.of_nat
    (length
       (List.filter
          (fun f => (Finding.execution_id f =? e)%nat
                    && String.eqb (Finding.severity f) s)
          (finding_rows e fs id t)))
  = PhaseVerifier.count_severity s fs.
Proof.
  unfold PhaseVerifier.count_severity. revert id t.
  induction fs as [|f fs IH]; intros id t; [reflexivity|].
  cbn [finding_rows List.filter finding_row Finding.execution_id Finding.severity].
  rewrite Nat.eqb_refl. cbn [andb].
  destruct (String.eqb (severity_str (found_severity f)) s); cbn [length];
    rewrite ?Nat2Z.inj_succ, IH; reflexivity.
Qed.

(** X10.  After verify_phase_execution returns, get_findings_summary of
    the execution gives, for each of major, medium and minor, the number
    stored before the call plus the number in the returned result's
    findings_summary. *)
Theorem stored_summary_agrees_with_reported (w : World)
    (execution_id phase_id : nat) (pass_number : Z) (db db' : DB)
    (r : PhaseVerifier.VerificationResult) :
  PhaseVerifier.verify_phase_execution w execution_id phase_id pass_number db
  = (Ok r, db') ->
  exists summary,
    StateManager.get_findings_summary execution_id db' = (Ok summary, db')
    /\ forall severity,
         In severity ["major"; "medium"; "minor"] ->
         default 0 (summary !! severity)
         = count_findings execution_id severity db
           + default 0 (PhaseVerifier.findings_summary r !! severity).
Proof.
  unfold PhaseVerifier.verify_phase_execution, bind.
  rewrite persist_findings_adds.
  destruct (Verifier._check_findings_thresholds _ _) as [p|e]; [|discriminate].
  intros [= <- <-]. eexists. split; [reflexivity|]. intros severity Hs.
  rewrite (proj2 (findings_summary_lookup _ _ _)).
  unfold count_findings. cbn [findings]. rewrite List.filter_app, length_app, Nat2Z.inj_add.
  rewrite count_finding_rows. f_equal.
  cbn [PhaseVerifier.findings_summary]. unfold PhaseVerifier.summarize.
  destruct Hs as [<-|[<-|[<-|[]]]]; reflexivity.
Qed.

(** ** The threshold gate with fewer findings or missing keys *)

(** X11.  With thresholds and summaries that hold all three severities, a
    summary that passes _check_findings_thresholds still passes when any
    of its counts is lowered. *)
Theorem threshold_gate_is_monotone (t s s' : gmap string Z)
    (tmajor tmedium tminor major medium minor major' medium' minor' : Z) :
  t !! "major" = Some tmajor -> t !! "medium" = Some tmedium ->
  t !! "minor" = Some tminor ->
  s !! "major" = Some major -> s !! "medium" = Some medium ->
  s !! "minor" = Some minor ->
  s' !! "major" = Some major' -> s' !! "medium" = Some medium' ->
  s' !! "minor" = Some minor' ->
  major' <= major -> medium' <= medium -> minor' <= minor ->
  Verifier._check_findings_thresholds (Verifier.mkVerificationConfig t) s = Ok true ->
  Verifier._check_findings_thresholds (Verifier.mkVerificationConfig t) s' = Ok true.
Proof.
  intros T1 T2 T3 S1 S2 S3 S1' S2' S3' L1 L2 L3.
  rewrite (check_with_triple t s _ _ _ _ _ _ S1 S2 S3 T1 T2 T3).
  rewrite (check_with_triple t s' _ _ _ _ _ _ S1' S2' S3' T1 T2 T3).
  intros [= H]. f_equal.
  apply andb_true_iff in H as [H H3]. apply andb_true_iff in H as [H1 H2].
  apply Z.leb_le in H1, H2, H3.
  repeat (apply andb_true_iff; split); apply Z.leb_le; lia.
Qed.

Lemma threshold_gate_failure_keys (t s : gmap string Z) :
  Verifier._check_findings_thresholds (Verifier.mkVerificationConfig t) s = Ok false ->
  exists k tk sk,
    In k ["major"; "medium"; "minor"]
    /\ t !! k = Some tk /\ s !! k = Some sk /\ tk < sk.
Proof.
  unfold Verifier._check_findings_thresholds, Verifier.exceeded,
    Verifier.log_exceeded, Verifier.dict_item, Verifier.dict_get.
  cbn [Verifier.findings_thresholds].
  intros H.
  destruct (Z.ltb_spec (default 0 (t !! "major")) (default 0 (s !! "major")))
    as [H1|_].
  { destruct (s !! "major") as [sk|] eqn:Hs; [|discriminate].
    destruct (t !! "major") as [tk|] eqn:Ht; [|discriminate].
    exists "major", tk, sk. cbn in H1. cbn. auto 6. }
  destruct (Z.ltb_spec (default 3 (t !! "medium")) (default 0 (s !! "medium")))
    as [H2|_].
  { destruct (s !! "medium") as [sk|] eqn:Hs; [|discriminate].
    destruct (t !! "medium") as [tk|] eqn:Ht; [|discriminate].
    exists "medium", tk, sk. cbn in H2. cbn. auto 6. }
  destruct (Z.ltb_spec (default 10 (t !! "minor")) (default 0 (s !! "minor")))
    as [H3|_]; [|discriminate].
  destruct (s !! "minor") as [sk|] eqn:Hs; [|discriminate].
  destruct (t !! "minor") as [tk|] eqn:Ht; [|discriminate].
  exists "minor", tk, sk. cbn in H3. cbn. auto 6.
Qed.

(** X12.  _check_findings_thresholds returns False only when some severity
    that is present in both the summary and the thresholds has more
    findings than its threshold. When the thresholds lack the medium key,
    a summary with more than 3 medium findings (the default) that passes
    the major check makes it raise KeyError instead of returning False. *)
Theorem threshold_gate_with_missing_key (t s : gmap string Z) :
  (Verifier._check_findings_thresholds (Verifier.mkVerificationConfig t) s
   = Ok false ->
   exists k tk sk,
     In k ["major"; "medium"; "minor"]
     /\ t !! k = Some tk /\ s !! k = Some sk /\ tk < sk)
  /\ (forall medium,
      default 0 (s !! "major") <= default 0 (t !! "major") ->
      t !! "medium" = None ->
      s !! "medium" = Some medium ->
      3 < medium ->
      Verifier._check_findings_thresholds (Verifier.mkVerificationConfig t) s
      = Raise (KeyError "medium")).
Proof.
  split; [apply threshold_gate_failure_keys|].
  intros medium Hmajor Ht Hs Hm.
  unfold Verifier._check_findings_thresholds, Verifier.exceeded,
    Verifier.log_exceeded, Verifier.dict_item, Verifier.dict_get.
  cbn [Verifier.findings_thresholds].
  destruct (Z.ltb_spec (default 0 (t !! "major")) (default 0 (s !! "major")));
    [lia|].
  rewrite Ht, Hs. cbn [default id].
  destruct (Z.ltb_spec 3 medium); [reflexivity|lia].
Qed.

(** ** The Copilot interface *)

Lemma result_of_json_shape (dir : string) (members : list (string * json)) :
  let r := Copilot.result_of_json dir members in
  if Copilot.success r
  then Copilot.patches r <> []
       /\ Copilot.output_path r = Some (dir +:+ "/copilot_output.json")
       /\ Copilot.error_message r = None /\ Copilot.error_type r = None
       /\ Copilot.as_patches (json_get "patches" members) = Some (Copilot.patches r)
  else Copilot.patches r = [] /\ Copilot.output_path r = None
       /\ Copilot.error_message r <> None
       /\ Copilot.error_type r = Some EXECUTION_ERROR.
Proof.
  unfold Copilot.result_of_json.
  destruct (Copilot.as_optional_str (json_get "changes_summary" members));
    [|cbn; auto].
  destruct (Copilot.as_list_str (json_get "files_modified" members)); [|cbn; auto].
  destruct (Copilot.as_list_str (json_get "files_created" members)); [|cbn; auto].
  destruct (Copilot.as_list_str (json_get "tests_added" members)); [|cbn; auto].
  destruct (Copilot.as_list_str (json_get "potential_issues" members)); [|cbn; auto].
  destruct (Copilot.as_optional_str (json_get "completion_status" members));
    [|cbn; auto].
  destruct (Copilot.as_patches (json_get "patches" members)) as [[|p ps]|];
    cbn; repeat split; congruence.
Qed.

(** X13.  Every result of execute_spec is of one of two shapes: a success
    carries a non-empty patch list taken from a response that exited with
    code 0, the output path of the pass directory and no error; a failure
    carries no patches, no output path, an error message and an error
    type. *)
Theorem execute_spec_result_shape (timeout : Z) (dir : string)
    (o : Copilot.cli_outcome) :
  let r := Copilot.execute_spec timeout dir o in
  if Copilot.success r
  then Copilot.patches r <> []
       /\ Copilot.output_path r = Some (dir +:+ "/copilot_output.json")
       /\ Copilot.error_message r = None /\ Copilot.error_type r = None
       /\ exists not_found auth members,
            o = Copilot.CliExit 0 not_found auth (JObj members)
            /\ Copilot.as_patches (json_get "patches" members)
               = Some (Copilot.patches r)
  else Copilot.patches r = [] /\ Copilot.output_path r = None
       /\ Copilot.error_message r <> None /\ Copilot.error_type r <> None.
Proof.
  destruct o as [|rc nf au j| |]; cbn; try (repeat split; congruence).
  destruct (Z.eqb_spec rc 0) as [->|Hrc]; cbn; [|repeat split; congruence].
  destruct (json_truthy j) eqn:Hj; [|cbn; repeat split; congruence].
  destruct j as [|b|n|s|items|members]; try (cbn; repeat split; congruence).
  pose proof (result_of_json_shape dir members) as H. cbv zeta in H.
  destruct (Copilot.success (Copilot.result_of_json dir members)).
  - destruct H as (H1 & H2 & H3 & H4 & H5). repeat split; auto.
    exists nf, au, members. auto.
  - destruct H as (H1 & H2 & H3 & H4). repeat split; auto; congruence.
Qed.

Lemma substring_prefix_idem (n : nat) (s : string) :
  substring 0 n (substring 0 n s) = substring 0 n s.
Proof.
  revert s. induction n as [|n IH]; intros [|c s]; cbn; try reflexivity.
  now rewrite IH.
Qed.

Lemma substring_of_prefix (k n : nat) (s : string) :
  substring k n (substring 0 (k + n) s) = substring k n s.
Proof.
  revert s. induction k as [|k IH]; intros s.
  - apply substring_prefix_idem.
  - destruct s as [|c s]; [reflexivity|]. cbn. apply IH.
Qed.

Lemma substring_shift (m k n : nat) (s : string) :
  substring (m + k) n s = substring k n (substring m (k + n) s).
Proof.
  revert s. induction m as [|m IH]; intros s.
  - cbn [Nat.add]. now rewrite substring_of_prefix.
  - destruct s as [|c s]; cbn.
    + destruct k, n; reflexivity.
    + apply IH.
Qed.

(** An output that names the extension in full names it in short. *)
Lemma contains_copilot (out : string) :
  Copilot.contains "github/gh-copilot" out = true ->
  Copilot.contains "copilot" out = true.
Proof.
  unfold Copilot.contains.
  destruct (index 0 "github/gh-copilot" out) as [m|] eqn:Hm; [|discriminate].
  intros _. apply index_correct1 in Hm.
  destruct (index 0 "copilot" out) eqn:Hc; [reflexivity|].
  exfalso. apply (index_correct3 0 (m + 10) _ _ Hc); [discriminate|lia|].
  change (String.length "copilot") with 7%nat.
  rewrite substring_shift. change (10 + 7)%nat with (String.length "github/gh-copilot").
  now rewrite Hm.
Qed.

(** X14.  When validate_environment returns, the result is valid exactly
    when it lists no error message, and exactly when the three commands
    ran, gh exited with 0, the extension list mentions copilot and the
    auth status says Logged in to github.com; copilot_access is extension
    installed and authenticated. *)
Theorem validation_valid_iff_no_error (version_of : string -> option string)
    (version extension auth : Copilot.proc_outcome)
    (r : Copilot.CopilotValidationResult) :
  Copilot.validate_environment version_of version extension auth = Ok r ->
  (Copilot.valid r = true <-> Copilot.error_messages r = [])
  /\ Copilot.valid r
     = match version, extension, auth with
       | Copilot.ProcExit rc _ _, Copilot.ProcExit _ out2 _,
         Copilot.ProcExit _ out3 err3 =>
           (rc =? 0) && Copilot.contains "copilot" out2
           && Copilot.contains "Logged in to github.com" (out3 +:+ err3)
       | _, _, _ => false
       end
  /\ Copilot.copilot_access r
     = Copilot.copilot_extension_installed r && Copilot.authenticated r.
Proof.
  unfold Copilot.validate_environment.
  destruct version as [rc1 out1 err1|m1|];
    [|intros [= <-]; cbn; repeat split; discriminate..].
  destruct extension as [rc2 out2 err2|m2|]; [|discriminate|];
    (destruct auth as [rc3 out3 err3|m3|]; [|discriminate|]);
    cbv zeta; intros [= <-]; cbn [Copilot.valid Copilot.error_messages
      Copilot.copilot_access Copilot.copilot_extension_installed
      Copilot.authenticated].
  - assert (He : Copilot.contains "github/gh-copilot" out2
                 || Copilot.contains "copilot" out2
                 = Copilot.contains "copilot" out2).
    { destruct (Copilot.contains "github/gh-copilot" out2) eqn:H; [|reflexivity].
      now rewrite (contains_copilot _ H). }
    rewrite He.
    destruct (rc1 =? 0), (Copilot.contains "copilot" out2),
      (Copilot.contains "Logged in to github.com" (out3 +:+ err3));
      cbn; repeat split; try discriminate; reflexivity.
  - rewrite !andb_false_r.
    destruct (rc1 =? 0), (_ || _); cbn; repeat split; discriminate.
  - destruct (rc1 =? 0), (Copilot.contains _ _); cbn; repeat split; discriminate.
  - destruct (rc1 =? 0); cbn; repeat split; discriminate.
Qed.

Lemma verification_persists_every_finding_witness :
  let out :=
    PhaseVerifier.verify_phase_execution Example.copilot_answers 20 10 1
      Example.db_with_finding in
  map Finding.title (findings (snd out))
  = ["Test Failures Detected"; "Build Failed"; "Linting Issues Found"]
  /\ exists r, fst out = Ok r /\ length (PhaseVerifier.findings r) = 2%nat.
Proof.
  destruct (verification_persists_every_finding Example.copilot_answers 20 10 1
              Example.db_with_finding) as [(rows & Hrows & _ & _ & _ & Ht & _) Hr].
  cbv zeta. rewrite Hrows, map_app, Ht. split; [reflexivity|].
  eexists. split; [reflexivity|].
  now rewrite (proj1 (Hr _ eq_refl)).
Defined.

Lemma stored_summary_agrees_with_reported_witness :
  exists summary,
    StateManager.get_findings_summary 20
      (snd (PhaseVerifier.verify_phase_execution Example.copilot_answers 20 10 1
              Example.db_with_finding))
    = (Ok summary,
       snd (PhaseVerifier.verify_phase_execution Example.copilot_answers 20 10 1
              Example.db_with_finding))
    /\ default 0 (summary !! "major") = 1
    /\ default 0 (summary !! "medium") = 1
    /\ default 0 (summary !! "minor") = 1.
Proof.
  destruct (stored_summary_agrees_with_reported Example.copilot_answers 20 10 1
              Example.db_with_finding _ _ eq_refl) as (summary & Hs & Hc).
  exists summary. split; [exact Hs|].
  rewrite (Hc "major"), (Hc "medium"), (Hc "minor") by (cbn; auto).
  repeat split; reflexivity.
Defined.

Lemma threshold_gate_is_monotone_witness :
  Verifier._check_findings_thresholds
    (Verifier.mkVerificationConfig Verifier.default_findings_thresholds)
    {[ "major" := 0; "medium" := 1; "minor" := 4 ]} = Ok true.
Proof.
  apply (threshold_gate_is_monotone Verifier.default_findings_thresholds
           {[ "major" := 0; "medium" := 3; "minor" := 10 ]}
           {[ "major" := 0; "medium" := 1; "minor" := 4 ]}
           0 3 10 0 3 10 0 1 4); try reflexivity; lia.
Defined.

Lemma threshold_gate_with_missing_key_witness :
  Verifier._check_findings_thresholds
    (Verifier.mkVerificationConfig {[ "major" := 1 ]})
    {[ "major" := 0; "medium" := 4; "minor" := 0 ]}
  = Raise (KeyError "medium")
  /\ exists k tk sk,
       In k ["major"; "medium"; "minor"]
       /\ ({[ "major" := 0; "medium" := 3; "minor" := 10 ]} : gmap string Z) !! k
          = Some tk
       /\ ({[ "major" := 0; "medium" := 4; "minor" := 0 ]} : gmap string Z) !! k
          = Some sk
       /\ tk < sk.
Proof.
  split.
  - apply (proj2 (threshold_gate_with_missing_key {[ "major" := 1 ]}
                    {[ "major" := 0; "medium" := 4; "minor" := 0 ]}) 4);
      try reflexivity; vm_compute; discriminate.
  - apply (proj1 (threshold_gate_with_missing_key
                    {[ "major" := 0; "medium" := 3; "minor" := 10 ]}
                    {[ "major" := 0; "medium" := 4; "minor" := 0 ]})).
    reflexivity.
Defined.

Lemma validation_valid_iff_no_error_witness :
  exists r,
    Copilot.validate_environment (fun _ => Some "2.40.1")
      (Copilot.ProcExit 0 "gh version 2.40.1 (2023-12-13)" "")
      (Copilot.ProcExit 0 "gh copilot  github/gh-copilot  v1.0.5" "")
      (Copilot.ProcExit 0 "" "Logged in to github.com account dev")
    = Ok r
    /\ Copilot.valid r = true /\ Copilot.error_messages r = [].
Proof.
  eexists. split; [reflexivity|].
  match goal with
  | |- Copilot.valid ?r = true /\ _ =>
      destruct (validation_valid_iff_no_error (fun _ => Some "2.40.1")
                  (Copilot.ProcExit 0 "gh version 2.40.1 (2023-12-13)" "")
                  (Copilot.ProcExit 0 "gh copilot  github/gh-copilot  v1.0.5" "")
                  (Copilot.ProcExit 0 "" "Logged in to github.com account dev")
                  r eq_refl) as (Hiff & Hv & _)
  end.
  split; [rewrite Hv; reflexivity|]. apply Hiff. rewrite Hv. reflexivity.
Defined.

(** ** What a computation keeps *)

Section Preserved.
Variable R : DB -> DB -> Prop.
Hypothesis R_refl : forall db, R db db.
Hypothesis R_trans : forall a b c, R a b -> R b c -> R a c.

Lemma preserved_ro {A} (m : M A) :
  (forall db, snd (m db) = db) -> preserved R m.
Proof. intros H db. rewrite H. apply R_refl. Qed.

Lemma preserved_ret {A} (a : A) : preserved R (ret a).
Proof. intros db. apply R_refl. Qed.

Lemma preserved_raise {A} (e : exn) : preserved R (@raise A e).
Proof. intros db. apply R_refl. Qed.

Lemma preserved_lift {A} (r : res A) : preserved R (lift r).
Proof. intros db. apply R_refl. Qed.

Lemma preserved_bind {A B} (m : M A) (k : A -> M B) :
  preserved R m -> (forall a, preserved R (k a)) -> preserved R (bind m k).
Proof.
  intros Hm Hk db. unfold bind. specialize (Hm db).
  destruct (m db) as [[a|e] db1]; cbn in *; [|exact Hm].
  eapply R_trans; [exact Hm|apply Hk].
Qed.

Lemma preserved_try {A} (m : M A) (h : exn -> M A) :
  preserved R m -> (forall e, preserved R (h e)) -> preserved R (try_except m h).
Proof.
  intros Hm Hh db. unfold try_except. specialize (Hm db).
  destruct (m db) as [[a|e] db1]; cbn in *; [exact Hm|].
  eapply R_trans; [exact Hm|apply Hh].
Qed.
End Preserved.

Lemma frame_kept_refl (pid : nat) (db : DB) : frame_kept pid db db.
Proof. unfold frame_kept. repeat split; reflexivity. Qed.

Lemma frame_kept_trans (pid : nat) (a b c : DB) :
  frame_kept pid a b -> frame_kept pid b c -> frame_kept pid a c.
Proof.
  intros (A1 & A2 & A3 & A4 & A5 & A6) (B1 & B2 & B3 & B4 & B5 & B6).
  unfold frame_kept. repeat split; try congruence; etransitivity; eassumption.
Qed.

Lemma frame_kept_tables (pid : nat) (db db' : DB) :
  runs db' = runs db -> phases db' = phases db ->
  executions db' = executions db -> findings db' = findings db ->
  artifacts db' = artifacts db ->
  manual_interventions db' = manual_interventions db ->
  frame_kept pid db db'.
Proof.
  intros H1 H2 H3 H4 H5 H6. unfold frame_kept.
  rewrite H1, H2, H3, H4, H5, H6. repeat split; reflexivity.
Qed.

(** The steps of a frame proof. *)
Ltac frame_step pid :=
  lazymatch goal with
  | |- preserved _ (bind _ _) =>
      apply (preserved_bind _ (frame_kept_trans pid)); [|intros ?]
  | |- preserved _ (try_except _ _) =>
      apply (preserved_try _ (frame_kept_trans pid)); [|intros ?]
  | |- preserved _ (ret _) => apply (preserved_ret _ (frame_kept_refl pid))
  | |- preserved _ (raise _) => apply (preserved_raise _ (frame_kept_refl pid))
  | |- preserved _ (lift _) => apply (preserved_lift _ (frame_kept_refl pid))
  | |- preserved _ (if ?b then _ else _) => destruct b
  | |- preserved _ (match ?x with _ => _ end) => destruct x
  end.

Create HintDb frame.

Ltac frame pid := repeat first [frame_step pid | solve [auto with frame]].

Section Frame.
Variable pid : nat.

Lemma kept_ro {A} (m : M A) : (forall db, snd (m db) = db) -> preserved (frame_kept pid) m.
Proof. apply preserved_ro, frame_kept_refl. Qed.

Lemma kept_get_phase (id : nat) : preserved (frame_kept pid) (StateManager.get_phase id).
Proof.
  apply kept_ro. intros db. unfold StateManager.get_phase.
  destruct (find _ _) as [p|]; [|reflexivity].
  destruct (Models.PhaseState_valid p); reflexivity.
Qed.

Lemma kept_get_run (id : nat) : preserved (frame_kept pid) (StateManager.get_run id).
Proof. apply kept_ro, get_run_ro. Qed.

Lemma kept_get_executions (id : nat) : preserved (frame_kept pid) (StateManager.get_executions_for_phase id).
Proof. apply kept_ro, get_executions_for_phase_ro. Qed.

Lemma kept_get_findings (id : nat) : preserved (frame_kept pid) (StateManager.get_findings_for_phase id).
Proof. apply kept_ro, get_findings_for_phase_ro. Qed.

Lemma kept_now : preserved (frame_kept pid) now.
Proof. intros db. apply frame_kept_tables; reflexivity. Qed.

Lemma kept_uuid4 : preserved (frame_kept pid) uuid4.
Proof. intros db. apply frame_kept_tables; reflexivity. Qed.

Lemma map_update_where {A B} (hit : A -> bool) (f : A -> A) (g : A -> B)
    (l : list A) :
  (forall a, hit a = true -> g (f a) = g a) ->
  map g (update_where hit f l) = map g l.
Proof.
  intros H. unfold update_where. rewrite map_map. apply map_ext_in.
  intros a _. destruct (hit a) eqn:Ha; [now apply H|reflexivity].
Qed.

Lemma phase_frame_update (f : Phase.t -> Phase.t) (l : list Phase.t) :
  (forall p, Phase.phase_id (f p) = Phase.phase_id p
             /\ Phase.run_id (f p) = Phase.run_id p
             /\ Phase.phase_number (f p) = Phase.phase_number p
             /\ Phase.size (f p) = Phase.size p
             /\ Phase.max_retries (f p) = Phase.max_retries p) ->
  map (phase_frame pid)
    (update_where (fun p => Phase.phase_id p =? pid)%nat f l)
  = map (phase_frame pid) l.
Proof.
  intros Hf. apply map_update_where. intros p Hp.
  destruct (Hf p) as (H1 & H2 & H3 & H4 & H5).
  unfold phase_frame. rewrite H1, Hp, H2, H3, H4, H5. reflexivity.
Qed.

Lemma kept_update_phase_status (status : string) (a b : option nat) :
  preserved (frame_kept pid) (StateManager.update_phase_status pid status a b).
Proof.
  intros db. unfold StateManager.update_phase_status. cbv zeta.
  destruct (_ && _); [apply frame_kept_tables; reflexivity|]. cbn [snd].
  assert (Hp : map (phase_frame pid)
                 (update_where (fun p => Phase.phase_id p =? pid)%nat
                    (Phase.set_status status a b) (phases db))
               = map (phase_frame pid) (phases db))
    by (apply phase_frame_update; intros p; cbn; auto 6).
  destruct (String.eqb status "in_progress");
    [|destruct (String.eqb status "completed")];
    unfold frame_kept; cbn [runs phases executions findings artifacts
      manual_interventions set_runs set_phases];
    repeat split; try reflexivity; try exact Hp;
    apply map_update_where; reflexivity.
Qed.

Lemma kept_increment_phase_retry : preserved (frame_kept pid) (StateManager.increment_phase_retry pid).
Proof.
  intros db. unfold StateManager.increment_phase_retry. cbv zeta.
  match goal with |- frame_kept _ _ (snd (match ?x with _ => _ end)) => destruct x end;
    unfold frame_kept; cbn [snd runs phases executions findings artifacts
      manual_interventions set_phases];
    repeat split; try reflexivity;
    apply phase_frame_update; intros p; cbn; auto 6.
Qed.

Lemma kept_create_execution (id : nat) (k : Z) (path mode : string) :
  preserved (frame_kept pid) (StateManager.create_execution id k path mode).
Proof.
  intros db. unfold StateManager.create_execution, bind, uuid4, now.
  cbv beta iota zeta. destruct (negb _); [apply frame_kept_tables; reflexivity|].
  match goal with |- frame_kept _ _ (snd (if ?b then _ else _)) => destruct b end;
    unfold frame_kept; cbn [snd runs phases executions findings artifacts
      manual_interventions set_executions];
    repeat split; try reflexivity; rewrite map_app; apply prefix_app_r; reflexivity.
Qed.

Lemma kept_complete_execution (id : nat) (out summary : string) :
  preserved (frame_kept pid) (StateManager.complete_execution id out summary).
Proof.
  intros db. unfold StateManager.complete_execution, bind, now. cbv beta iota.
  unfold frame_kept; cbn [snd runs phases executions findings artifacts
      manual_interventions set_executions].
  repeat split; try reflexivity. rewrite map_update_where; reflexivity.
Qed.

Lemma kept_fail_execution (id : nat) (err : string) :
  preserved (frame_kept pid) (StateManager.fail_execution id err).
Proof.
  intros db. unfold StateManager.fail_execution, bind, now. cbv beta iota.
  unfold frame_kept; cbn [snd runs phases executions findings artifacts
      manual_interventions set_executions].
  repeat split; try reflexivity. rewrite map_update_where; reflexivity.
Qed.

Lemma kept_add_finding (e : nat) (s c t d ev : string) (sf : option string) :
  preserved (frame_kept pid) (StateManager.add_finding e s c t d ev sf).
Proof.
  intros db. unfold StateManager.add_finding, bind, uuid4, now.
  cbv beta iota zeta. destruct (_ && _); [|apply frame_kept_tables; reflexivity].
  unfold frame_kept; cbn [snd runs phases executions findings artifacts
      manual_interventions set_findings].
  repeat split; try reflexivity. apply prefix_app_r. reflexivity.
Qed.

Lemma kept_register_artifact (r : nat) (ty path : string) (p e : option nat) :
  preserved (frame_kept pid) (StateManager.register_artifact r ty path p e).
Proof.
  intros db. unfold StateManager.register_artifact, bind, uuid4, now.
  cbv beta iota zeta. destruct (str_in _ _); [|apply frame_kept_tables; reflexivity].
  unfold frame_kept; cbn [snd runs phases executions findings artifacts
      manual_interventions set_artifacts].
  repeat split; try reflexivity. apply prefix_app_r. reflexivity.
Qed.

Lemma kept_create_intervention (id : nat) (reason : string) :
  preserved (frame_kept pid) (StateManager.create_intervention id reason).
Proof.
  intros db. unfold StateManager.create_intervention, bind, uuid4, now.
  cbv beta iota zeta. destruct (negb _); [apply frame_kept_tables; reflexivity|].
  match goal with |- frame_kept _ _ (snd (if ?b then _ else _)) => destruct b end;
    unfold frame_kept; cbn [snd runs phases executions findings artifacts
      manual_interventions set_manual_interventions];
    repeat split; try reflexivity; apply prefix_app_r; reflexivity.
Qed.

End Frame.

#[local] Hint Resolve kept_get_phase kept_get_run kept_get_executions
  kept_get_findings kept_now kept_uuid4 kept_update_phase_status
  kept_increment_phase_retry kept_create_execution
  kept_complete_execution kept_fail_execution kept_add_finding
  kept_register_artifact kept_create_intervention : frame.

Section ExecutorFrame.
Variable w : World.
Variable pid : nat.
Hypothesis faithful : ids_faithful w.

Lemma kept_report : preserved (frame_kept pid) (PhaseExecutor.report_phase_progress pid).
Proof. unfold PhaseExecutor.report_phase_progress. frame pid. Qed.

Lemma kept_generate_phase_spec (k : Z) :
  preserved (frame_kept pid) (PhaseExecutor.generate_phase_spec w pid k).
Proof.
  unfold PhaseExecutor.generate_phase_spec, PhaseExecutor.phase_not_found.
  frame pid.
Qed.

Lemma kept_render_prompt (k : Z) :
  preserved (frame_kept pid) (PhaseExecutor._render_copilot_prompt w pid k).
Proof.
  unfold PhaseExecutor._render_copilot_prompt, PhaseExecutor.phase_not_found.
  frame pid.
Qed.

Lemma kept_apply_patches (phase : Phase.t) (r : Copilot.CopilotExecutionResult)
    (k : Z) :
  preserved (frame_kept pid) (PhaseExecutor._apply_copilot_patches w phase r k).
Proof.
  apply preserved_ro; [apply frame_kept_refl|].
  apply apply_copilot_patches_records_nothing.
Qed.

#[local] Hint Resolve kept_report kept_generate_phase_spec kept_render_prompt
  kept_apply_patches : frame.

Lemma kept_record_copilot_result (phase : Phase.t) (e : nat) (k : Z)
    (r : Copilot.CopilotExecutionResult) :
  preserved (frame_kept pid) (PhaseExecutor.record_copilot_result w phase e k r).
Proof. unfold PhaseExecutor.record_copilot_result. cbv zeta. frame pid. Qed.

#[local] Hint Resolve kept_record_copilot_result : frame.

Lemma kept_execute_with_copilot (path : string) (k : Z) :
  preserved (frame_kept pid) (PhaseExecutor.execute_with_copilot w pid path k).
Proof.
  unfold PhaseExecutor.execute_with_copilot, PhaseExecutor.phase_not_found.
  cbv zeta. frame pid.
Qed.

Lemma kept_call_add_finding (kw : kwargs) :
  preserved (frame_kept pid) (call_add_finding kw).
Proof. unfold call_add_finding. frame pid. Qed.

#[local] Hint Resolve kept_execute_with_copilot kept_call_add_finding : frame.

Lemma kept_persist_findings (e : nat) (fs : list Found) :
  preserved (frame_kept pid) (PhaseVerifier.persist_findings e fs).
Proof.
  induction fs as [|f fs IH]; cbn [PhaseVerifier.persist_findings];
    unfold PhaseVerifier.persist_finding; frame pid.
Qed.

#[local] Hint Resolve kept_persist_findings : frame.

Lemma kept_verify (e id : nat) (k : Z) :
  preserved (frame_kept pid) (PhaseVerifier.verify_phase_execution w e id k).
Proof. unfold PhaseVerifier.verify_phase_execution. cbv zeta. frame pid. Qed.

#[local] Hint Resolve kept_verify : frame.

Lemma kept_run_verification (phase : Phase.t) (k : Z) :
  preserved (frame_kept pid) (PhaseExecutor._run_verification w phase k).
Proof. unfold PhaseExecutor._run_verification. cbv zeta. frame pid. Qed.

Lemma kept_handle_verification_failure (phase : Phase.t) (k : Z) :
  preserved (frame_kept pid) (PhaseExecutor._handle_verification_failure w phase k).
Proof. unfold PhaseExecutor._handle_verification_failure. cbv zeta. frame pid. Qed.

Lemma kept_create_phase_branch (phase : Phase.t) :
  Phase.phase_id phase = pid ->
  preserved (frame_kept pid) (PhaseExecutor.create_phase_branch w phase).
Proof.
  intros Hid. unfold PhaseExecutor.create_phase_branch.
  destruct (negb _); [frame pid|]. destruct (negb _); [frame pid|].
  destruct (phase_branch w _) as [name|]; [|frame pid].
  destruct (phase_id_attr w phase) as [id|e] eqn:Hattr; [|frame pid].
  apply faithful in Hattr. subst id. rewrite Hid. intros db.
  unfold frame_kept. cbn [snd runs phases executions findings artifacts
    manual_interventions set_phases].
  repeat split; try reflexivity.
  apply phase_frame_update. intros p. cbn. auto 6.
Qed.

Lemma kept_handle_execution_error (e : exn) :
  preserved (frame_kept pid) (PhaseExecutor.handle_execution_error pid e).
Proof. unfold PhaseExecutor.handle_execution_error. frame pid. Qed.

Lemma get_phase_same (id : nat) (db db' : DB) (r : res (option Phase.t)) :
  StateManager.get_phase id db = (r, db') -> db' = db.
Proof.
  unfold StateManager.get_phase.
  destruct (find _ _) as [p|]; [destruct (Models.PhaseState_valid p)|];
    congruence.
Qed.

(** Escalation stops at the phase status it writes, before the run is
    touched. *)
Lemma kept_handle_manual_intervention :
  preserved (frame_kept pid) (PhaseExecutor.handle_manual_intervention pid).
Proof.
  intros db. unfold PhaseExecutor.handle_manual_intervention, bind at 1.
  destruct (StateManager.get_phase pid db) as [[[phase|]|e] db1] eqn:Hg;
    pose proof (get_phase_same _ _ _ _ Hg) as ->;
    [|apply frame_kept_refl..].
  destruct (get_phase_found _ _ _ _ Hg) as (_ & Hf & _).
  unfold find_phase in Hf. apply find_existsb in Hf.
  unfold bind at 1.
  pose proof (kept_create_intervention pid pid "max_retries_exceeded" db) as Hc.
  assert (Hph : phases (snd (StateManager.create_intervention pid
                               "max_retries_exceeded" db)) = phases db).
  { unfold StateManager.create_intervention, bind, uuid4, now.
    cbv beta iota zeta.
    destruct (negb _); [reflexivity|].
    match goal with |- phases (snd (if ?b then _ else _)) = _ => destruct b end;
      reflexivity. }
  destruct (StateManager.create_intervention pid "max_retries_exceeded" db)
    as [[i|e] db2]; cbn [snd] in *; [|exact Hc].
  unfold bind at 1, StateManager.update_phase_status.
  rewrite Hph, Hf. exact Hc.
Qed.

#[local] Hint Resolve kept_run_verification kept_handle_verification_failure
  kept_handle_execution_error kept_handle_manual_intervention : frame.

Lemma kept_one_pass (phase : Phase.t) (branch_name : string) (k : Z) :
  preserved (frame_kept pid) (PhaseExecutor.one_pass w pid phase branch_name k).
Proof.
  unfold PhaseExecutor.one_pass, PhaseExecutor.merge_phase_branch. frame pid.
Qed.

Lemma kept_pass_loop (phase : Phase.t) (branch_name : string) (ks : list Z) :
  preserved (frame_kept pid) (PhaseExecutor.pass_loop w pid phase branch_name ks).
Proof.
  induction ks as [|k ks IH]; cbn [PhaseExecutor.pass_loop]; [frame pid|].
  apply (preserved_bind _ (frame_kept_trans pid)); [apply kept_one_pass|].
  intros [| |b]; [exact IH|frame pid..].
Qed.

#[local] Hint Resolve kept_pass_loop : frame.

Lemma kept_bind_get_phase {A} (k : option Phase.t -> M A) :
  (forall p, Phase.phase_id p = pid -> preserved (frame_kept pid) (k (Some p))) ->
  preserved (frame_kept pid) (k None) ->
  preserved (frame_kept pid) (bind (StateManager.get_phase pid) k).
Proof.
  intros Hs Hn db. unfold bind, StateManager.get_phase.
  destruct (find _ (phases db)) as [p|] eqn:Hf; [|apply Hn].
  destruct (Models.PhaseState_valid p); [|apply frame_kept_refl].
  apply Hs. apply List.find_some in Hf as [_ Hid]. now apply Nat.eqb_eq.
Qed.

Lemma kept_execute_single_phase :
  preserved (frame_kept pid) (PhaseExecutor.execute_single_phase w pid).
Proof.
  unfold PhaseExecutor.execute_single_phase, PhaseExecutor.cleanup_phase_branch.
  apply (preserved_try _ (frame_kept_trans pid)); [|intros e; frame pid].
  apply kept_bind_get_phase; [|frame pid].
  intros phase Hid.
  apply (preserved_bind _ (frame_kept_trans pid)); [apply kept_now|intros t].
  apply (preserved_bind _ (frame_kept_trans pid));
    [apply kept_update_phase_status|intros _].
  apply (preserved_bind _ (frame_kept_trans pid)); [apply kept_report|intros _].
  apply (preserved_bind _ (frame_kept_trans pid));
    [now apply kept_create_phase_branch|intros b].
  frame pid.
Qed.
End ExecutorFrame.

(** ** No pass completes a phase *)

Lemma bind_ok {A B} (m : M A) (k : A -> M B) (db db' : DB) (b : B) :
  bind m k db = (Ok b, db') ->
  exists a db1, m db = (Ok a, db1) /\ k a db1 = (Ok b, db').
Proof.
  unfold bind. destruct (m db) as [[a|e] db1]; [eauto|discriminate].
Qed.

Lemma report_ok_same (pid : nat) (db db' : DB) (u : unit) :
  PhaseExecutor.report_phase_progress pid db = (Ok u, db') -> db' = db.
Proof.
  unfold PhaseExecutor.report_phase_progress. intros H.
  apply bind_ok in H as (a & db1 & Hg & Hr). injection Hr as _ <-.
  unfold StateManager.get_phase in Hg.
  destruct (find _ _) as [p|]; [destruct (Models.PhaseState_valid p)|];
    congruence.
Qed.

Lemma create_execution_recorded (pid : nat) (k : Z) (path mode : string)
    (db db' : DB) (row : Execution.t) :
  StateManager.create_execution pid k path mode db = (Ok row, db') ->
  In (execution_key row) (map execution_key (executions db'))
  /\ Execution.phase_id row = pid.
Proof.
  unfold StateManager.create_execution, bind, uuid4, now. cbv beta iota zeta.
  destruct (negb _); [discriminate|].
  destruct (Models.ExecutionState_valid _); [|discriminate].
  intros [= <- <-]. cbn [executions set_executions]. split; [|reflexivity].
  rewrite map_app. apply in_or_app. right. left. reflexivity.
Qed.

Lemma execute_with_copilot_records (w : World) (pid : nat) (path : string)
    (k : Z) (db db' : DB) (r : Copilot.CopilotExecutionResult) :
  PhaseExecutor.execute_with_copilot w pid path k db = (Ok r, db') ->
  Copilot.success r = true ->
  In pid (map Execution.phase_id (executions db')).
Proof.
  unfold PhaseExecutor.execute_with_copilot.
  destruct (negb (copilot_interface w)); [intros [= <- <-]; discriminate|].
  intros H Hs. apply bind_ok in H as ([phase|] & db1 & _ & H); [|discriminate].
  cbv zeta in H.
  apply bind_ok in H as (_ & db2 & _ & H).
  apply bind_ok in H as (_ & db3 & _ & H).
  apply bind_ok in H as (row & db4 & Hc & H).
  apply create_execution_recorded in Hc as [Hin Hpid].
  unfold try_except in H.
  pose proof (kept_record_copilot_result w pid phase (Execution.execution_id row)
                k (Copilot.execute_spec (copilot_timeout w)
                     (PhaseExecutor.artifact_dir w (Phase.run_id phase) pid k)
                     (cli w pid k)) db4) as (_ & _ & Hpre & _).
  destruct (PhaseExecutor.record_copilot_result _ _ _ _ _ db4) as [[r'|e] db5].
  - injection H as <- <-. cbn [snd] in Hpre.
    destruct Hpre as [extra Hpre].
    assert (Hin' : In (execution_key row) (map execution_key (executions db5))).
    { rewrite Hpre. apply in_or_app. now left. }
    apply in_map_iff in Hin' as (e & He & Hine). apply in_map_iff.
    exists e. split; [|exact Hine].
    unfold execution_key in He. injection He as _ He _. congruence.
  - destruct e; try discriminate.
    apply bind_ok in H as (_ & db6 & _ & H). injection H as <- _.
    discriminate.
Qed.

Lemma latest_execution_some (l : list Execution.t) :
  l <> [] -> PhaseExecutor.latest_execution l <> None.
Proof.
  destruct l as [|e l]; [congruence|]. intros _. cbn.
  destruct (PhaseExecutor.latest_execution l) as [e'|]; [|easy].
  match goal with |- (if ?c then _ else _) <> _ => destruct c end; easy.
Qed.

Lemma run_verification_raises (w : World) (phase : Phase.t) (k : Z) (db : DB) :
  In (Phase.phase_id phase) (map Execution.phase_id (executions db)) ->
  is_ok (fst (PhaseExecutor._run_verification w phase k db)) = false.
Proof.
  intros Hin. unfold PhaseExecutor._run_verification, bind at 1.
  unfold StateManager.get_executions_for_phase.
  set (rows := order_by _ _).
  destruct (forallb _ rows); [|reflexivity].
  assert (Hne : rows <> []).
  { apply in_map_iff in Hin as (e & He & Hine). intros Hnil.
    assert (In e rows); [|rewrite Hnil in *; contradiction].
    apply order_by_In, List.filter_In. split; [exact Hine|].
    now apply Nat.eqb_eq. }
  destruct (PhaseExecutor.latest_execution rows) as [latest|] eqn:Hl;
    [|now apply latest_execution_some in Hne].
  cbv zeta. unfold bind at 1.
  destruct (PhaseVerifier.verify_phase_execution _ _ _ _ _) as [[v|e] db1];
    [|reflexivity].
  unfold bind at 1, StateManager.register_artifact, bind, uuid4, now.
  reflexivity.
Qed.

Lemma one_pass_never_returns (w : World) (pid : nat) (phase : Phase.t)
    (branch_name : string) (k : Z) (db db' : DB) (b : bool) :
  Phase.phase_id phase = pid ->
  PhaseExecutor.one_pass w pid phase branch_name k db
  <> (Ok (PhaseExecutor.Return b), db').
Proof.
  intros Hid H. unfold PhaseExecutor.one_pass in H.
  apply bind_ok in H as (_ & db1 & _ & H). unfold try_except in H.
  match type of H with
  | (match ?m db1 with _ => _ end) = _ => destruct (m db1) as [[ctl|e] db2] eqn:Hm
  end.
  2:{ apply bind_ok in H as (_ & db3 & _ & H).
      destruct (k =? max_retries w).
      - apply bind_ok in H as (_ & db4 & _ & H). discriminate.
      - discriminate. }
  injection H as -> ->.
  apply bind_ok in Hm as (path & db3 & _ & Hm).
  apply bind_ok in Hm as (u & db4 & _ & Hm).
  apply bind_ok in Hm as (r & db5 & Hc & Hm).
  destruct (Copilot.success r) eqn:Hs; cbn [negb] in Hm.
  - apply bind_ok in Hm as (u1 & db6 & Hr1 & Hm). apply report_ok_same in Hr1.
    apply bind_ok in Hm as (u2 & db7 & Hr2 & Hm). apply report_ok_same in Hr2.
    subst db6 db7.
    apply bind_ok in Hm as (v & db8 & Hv & _).
    pose proof (run_verification_raises w phase k db5) as Hraise.
    rewrite Hv in Hraise. cbn in Hraise.
    rewrite Hid in Hraise.
    specialize (Hraise (execute_with_copilot_records _ _ _ _ _ _ _ Hc Hs)).
    discriminate.
  - apply bind_ok in Hm as (c & db6 & _ & Hm).
    destruct (k <? max_retries w).
    + apply bind_ok in Hm as (_ & db7 & _ & Hm). discriminate.
    + discriminate.
Qed.

Lemma pass_loop_never_returns (w : World) (pid : nat) (phase : Phase.t)
    (branch_name : string) (ks : list Z) (db db' : DB) (b : bool) :
  Phase.phase_id phase = pid ->
  PhaseExecutor.pass_loop w pid phase branch_name ks db <> (Ok (Some b), db').
Proof.
  intros Hid. revert db. induction ks as [|k ks IH]; intros db H.
  - discriminate.
  - cbn [PhaseExecutor.pass_loop] in H.
    apply bind_ok in H as ([| |b'] & db1 & Hp & H).
    + now apply IH in H.
    + discriminate.
    + now apply one_pass_never_returns in Hp.
Qed.

Lemma execute_single_phase_not_true (w : World) (pid : nat) (db : DB) :
  fst (PhaseExecutor.execute_single_phase w pid db) <> Ok true.
Proof.
  unfold PhaseExecutor.execute_single_phase, try_except.
  match goal with
  | |- fst (match ?m db with _ => _ end) <> _ => destruct (m db) as [[b|e] db1] eqn:Hm
  end.
  2:{ unfold bind. destruct (PhaseExecutor.handle_execution_error _ _ _) as [[u|e'] db2];
        discriminate. }
  cbn [fst]. intros [= ->].
  apply bind_ok in Hm as ([phase|] & db2 & Hg & Hm); [|discriminate].
  destruct (get_phase_found _ _ _ _ Hg) as (_ & Hf & _).
  assert (Hid : Phase.phase_id phase = pid).
  { unfold find_phase in Hf. apply List.find_some in Hf as [_ Hid].
    now apply Nat.eqb_eq. }
  apply bind_ok in Hm as (t & db3 & _ & Hm).
  apply bind_ok in Hm as (_ & db4 & _ & Hm).
  apply bind_ok in Hm as (_ & db5 & _ & Hm).
  apply bind_ok in Hm as (branch & db6 & _ & Hm).
  apply bind_ok in Hm as ([b|] & db7 & Hl & Hm).
  - now apply pass_loop_never_returns in Hl.
  - apply bind_ok in Hm as (_ & db8 & _ & Hm).
    apply bind_ok in Hm as (_ & db9 & _ & Hm). discriminate.
Qed.

(** X15.  execute_single_phase never returns True, in any store and with
    any behaviour of the Copilot CLI, the checks and git: once a pass has
    recorded an execution, _run_verification registers an artifact of type
    findings_report_md, which the artifacts table rejects, so the success
    branch is never reached. *)
Theorem execute_single_phase_never_succeeds (w : World) (pid : nat) (db : DB) :
  fst (PhaseExecutor.execute_single_phase w pid db) <> Ok true.
Proof. apply execute_single_phase_not_true. Qed.

(** ** What a phase execution leaves in place *)

(** X16.  When phase.id, where it can be read, is the phase's identifier,
    execute_single_phase leaves every run's status and total_phases, every
    other phase row and the executed phase's run, number, size and
    max_retries as they were, and only appends to the executions,
    findings, artifacts and interventions: earlier findings, artifacts and
    interventions are unchanged, and earlier executions keep their
    identifier, phase and pass number. *)
Theorem execute_single_phase_frame (w : World) (pid : nat) (db : DB) :
  ids_faithful w ->
  let db' := snd (PhaseExecutor.execute_single_phase w pid db) in
  map run_key (runs db') = map run_key (runs db)
  /\ map (phase_frame pid) (phases db') = map (phase_frame pid) (phases db)
  /\ map execution_key (executions db) `prefix_of` map execution_key (executions db')
  /\ findings db `prefix_of` findings db'
  /\ artifacts db `prefix_of` artifacts db'
  /\ manual_interventions db `prefix_of` manual_interventions db'.
Proof. intros H. exact (kept_execute_single_phase w pid H db). Qed.

Lemma ids_faithful_PhaseState (w : World) :
  (forall p, phase_id_attr w p = PhaseState_id p) -> ids_faithful w.
Proof. intros H p id. rewrite H. discriminate. Qed.

Lemma ids_faithful_mock (w : World) : ids_faithful (with_mock_ids w).
Proof. intros p id [= <-]. reflexivity. Qed.

Lemma execute_single_phase_frame_witness :
  let db := Example.db_two_phases in
  let db' := snd (PhaseExecutor.execute_single_phase Example.copilot_answers 10 db) in
  map run_key (runs db') = map run_key (runs db)
  /\ map (phase_frame 10) (phases db') = map (phase_frame 10) (phases db)
  /\ map execution_key (executions db) `prefix_of` map execution_key (executions db')
  /\ findings db `prefix_of` findings db'
  /\ artifacts db `prefix_of` artifacts db'
  /\ manual_interventions db `prefix_of` manual_interventions db'.
Proof.
  apply (execute_single_phase_frame Example.copilot_answers 10 Example.db_two_phases).
  apply ids_faithful_PhaseState. reflexivity.
Defined.

(** ** A run with work to do is never completed *)

Lemma find_run_key (id : nat) (l l' : list Run.t) :
  map run_key l' = map run_key l ->
  option_map run_key (find (fun r => Run.run_id r =? id)%nat l')
  = option_map run_key (find (fun r => Run.run_id r =? id)%nat l).
Proof.
  revert l'. induction l as [|r l IH]; intros [|r' l']; try discriminate;
    [reflexivity|].
  cbn [map find]. intros [= Hid Hst Htot Hrest].
  rewrite Hid. destruct (Run.run_id r =? id)%nat.
  - cbn. unfold run_key. now rewrite Hid, Hst, Htot.
  - now apply IH.
Qed.

Lemma run_status_kept (id : nat) (db db' : DB) :
  map run_key (runs db') = map run_key (runs db) ->
  run_status_of id db' = run_status_of id db.
Proof.
  intros H. apply (find_run_key id) in H. unfold run_status_of, find_run.
  destruct (find _ (runs db')) as [r'|], (find _ (runs db)) as [r|];
    cbn in *; try discriminate; [|reflexivity].
  injection H as _ H _. now f_equal.
Qed.

Lemma run_exists_status (id : nat) (db : DB) (s : string) :
  run_status_of id db = Some s -> find_run id db <> None.
Proof. unfold run_status_of. destruct (find_run id db); [easy|discriminate]. Qed.

Lemma run_exists_after_update (id : nat) (db : DB) (s : string) :
  str_in s Schema.runs_status = true ->
  find_run id db <> None ->
  find_run id (snd (StateManager.update_run_status id s None db)) <> None.
Proof.
  intros Hs Hex. eapply run_exists_status. now apply run_status_after_update.
Qed.

Section FailingRun.
Variable w : World.
Variable run_id : nat.
Hypothesis faithful : ids_faithful w.

Lemma phases_loop_fails (l : list Phase.t) (db1 : DB) :
  (exists p, In p l /\ Phase.status p <> "skipped") ->
  run_status_of run_id db1 = Some "executing" ->
  let out :=
    PhaseExecutor.phases_loop w (PhaseExecutor.execute_single_phase w) run_id l db1 in
  (fst out = Ok true /\ run_status_of run_id (snd out) = Some "failed")
  \/ (exists e, fst out = Raise e /\ find_run run_id (snd out) <> None).
Proof.
  intros Hwork Hst. induction l as [|q l IH].
  - destruct Hwork as (p & [] & _).
  - cbn [PhaseExecutor.phases_loop].
    destruct (String.eqb_spec (Phase.status q) "skipped") as [Hsk|Hns].
    { apply IH. destruct Hwork as (p & [<-|Hp] & Hp'); [contradiction|eauto]. }
    clear IH Hwork. cbv zeta.
    destruct (phase_id_attr w q) as [id|e] eqn:Hattr.
    2:{ right. exists e. rewrite (bind_stop _ _ db1 db1 e) by reflexivity.
        split; [reflexivity|]. now apply run_exists_status in Hst. }
    rewrite (bind_step _ _ db1 db1 id) by reflexivity.
    pose proof (kept_execute_single_phase w id faithful db1) as (Hruns & _).
    pose proof (execute_single_phase_not_true w id db1) as Hnever.
    destruct (PhaseExecutor.execute_single_phase w id db1) as [[[|]|e] db2] eqn:Hex;
      cbn [fst snd] in *; [congruence| |].
    2:{ right. exists e. rewrite (bind_stop _ _ _ _ _ Hex).
        split; [reflexivity|].
        apply (run_exists_status _ _ "executing").
        now rewrite (run_status_kept _ _ _ Hruns). }
    rewrite (bind_step _ _ _ _ _ Hex). cbn [negb].
    assert (Hst2 : run_status_of run_id db2 = Some "executing")
      by now rewrite (run_status_kept _ _ _ Hruns).
    assert (Hget : exists r, StateManager.get_run run_id db2 = (Ok (Some r), db2)
                             /\ Run.status r = "executing").
    { unfold StateManager.get_run. unfold run_status_of, find_run in Hst2.
      destruct (find _ (runs db2)) as [r|]; [|discriminate].
      injection Hst2 as Hr. exists r. unfold Models.RunState_valid.
      rewrite Hr. auto. }
    destruct Hget as (r & Hget & Hr).
    rewrite (bind_step _ _ _ _ _ Hget).
    replace (String.eqb (Run.status r) "paused") with false
      by (rewrite Hr; reflexivity).
    left.
    rewrite (bind_step _ _ _ _ _ (update_run_status_ok run_id "failed" db2 eq_refl)).
    cbn [ret fst snd]. split; [reflexivity|].
    pose proof (run_status_after_update run_id "failed" db2 eq_refl) as Hafter.
    rewrite (update_run_status_ok run_id "failed" db2 eq_refl) in Hafter.
    apply Hafter. now apply (run_exists_status _ _ "executing").
Qed.
End FailingRun.

(** X17.  When phase.id is the phase's identifier, execute_phases on an
    existing run whose phases can be read and include one that is not
    skipped always leaves the run with status failed: never completed,
    never paused. *)
Theorem run_with_work_ends_failed (w : World) (run_id : nat) (db : DB)
    (phases : list Phase.t) (p : Phase.t) :
  ids_faithful w ->
  find_run run_id db <> None ->
  StateManager.get_phases_for_run run_id db = (Ok phases, db) ->
  In p phases ->
  Phase.status p <> "skipped" ->
  run_status_of run_id (snd (PhaseExecutor.execute_phases w run_id db))
  = Some "failed".
Proof.
  intros Hfaith Hex Hget Hp Hns.
  unfold PhaseExecutor.execute_phases, PhaseExecutor.execute_phases_with, try_except.
  assert (Hfail : forall e db1,
             find_run run_id db1 <> None ->
             run_status_of run_id
               (snd ((StateManager.update_run_status run_id "failed" None ;;
                      @raise unit e) db1)) = Some "failed").
  { intros e db1 H1.
    rewrite (bind_step _ _ _ _ _ (update_run_status_ok run_id "failed" db1 eq_refl)).
    cbn [raise snd].
    pose proof (run_status_after_update run_id "failed" db1 eq_refl H1) as Hafter.
    now rewrite (update_run_status_ok run_id "failed" db1 eq_refl) in Hafter. }
  set (dbf := snd (StateManager.update_run_status run_id "failed" None db)).
  assert (Hupd : forall st d, str_in st Schema.runs_status = true ->
             StateManager.update_run_status run_id st None d
             = (Ok tt, snd (StateManager.update_run_status run_id st None d))).
  { intros st d Hst. now rewrite (update_run_status_ok run_id st d Hst). }
  destruct (copilot_interface w && negb (environment_valid w)).
  { rewrite (bind_stop _ _ db dbf (PyException "Copilot validation failed")).
    2:{ now rewrite (bind_step _ _ _ _ _ (Hupd "failed" db eq_refl)). }
    apply Hfail. now apply run_exists_after_update. }
  rewrite (bind_step _ _ db db tt) by reflexivity.
  rewrite (bind_step _ _ _ _ _ Hget).
  destruct phases as [|p0 ps]; [contradiction|].
  set (db1 := snd (StateManager.update_run_status run_id "executing" None db)).
  rewrite (bind_step _ _ _ _ _ (Hupd "executing" db eq_refl)). fold db1.
  assert (Hst1 : run_status_of run_id db1 = Some "executing")
    by now apply run_status_after_update.
  assert (Hwork : exists q, In q (PhaseExecutor.sorted_phases (p0 :: ps))
                            /\ Phase.status q <> "skipped").
  { exists p. split; [|exact Hns]. now apply order_by_In. }
  destruct (phases_loop_fails w run_id Hfaith _ db1 Hwork Hst1)
    as [[Hok Hfailed]|(e & Hraise & Hexists)];
    destruct (PhaseExecutor.phases_loop w _ run_id _ db1) as [[b|e'] db2] eqn:Hloop;
    cbn [fst snd] in *; try discriminate.
  - injection Hok as ->. rewrite (bind_step _ _ _ _ _ Hloop). exact Hfailed.
  - rewrite (bind_stop _ _ _ _ _ Hloop). now apply Hfail.
Qed.

Lemma run_with_work_ends_failed_witness :
  run_status_of 1
    (snd (PhaseExecutor.execute_phases (with_mock_ids Example.copilot_answers) 1
            Example.db_two_phases)) = Some "failed".
Proof.
  apply (run_with_work_ends_failed (with_mock_ids Example.copilot_answers) 1
           Example.db_two_phases
           [Phase.mk 10 1 1 "medium" "pending" None None None 0 2;
            Phase.mk 11 1 2 "small" "pending" None None None 0 2]
           (Phase.mk 10 1 1 "medium" "pending" None None None 0 2)).
  - apply ids_faithful_mock.
  - discriminate.
  - reflexivity.
  - left. reflexivity.
  - discriminate.
Defined.

(** ** Every execution of a phase ends in failure *)

Lemma readable_kept_refl (pid : nat) (db : DB) : readable_kept pid db db.
Proof. intros H. exact H. Qed.

Lemma readable_kept_trans (pid : nat) (a b c : DB) :
  readable_kept pid a b -> readable_kept pid b c -> readable_kept pid a c.
Proof. intros H1 H2 H. apply H2, H1, H. Qed.

Lemma readable_same_phases (pid : nat) (db db' : DB) :
  phases db' = phases db -> readable_kept pid db db'.
Proof. intros H. unfold readable_kept, phase_readable, find_phase. now rewrite H. Qed.

Lemma readable_get_phase (pid : nat) (db : DB) :
  phase_readable pid db ->
  exists p, StateManager.get_phase pid db = (Ok (Some p), db)
            /\ Phase.phase_id p = pid.
Proof.
  intros (p & Hf & Hv). exists p. unfold StateManager.get_phase.
  unfold find_phase in Hf. rewrite Hf, Hv. split; [reflexivity|].
  apply List.find_some in Hf as [_ Hid]. now apply Nat.eqb_eq.
Qed.

Lemma readable_after_update (pid : nat) (f : Phase.t -> Phase.t) (db : DB) :
  (forall p, Phase.phase_id (f p) = Phase.phase_id p) ->
  (forall p, Models.PhaseState_valid p = true -> Models.PhaseState_valid (f p) = true) ->
  readable_kept pid db
    (set_phases (update_where (fun p => Phase.phase_id p =? pid)%nat f (phases db)) db).
Proof.
  intros Hid Hv (p & Hf & Hp). exists (f p). split; [|now apply Hv].
  unfold find_phase in *. cbn [phases set_phases].
  rewrite find_update_where; [now rewrite Hf|].
  intros a. now rewrite Hid.
Qed.

Lemma set_status_valid (s : string) (a b : option nat) (p : Phase.t) :
  str_in s Schema.phases_status = true ->
  Models.PhaseState_valid p = true ->
  Models.PhaseState_valid (Phase.set_status s a b p) = true.
Proof.
  intros Hs Hp. unfold Models.PhaseState_valid in *.
  cbn [Phase.set_status Phase.phase_number Phase.size Phase.status].
  apply andb_true_iff in Hp as [Hp _]. rewrite Hp. exact Hs.
Qed.

Section Readable.
Variable pid : nat.

Lemma readable_update_phase_status (status : string) (a b : option nat) :
  preserved (readable_kept pid) (StateManager.update_phase_status pid status a b).
Proof.
  intros db. unfold StateManager.update_phase_status. cbv zeta.
  destruct (existsb _ _ && _) eqn:Hc; [apply readable_kept_refl|]. cbn [snd].
  intros Hr.
  assert (Hs : str_in status Schema.phases_status = true).
  { destruct Hr as (p & Hf & _). unfold find_phase in Hf.
    apply find_existsb in Hf. rewrite Hf in Hc.
    now destruct (str_in status Schema.phases_status). }
  assert (H1 : phase_readable pid
                 (set_phases
                    (update_where (fun p => Phase.phase_id p =? pid)%nat
                       (Phase.set_status status a b) (phases db)) db)).
  { apply (readable_after_update pid (Phase.set_status status a b) db);
      [reflexivity|intros p; now apply set_status_valid|exact Hr]. }
  destruct (String.eqb status "in_progress");
    [|destruct (String.eqb status "completed")]; exact H1.
Qed.

Lemma readable_increment_phase_retry :
  preserved (readable_kept pid) (StateManager.increment_phase_retry pid).
Proof.
  intros db. unfold StateManager.increment_phase_retry. cbv zeta.
  match goal with |- readable_kept _ _ (snd (match ?x with _ => _ end)) => destruct x end;
    cbn [snd]; apply readable_after_update; auto.
Qed.

Lemma readable_unchanged {A} (m : M A) :
  (forall db, phases (snd (m db)) = phases db) -> preserved (readable_kept pid) m.
Proof. intros H db. apply readable_same_phases, H. Qed.

Lemma readable_now : preserved (readable_kept pid) now.
Proof. now apply readable_unchanged. Qed.

Lemma readable_get_phase_op (id : nat) :
  preserved (readable_kept pid) (StateManager.get_phase id).
Proof.
  apply readable_unchanged. intros db. unfold StateManager.get_phase.
  destruct (find _ _) as [p|]; [destruct (Models.PhaseState_valid p)|]; reflexivity.
Qed.

Lemma readable_get_executions (id : nat) :
  preserved (readable_kept pid) (StateManager.get_executions_for_phase id).
Proof.
  apply readable_unchanged. intros db. now rewrite get_executions_for_phase_ro.
Qed.

Lemma readable_get_findings (id : nat) :
  preserved (readable_kept pid) (StateManager.get_findings_for_phase id).
Proof.
  apply readable_unchanged. intros db. now rewrite get_findings_for_phase_ro.
Qed.

Lemma readable_create_execution (id : nat) (k : Z) (path mode : string) :
  preserved (readable_kept pid) (StateManager.create_execution id k path mode).
Proof.
  apply readable_unchanged. intros db.
  unfold StateManager.create_execution, bind, uuid4, now. cbv beta iota zeta.
  destruct (negb _); [reflexivity|].
  destruct (Models.ExecutionState_valid _); reflexivity.
Qed.

Lemma readable_complete_execution (id : nat) (out summary : string) :
  preserved (readable_kept pid) (StateManager.complete_execution id out summary).
Proof. now apply readable_unchanged. Qed.

Lemma readable_fail_execution (id : nat) (err : string) :
  preserved (readable_kept pid) (StateManager.fail_execution id err).
Proof. now apply readable_unchanged. Qed.

Lemma readable_add_finding (e : nat) (s c t d ev : string) (sf : option string) :
  preserved (readable_kept pid) (StateManager.add_finding e s c t d ev sf).
Proof.
  apply readable_unchanged. intros db.
  unfold StateManager.add_finding, bind, uuid4, now. cbv beta iota zeta.
  destruct (_ && _); reflexivity.
Qed.

Lemma readable_register_artifact (r : nat) (ty path : string) (p e : option nat) :
  preserved (readable_kept pid) (StateManager.register_artifact r ty path p e).
Proof.
  apply readable_unchanged. intros db.
  unfold StateManager.register_artifact, bind, uuid4, now. cbv beta iota zeta.
  destruct (str_in _ _); reflexivity.
Qed.

Lemma readable_create_intervention (id : nat) (reason : string) :
  preserved (readable_kept pid) (StateManager.create_intervention id reason).
Proof.
  apply readable_unchanged. intros db.
  unfold StateManager.create_intervention, bind, uuid4, now. cbv beta iota zeta.
  destruct (negb _); [reflexivity|].
  destruct (Models.ManualIntervention_valid _); reflexivity.
Qed.

Lemma readable_update_run_status (run_id : nat) (status : string) (e : option string) :
  preserved (readable_kept pid) (StateManager.update_run_status run_id status e).
Proof.
  apply readable_unchanged. intros db.
  unfold StateManager.update_run_status, bind, now. cbv beta iota.
  destruct (_ && _); reflexivity.
Qed.

End Readable.

Ltac readable_step pid :=
  lazymatch goal with
  | |- preserved _ (bind _ _) =>
      apply (preserved_bind _ (readable_kept_trans pid)); [|intros ?]
  | |- preserved _ (try_except _ _) =>
      apply (preserved_try _ (readable_kept_trans pid)); [|intros ?]
  | |- preserved _ (ret _) => apply (preserved_ret _ (readable_kept_refl pid))
  | |- preserved _ (raise _) => apply (preserved_raise _ (readable_kept_refl pid))
  | |- preserved _ (lift _) => apply (preserved_lift _ (readable_kept_refl pid))
  | |- preserved _ (if ?b then _ else _) => destruct b
  | |- preserved _ (match ?x with _ => _ end) => destruct x
  end.

Create HintDb readable.

#[local] Hint Resolve readable_update_phase_status readable_increment_phase_retry
  readable_now readable_get_phase_op readable_get_executions
  readable_get_findings readable_create_execution readable_complete_execution
  readable_fail_execution readable_add_finding readable_register_artifact
  readable_create_intervention readable_update_run_status : readable.

Ltac readable pid := repeat first [readable_step pid | solve [auto with readable]].

Section ExecutorReadable.
Variable w : World.
Variable pid : nat.

Lemma readable_report :
  preserved (readable_kept pid) (PhaseExecutor.report_phase_progress pid).
Proof. unfold PhaseExecutor.report_phase_progress. readable pid. Qed.

Lemma readable_apply_patches (phase : Phase.t) (r : Copilot.CopilotExecutionResult)
    (k : Z) :
  preserved (readable_kept pid) (PhaseExecutor._apply_copilot_patches w phase r k).
Proof.
  apply preserved_ro; [apply readable_kept_refl|].
  apply apply_copilot_patches_records_nothing.
Qed.

#[local] Hint Resolve readable_report readable_apply_patches : readable.

Lemma readable_execute_with_copilot (path : string) (k : Z) :
  preserved (readable_kept pid) (PhaseExecutor.execute_with_copilot w pid path k).
Proof.
  unfold PhaseExecutor.execute_with_copilot, PhaseExecutor.record_copilot_result,
    PhaseExecutor._render_copilot_prompt, PhaseExecutor.phase_not_found.
  cbv zeta. readable pid.
Qed.

Lemma readable_call_add_finding (kw : kwargs) :
  preserved (readable_kept pid) (call_add_finding kw).
Proof. unfold call_add_finding. readable pid. Qed.

#[local] Hint Resolve readable_call_add_finding : readable.

Lemma readable_persist_findings (e : nat) (fs : list Found) :
  preserved (readable_kept pid) (PhaseVerifier.persist_findings e fs).
Proof.
  induction fs as [|f fs IH]; cbn [PhaseVerifier.persist_findings];
    unfold PhaseVerifier.persist_finding; readable pid.
Qed.

#[local] Hint Resolve readable_execute_with_copilot readable_persist_findings
  : readable.

Lemma readable_run_verification (phase : Phase.t) (k : Z) :
  preserved (readable_kept pid) (PhaseExecutor._run_verification w phase k).
Proof.
  unfold PhaseExecutor._run_verification, PhaseVerifier.verify_phase_execution.
  cbv zeta. readable pid.
Qed.

Lemma readable_create_phase_branch (phase : Phase.t) :
  preserved (readable_kept pid) (PhaseExecutor.create_phase_branch w phase).
Proof.
  unfold PhaseExecutor.create_phase_branch.
  destruct (negb _); [readable pid|]. destruct (negb _); [readable pid|].
  destruct (phase_branch w _) as [name|]; [|readable pid].
  destruct (phase_id_attr w phase) as [id|e]; [|readable pid].
  intros db (p & Hf & Hv). cbn [snd]. unfold phase_readable, find_phase in *.
  cbn [phases set_phases].
  rewrite find_update_where_key by reflexivity. rewrite Hf. cbn [option_map].
  destruct (Phase.phase_id p =? id)%nat; eauto.
Qed.

Lemma readable_handle_execution_error (e : exn) :
  preserved (readable_kept pid) (PhaseExecutor.handle_execution_error pid e).
Proof. unfold PhaseExecutor.handle_execution_error. readable pid. Qed.

#[local] Hint Resolve readable_run_verification readable_create_phase_branch
  readable_handle_execution_error : readable.

Lemma readable_one_pass (phase : Phase.t) (branch_name : string) (k : Z) :
  preserved (readable_kept pid) (PhaseExecutor.one_pass w pid phase branch_name k).
Proof.
  unfold PhaseExecutor.one_pass, PhaseExecutor.merge_phase_branch,
    PhaseExecutor.generate_phase_spec, PhaseExecutor._handle_verification_failure,
    PhaseExecutor.phase_not_found.
  cbv zeta. readable pid.
Qed.

Lemma readable_pass_loop (phase : Phase.t) (branch_name : string) (ks : list Z) :
  preserved (readable_kept pid) (PhaseExecutor.pass_loop w pid phase branch_name ks).
Proof.
  induction ks as [|k ks IH]; cbn [PhaseExecutor.pass_loop]; [readable pid|].
  apply (preserved_bind _ (readable_kept_trans pid)); [apply readable_one_pass|].
  intros [| |b]; [exact IH|readable pid..].
Qed.

End ExecutorReadable.

Lemma handle_execution_error_marks_failed (pid : nat) (e : exn) (db : DB) :
  phase_readable pid db ->
  exists db',
    PhaseExecutor.handle_execution_error pid e db = (Ok tt, db')
    /\ option_map Phase.status (find_phase pid db') = Some "failed".
Proof.
  intros Hr. destruct (readable_get_phase pid db Hr) as (p & Hg & _).
  unfold PhaseExecutor.handle_execution_error.
  rewrite (bind_step _ _ _ _ _ Hg).
  destruct Hr as (q & Hf & _). unfold find_phase in Hf.
  unfold StateManager.update_phase_status. cbv zeta.
  rewrite (find_existsb _ _ _ Hf). cbn [andb negb str_in].
  eexists. split; [reflexivity|]. cbn.
  unfold find_phase. cbn [phases set_phases].
  rewrite find_update_where by reflexivity. now rewrite Hf.
Qed.

Lemma execute_single_phase_body_raises (w : World) (pid : nat) (db db' : DB)
    (b : bool) (m : M bool) :
  phase_readable pid db ->
  m = (let* phase := StateManager.get_phase pid in
       match phase with
       | None => ret false
       | Some phase =>
           let* t := now in
           StateManager.update_phase_status pid "in_progress" (Some t) None ;;
           PhaseExecutor.report_phase_progress pid ;;
           let* branch_name := PhaseExecutor.create_phase_branch w phase in
           let* returned :=
             PhaseExecutor.pass_loop w pid phase branch_name
               (PhaseExecutor.pass_numbers w) in
           match returned with
           | Some b => ret b
           | None =>
               (if negb (String.eqb branch_name "") then
                  let* phase' := StateManager.get_phase pid in
                  match phase' with
                  | Some p => PhaseExecutor.cleanup_phase_branch p
                  | None => ret tt
                  end
                else ret tt) ;;
               PhaseExecutor.handle_manual_intervention pid ;;
               ret false
           end
       end) ->
  m db <> (Ok b, db').
Proof.
  intros Hr -> Hm.
  destruct (readable_get_phase pid db Hr) as (p & Hg & Hid).
  rewrite (bind_step _ _ _ _ _ Hg) in Hm.
  apply bind_ok in Hm as (t & db3 & H3 & Hm).
  pose proof (readable_now pid db Hr) as Hr3. rewrite H3 in Hr3. cbn [snd] in Hr3.
  apply bind_ok in Hm as (u4 & db4 & H4 & Hm).
  pose proof (readable_update_phase_status pid "in_progress" (Some t) None db3 Hr3)
    as Hr4. rewrite H4 in Hr4. cbn [snd] in Hr4.
  apply bind_ok in Hm as (u5 & db5 & H5 & Hm).
  apply report_ok_same in H5. subst db5.
  apply bind_ok in Hm as (branch & db6 & H6 & Hm).
  pose proof (readable_create_phase_branch w pid p db4 Hr4) as Hr6.
  rewrite H6 in Hr6. cbn [snd] in Hr6.
  apply bind_ok in Hm as ([b'|] & db7 & H7 & Hm).
  { now apply pass_loop_never_returns in H7. }
  pose proof (readable_pass_loop w pid p branch (PhaseExecutor.pass_numbers w) db6 Hr6)
    as Hr7. rewrite H7 in Hr7. cbn [snd] in Hr7.
  apply bind_ok in Hm as (u8 & db8 & H8 & Hm).
  assert (db8 = db7) as ->.
  { destruct (negb _); [|now injection H8 as _ <-].
    apply bind_ok in H8 as (o & db9 & Hg' & H8).
    apply get_phase_same in Hg'. subst db9.
    destruct o; now injection H8 as _ <-. }
  apply bind_ok in Hm as (i & db9 & H9 & _).
  destruct (readable_get_phase pid db7 Hr7) as (p7 & Hg7 & _).
  destruct (handle_manual_intervention_raises pid db7 p7 Hg7) as (dbx & Hx & _).
  congruence.
Qed.

(** X18.  For a phase that is stored and can be read, execute_single_phase
    always returns False and leaves the phase with status failed, whatever
    the Copilot CLI, the checks and git do: the pass loop never returns,
    escalation raises at the paused status that the phases table rejects,
    and the outer handler marks the phase failed. *)
Theorem execute_single_phase_always_fails (w : World) (pid : nat) (db : DB) :
  phase_readable pid db ->
  let out := PhaseExecutor.execute_single_phase w pid db in
  fst out = Ok false
  /\ option_map Phase.status (find_phase pid (snd out)) = Some "failed".
Proof.
  intros Hr. cbv zeta.
  pose proof (readable_kept_trans pid) as Htrans.
  unfold PhaseExecutor.execute_single_phase, try_except.
  match goal with
  | |- fst (match ?m db with _ => _ end) = _ /\ _ =>
      pose proof (execute_single_phase_body_raises w pid db) as Hbody;
      specialize (fun db' b => Hbody db' b m Hr eq_refl);
      assert (Hkeep : readable_kept pid db (snd (m db)));
      [|destruct (m db) as [[b|e] db1]]
  end.
  - apply (preserved_bind _ Htrans); [apply readable_get_phase_op|].
    intros [phase|]; [|apply (preserved_ret _ (readable_kept_refl pid))].
    unfold PhaseExecutor.cleanup_phase_branch.
    pose proof (readable_report pid). pose proof (readable_create_phase_branch w pid).
    pose proof (readable_pass_loop w pid).
    assert (Hmi : preserved (readable_kept pid)
                    (PhaseExecutor.handle_manual_intervention pid)).
    { unfold PhaseExecutor.handle_manual_intervention, PhaseExecutor.phase_not_found.
      readable pid. }
    readable pid.
  - now destruct (Hbody db1 b).
  - cbn [snd] in Hkeep. specialize (Hkeep Hr).
    destruct (handle_execution_error_marks_failed pid e db1 Hkeep) as (db2 & H2 & Hst).
    rewrite (bind_step _ _ _ _ _ H2). cbn [ret fst snd]. auto.
Qed.

Lemma execute_single_phase_always_fails_witness :
  let out :=
    PhaseExecutor.execute_single_phase Example.copilot_answers 10
      Example.db_two_phases in
  fst out = Ok false
  /\ option_map Phase.status (find_phase 10 (snd out)) = Some "failed".
Proof.
  apply (execute_single_phase_always_fails Example.copilot_answers 10
           Example.db_two_phases).
  eexists. split; reflexivity.
Defined.

(** ** Patch application *)

Lemma apply_each_accounts (w : World) (pid : nat) (k : Z)
    (ps : list Copilot.patch) (idx : nat) (applied : list string)
    (failed : list (string * string)) :
  let out := PhaseExecutor.apply_each w pid k idx ps applied failed in
  (length (fst out) + length (snd out)
   = length applied + length failed + length ps)%nat
  /\ (snd out = [] <-> failed = [] /\ all_apply w pid k idx ps = true).
Proof.
  revert idx applied failed. induction ps as [|p ps IH]; intros idx applied failed.
  - cbn. split; [lia|]. tauto.
  - cbn [PhaseExecutor.apply_each all_apply]. unfold patch_applies.
    destruct (Copilot.patch_has "file" p && Copilot.patch_has "diff" p);
      cbn [negb andb].
    2:{ destruct (IH (S idx) applied (failed ++ [(pretty idx, "Invalid format")])%list)
          as [H1 H2]. cbv zeta in *. rewrite length_app in H1. cbn in H1.
        split; [cbn; lia|]. rewrite H2. split; [|intros [_ H]; discriminate].
        intros [H _]. now destruct failed. }
    destruct (patch_file_exists w pid k idx); cbn [negb andb].
    2:{ destruct (IH (S idx) applied
                    (failed ++ [(patch_get "file" p, "Patch file not found")])%list)
          as [H1 H2]. cbv zeta in *. rewrite length_app in H1. cbn in H1.
        split; [cbn; lia|]. rewrite H2. split; [|intros [_ H]; discriminate].
        intros [H _]. now destruct failed. }
    destruct (git_apply w pid k idx); cbn [andb].
    + destruct (IH (S idx) (applied ++ [patch_get "file" p])%list failed) as [H1 H2].
      cbv zeta in *. rewrite length_app in H1. cbn in H1.
      split; [cbn; lia|exact H2].
    + destruct (IH (S idx) applied
                  (failed ++ [(patch_get "file" p, "git apply failed")])%list)
        as [H1 H2]. cbv zeta in *. rewrite length_app in H1. cbn in H1.
      split; [cbn; lia|]. rewrite H2. split; [|intros [_ H]; discriminate].
      intros [H _]. now destruct failed.
Qed.

(** X19.  _apply_copilot_patches never raises and never changes the store;
    it returns True exactly when the directory is a git repository, the
    result has patches, the patches directory exists and every patch names
    a file and a diff, has its patch file and is accepted by git apply.
    Each patch is counted once, as applied or as failed. *)
Theorem apply_copilot_patches_all_or_nothing (w : World) (phase : Phase.t)
    (result : Copilot.CopilotExecutionResult) (pass_number : Z) (db : DB) :
  let pid := Phase.phase_id phase in
  let ps := Copilot.patches result in
  let out := PhaseExecutor.apply_each w pid pass_number 0 ps [] [] in
  PhaseExecutor._apply_copilot_patches w phase result pass_number db
  = (Ok (git_repo w
         && match ps with [] => false | _ :: _ => true end
         && patches_dir_exists w pid pass_number
         && all_apply w pid pass_number 0 ps), db)
  /\ (length (fst out) + length (snd out) = length ps)%nat.
Proof.
  cbv zeta. split; [|apply (apply_each_accounts w _ _ _ 0 [] [])].
  unfold PhaseExecutor._apply_copilot_patches.
  destruct (git_repo w); [|reflexivity]. cbn [negb andb].
  destruct (Copilot.patches result) as [|p ps] eqn:Hps; [reflexivity|].
  destruct (patches_dir_exists w _ _); [|reflexivity]. cbn [negb andb].
  pose proof (apply_each_accounts w (Phase.phase_id phase) pass_number (p :: ps)
                0 [] []) as [_ Hiff]. cbv zeta in Hiff.
  unfold try_except.
  destruct (PhaseExecutor.apply_each _ _ _ _ _ _ _) as [applied [|f failed]];
    cbn [snd] in Hiff.
  - replace (all_apply _ _ _ _ _) with true; [reflexivity|].
    symmetry. now apply Hiff.
  - replace (all_apply _ _ _ _ _) with false.
    2:{ destruct (all_apply _ _ _ _ _); [|reflexivity].
        destruct Hiff as [_ Hiff]. discriminate Hiff. auto. }
    unfold bind at 1, lift.
    destruct (phase_id_attr w phase); reflexivity.
Qed.

(** ** Resuming without an intervention, or with a wrong action *)

(** X20.  For a readable phase, resume_phase returns without any effect
    when the phase has no pending intervention, whatever the action; with
    a pending intervention it raises ValueError and changes nothing for an
    action outside resume, skip, modify_spec and abort, and for
    modify_spec without an existing modified spec file. *)
Theorem resume_phase_edge_cases (w : World) (phase_id : nat) (action : string)
    (path : option string) (db : DB) (p : Phase.t) (l : list Intervention.t) :
  StateManager.get_phase phase_id db = (Ok (Some p), db) ->
  StateManager.get_pending_interventions (Phase.run_id p) db = (Ok l, db) ->
  ((forall i, In i l -> Intervention.phase_id i <> phase_id) ->
   PhaseExecutor.resume_phase w phase_id action path db = (Ok tt, db))
  /\ ((exists i, In i l /\ Intervention.phase_id i = phase_id) ->
      str_in action ["resume"; "skip"; "modify_spec"; "abort"] = false ->
      PhaseExecutor.resume_phase w phase_id action path db
      = (Raise (ValueError ("Invalid action: " +:+ action)), db))
  /\ ((exists i, In i l /\ Intervention.phase_id i = phase_id) ->
      action = "modify_spec" ->
      str_truthy path && modified_spec_exists w = false ->
      PhaseExecutor.resume_phase w phase_id action path db
      = (Raise (ValueError
                  "Valid modified_spec_path required for modify_spec action"), db)).
Proof.
  intros Hg Hp. unfold PhaseExecutor.resume_phase.
  rewrite (bind_step _ _ _ _ _ Hg), (bind_step _ _ _ _ _ Hp).
  split; [|split].
  - intros Hnone.
    destruct (find _ l) as [i|] eqn:Hf; [|reflexivity].
    apply List.find_some in Hf as [Hin Hid]. apply Nat.eqb_eq in Hid.
    now apply Hnone in Hin.
  - intros (i & Hin & Hid) Hact.
    destruct (find _ l) as [j|] eqn:Hf.
    2:{ apply (List.find_none _ _ Hf) in Hin. rewrite Hid, Nat.eqb_refl in Hin.
        discriminate. }
    cbv zeta. cbn [str_in existsb] in Hact.
    repeat (apply orb_false_iff in Hact as [? Hact]).
    repeat match goal with H : String.eqb action _ = false |- _ => rewrite H; clear H end.
    reflexivity.
  - intros (i & Hin & Hid) -> Hpath.
    destruct (find _ l) as [j|] eqn:Hf.
    2:{ apply (List.find_none _ _ Hf) in Hin. rewrite Hid, Nat.eqb_refl in Hin.
        discriminate. }
    cbv zeta. cbn [String.eqb Ascii.eqb Bool.eqb].
    replace (negb (str_truthy path) || negb (modified_spec_exists w)) with true;
      [reflexivity|].
    destruct (str_truthy path), (modified_spec_exists w); cbn in *; congruence.
Qed.

(** ** The execution summary *)

Lemma get_artifacts_valid (id : nat) (db db' : DB) (l : list Artifact.t) :
  StateManager.get_artifacts_for_phase id db = (Ok l, db') ->
  forallb Models.Artifact_valid l = true.
Proof.
  unfold StateManager.get_artifacts_for_phase.
  destruct (forallb _ _) eqn:H; [|discriminate]. now intros [= <- _].
Qed.

Lemma no_specification_artifact (l : list Artifact.t) :
  forallb Models.Artifact_valid l = true ->
  List.filter (fun a => String.eqb (Artifact.artifact_type a) "specification") l = [].
Proof.
  induction l as [|a l IH]; [reflexivity|]. cbn [forallb List.filter].
  intros H. apply andb_true_iff in H as [Ha Hl]. rewrite (IH Hl).
  destruct (String.eqb_spec (Artifact.artifact_type a) "specification") as [E|];
    [|reflexivity].
  unfold Models.Artifact_valid in Ha. rewrite E in Ha. discriminate.
Qed.

Lemma count_passes_zero (w : World) (l : list Phase.t) (db db' : DB) (n : Z) :
  PhaseExecutor.count_passes w l db = (Ok n, db') -> n = 0.
Proof.
  revert db db' n. induction l as [|p l IH]; intros db db' n.
  - now intros [= <- _].
  - cbn [PhaseExecutor.count_passes]. intros H.
    apply bind_ok in H as (id & db1 & _ & H).
    apply bind_ok in H as (arts & db2 & Ha & H).
    apply bind_ok in H as (m & db3 & Hm & H).
    injection H as <- _. apply IH in Hm as ->.
    now rewrite (no_specification_artifact _ (get_artifacts_valid _ _ _ _ Ha)).
Qed.

Lemma count_status_total (l : list Phase.t) :
  forallb Models.PhaseState_valid l = true ->
  PhaseExecutor.count_status "pending" l
  + PhaseExecutor.count_status "in_progress" l
  + PhaseExecutor.count_status "completed" l
  + PhaseExecutor.count_status "failed" l
  + PhaseExecutor.count_status "skipped" l
  = Z.of_nat (length l).
Proof.
  unfold PhaseExecutor.count_status.
  induction l as [|p l IH]; [reflexivity|]. cbn [forallb List.filter].
  intros H. apply andb_true_iff in H as [Hp Hl]. specialize (IH Hl).
  unfold Models.PhaseState_valid in Hp.
  apply andb_true_iff in Hp as [_ Hs]. cbn [str_in existsb] in Hs.
  repeat (apply orb_true_iff in Hs as [Hs|Hs]); try discriminate;
    apply String.eqb_eq in Hs; rewrite Hs; cbn [String.eqb Ascii.eqb Bool.eqb];
    cbn [length]; lia.
Qed.

(** X21.  Whenever generate_execution_summary returns, it has changed
    nothing, total_phases is the number of the run's phase rows, the
    completed, failed, skipped and in_progress counts together do not
    exceed it, and total_passes is 0: it counts artifacts of type
    specification, a type that the Artifact model rejects when rows are
    read. *)
Theorem execution_summary_counts (w : World) (run_id : nat) (db db' : DB)
    (s : PhaseExecutor.ExecutionSummary) :
  PhaseExecutor.generate_execution_summary w run_id db = (Ok s, db') ->
  db' = db
  /\ PhaseExecutor.summary_total_passes s = 0
  /\ PhaseExecutor.summary_total_phases s = count_phases run_id db
  /\ exists pending,
       0 <= pending
       /\ pending + PhaseExecutor.summary_in_progress s
          + PhaseExecutor.summary_completed s + PhaseExecutor.summary_failed s
          + PhaseExecutor.summary_skipped s
          = PhaseExecutor.summary_total_phases s.
Proof.
  intros H. pose proof (generate_execution_summary_ro w run_id db) as Hro.
  rewrite H in Hro. cbn in Hro. subst db'. split; [reflexivity|].
  unfold PhaseExecutor.generate_execution_summary in H.
  apply bind_ok in H as (phases & db1 & Hph & H).
  apply bind_ok in H as (passes & db2 & Hpasses & H).
  apply bind_ok in H as (totals & db3 & _ & H).
  injection H as <- _. cbn.
  apply count_passes_zero in Hpasses. split; [exact Hpasses|].
  unfold StateManager.get_phases_for_run in Hph.
  destruct (forallb _ _) eqn:Hvalid; [|discriminate].
  injection Hph as <- _. split.
  - unfold count_phases. now rewrite (Permutation_length (order_by_perm _ _)).
  - exists (PhaseExecutor.count_status "pending"
              (order_by Phase.phase_number
                 (List.filter (fun p => (Phase.run_id p =? run_id)%nat) (phases db)))).
    split; [unfold PhaseExecutor.count_status; lia|].
    apply (count_status_total _ Hvalid).
Qed.

Lemma execution_summary_counts_witness :
  exists s,
    PhaseExecutor.generate_execution_summary (with_mock_ids Example.copilot_answers)
      1 Example.db_interrupted = (Ok s, Example.db_interrupted)
    /\ PhaseExecutor.summary_total_passes s = 0
    /\ PhaseExecutor.summary_total_phases s = 2.
Proof.
  eexists. split; [reflexivity|].
  match goal with
  | |- PhaseExecutor.summary_total_passes ?s = _ /\ _ =>
      destruct (execution_summary_counts (with_mock_ids Example.copilot_answers) 1
                  Example.db_interrupted Example.db_interrupted s eq_refl)
        as (_ & H1 & H2 & _)
  end.
  split; [exact H1|]. rewrite H2. reflexivity.
Defined.


(** ** Executions are closed *)

Lemma none_left_running_refl (db : DB) : none_left_running db db.
Proof. intros e H _. exact H. Qed.

Lemma none_left_running_trans (a b c : DB) :
  none_left_running a b -> none_left_running b c -> none_left_running a c.
Proof. intros H1 H2 e He Hs. apply H1; [|exact Hs]. now apply H2. Qed.

Lemma none_left_running_same (db db' : DB) :
  executions db' = executions db -> none_left_running db db'.
Proof. intros H e. now rewrite H. Qed.

Lemma closing_update (hit : Execution.t -> bool) (f : Execution.t -> Execution.t)
    (l : list Execution.t) (e : Execution.t) :
  (forall x, Execution.status (f x) <> "running") ->
  In e (update_where hit f l) -> Execution.status e = "running" ->
  In e l /\ hit e = false.
Proof.
  intros Hf Hin Hs. apply In_update_where in Hin as (x & Hx & ->).
  destruct (hit x) eqn:Hh; [now apply Hf in Hs|auto].
Qed.

Lemma complete_not_running (t : nat) (out summary : string) (x : Execution.t) :
  Execution.status (Execution.complete t out summary x) <> "running".
Proof. cbn. discriminate. Qed.

Lemma fail_not_running (t : nat) (err : string) (x : Execution.t) :
  Execution.status (Execution.fail t err x) <> "running".
Proof. cbn. discriminate. Qed.

Lemma closed_complete_execution (id : nat) (out summary : string) :
  preserved none_left_running (StateManager.complete_execution id out summary).
Proof.
  intros db e. unfold StateManager.complete_execution, bind, now.
  cbn [snd executions set_executions]. intros Hin Hs.
  apply (closing_update _ _ _ _ (complete_not_running _ _ _) Hin Hs).
Qed.

Lemma closed_fail_execution (id : nat) (err : string) :
  preserved none_left_running (StateManager.fail_execution id err).
Proof.
  intros db e. unfold StateManager.fail_execution, bind, now.
  cbn [snd executions set_executions]. intros Hin Hs.
  apply (closing_update _ _ _ _ (fail_not_running _ _) Hin Hs).
Qed.

Lemma closed_register_artifact (r : nat) (ty path : string) (p e : option nat) :
  preserved none_left_running (StateManager.register_artifact r ty path p e).
Proof.
  intros db. apply none_left_running_same.
  unfold StateManager.register_artifact, bind, uuid4, now. cbv beta iota zeta.
  destruct (str_in _ _); reflexivity.
Qed.

Ltac closed_step :=
  lazymatch goal with
  | |- preserved _ (bind _ _) =>
      apply (preserved_bind _ none_left_running_trans); [|intros ?]
  | |- preserved _ (try_except _ _) =>
      apply (preserved_try _ none_left_running_trans); [|intros ?]
  | |- preserved _ (ret _) => apply (preserved_ret _ none_left_running_refl)
  | |- preserved _ (raise _) => apply (preserved_raise _ none_left_running_refl)
  | |- preserved _ (lift _) => apply (preserved_lift _ none_left_running_refl)
  | |- preserved _ (if ?b then _ else _) => destruct b
  | |- preserved _ (match ?x with _ => _ end) => destruct x
  end.

Create HintDb closed.

#[local] Hint Resolve closed_complete_execution closed_fail_execution
  closed_register_artifact : closed.

Ltac closed := repeat first [closed_step | solve [auto with closed]].

Lemma closed_apply_patches (w : World) (phase : Phase.t)
    (r : Copilot.CopilotExecutionResult) (k : Z) :
  preserved none_left_running (PhaseExecutor._apply_copilot_patches w phase r k).
Proof.
  apply preserved_ro; [apply none_left_running_refl|].
  apply apply_copilot_patches_records_nothing.
Qed.

#[local] Hint Resolve closed_apply_patches : closed.

(** Recording the result of an execution that was just created closes it. *)
Lemma record_closes_created (w : World) (phase : Phase.t) (k : Z)
    (r : Copilot.CopilotExecutionResult) (pid : nat) (path mode : string)
    (db db1 : DB) (row : Execution.t) :
  StateManager.create_execution pid k path mode db = (Ok row, db1) ->
  none_left_running db
    (snd (PhaseExecutor.record_copilot_result w phase (Execution.execution_id row)
            k r db1)).
Proof.
  intros Hc.
  assert (Hrow : executions db1 = (executions db ++ [row])%list).
  { revert Hc. unfold StateManager.create_execution, bind, uuid4, now.
    cbv beta iota zeta. destruct (negb _); [discriminate|].
    destruct (Models.ExecutionState_valid _); [|discriminate].
    now intros [= <- <-]. }
  unfold PhaseExecutor.record_copilot_result. cbv zeta.
  set (first := if Copilot.success r then _ else _).
  assert (Hfirst : exists db2, first db1 = (Ok tt, db2)
                               /\ none_left_running db db2).
  { unfold first.
    destruct (Copilot.success r);
      [unfold StateManager.complete_execution|unfold StateManager.fail_execution];
      unfold bind, now; cbv beta iota; eexists; (split; [reflexivity|]);
      intros e; cbn [executions set_executions]; rewrite Hrow; intros Hin Hs;
      apply closing_update in Hin as [Hin Hhit]; try exact Hs;
      try apply complete_not_running; try apply fail_not_running;
      apply in_app_iff in Hin as [Hin|[<-|[]]]; try exact Hin;
      now rewrite Nat.eqb_refl in Hhit. }
  destruct Hfirst as (db2 & Hfirst & Hclosed).
  rewrite (bind_step _ _ _ _ _ Hfirst).
  eapply none_left_running_trans; [exact Hclosed|].
  match goal with
  | |- none_left_running db2 (snd (?m db2)) =>
      assert (Hrest : preserved none_left_running m) by closed
  end.
  apply Hrest.
Qed.

Lemma render_prompt_same (w : World) (pid : nat) (k : Z) (db : DB) :
  snd (PhaseExecutor._render_copilot_prompt w pid k db) = db.
Proof.
  unfold PhaseExecutor._render_copilot_prompt, PhaseExecutor.phase_not_found.
  apply bind_ro; [unfold StateManager.get_phase;
                  destruct (find _ _) as [p|];
                  [destruct (Models.PhaseState_valid p)|]; reflexivity|].
  intros [p|]; [|reflexivity].
  apply bind_ro.
  - destruct (1 <? k); [|reflexivity].
    apply bind_ro; [apply get_findings_for_phase_ro|reflexivity].
  - intros _. destruct (prompt_rendered w pid k); reflexivity.
Qed.

Lemma create_execution_ok (pid : nat) (k : Z) (path mode : string) (db : DB) :
  0 < k -> str_in mode ["direct"; "branch"] = true ->
  exists row db1,
    StateManager.create_execution pid k path mode db = (Ok row, db1).
Proof.
  intros Hk Hmode. unfold StateManager.create_execution, bind, uuid4, now.
  cbv beta iota zeta. unfold Schema.executions_execution_mode. rewrite Hmode.
  cbn [negb]. unfold Models.ExecutionState_valid.
  cbn [Execution.pass_number Execution.status Execution.execution_mode].
  rewrite Hmode. destruct (Z.ltb_spec 0 k); [|lia]. cbn. eauto.
Qed.

(** X22.  For a pass number of at least 1, execute_with_copilot leaves no
    execution running that was not already stored before the call, whether
    it returns or raises: the execution it creates is completed or failed
    before control leaves the function. *)
Theorem execute_with_copilot_closes_its_execution (w : World) (pid : nat)
    (path : string) (pass_number : Z) (db : DB) :
  0 < pass_number ->
  let db' := snd (PhaseExecutor.execute_with_copilot w pid path pass_number db) in
  forall e, In e (executions db') -> Execution.status e = "running" ->
            In e (executions db).
Proof.
  intros Hk. cbv zeta. fold (none_left_running db
    (snd (PhaseExecutor.execute_with_copilot w pid path pass_number db))).
  unfold PhaseExecutor.execute_with_copilot.
  destruct (negb (copilot_interface w)); [apply none_left_running_refl|].
  unfold bind at 1.
  destruct (StateManager.get_phase pid db) as [[[phase|]|e] db0] eqn:Hg;
    pose proof (get_phase_same _ _ _ _ Hg) as ->;
    [|apply none_left_running_refl..].
  cbv zeta. unfold bind at 1.
  pose proof (render_prompt_same w pid pass_number db) as Hr.
  destruct (PhaseExecutor._render_copilot_prompt w pid pass_number db)
    as [[u|e] db1]; cbn [snd] in Hr; subst db1; [|apply none_left_running_refl].
  unfold bind at 1.
  match goal with
  | |- none_left_running db (snd (match ?m db with _ => _ end)) =>
      assert (Hf : snd (m db) = db);
      [|destruct (m db) as [[u'|e] db2]; cbn [snd] in Hf; subst db2;
        [|apply none_left_running_refl]]
  end.
  { destruct (1 <? pass_number); [|reflexivity].
    apply bind_ro; [apply get_findings_for_phase_ro|reflexivity]. }
  set (mode := if String.eqb (copilot_mode w) "branch" then "branch" else "direct").
  destruct (create_execution_ok pid pass_number path mode db Hk)
    as (row & db3 & Hc).
  { unfold mode. destruct (String.eqb _ _); reflexivity. }
  rewrite (bind_step _ _ _ _ _ Hc). unfold try_except.
  pose proof (record_closes_created w phase pass_number
                (Copilot.execute_spec (copilot_timeout w)
                   (PhaseExecutor.artifact_dir w (Phase.run_id phase) pid pass_number)
                   (cli w pid pass_number)) pid path mode db db3 row Hc) as Hrec.
  destruct (PhaseExecutor.record_copilot_result _ _ _ _ _ db3) as [[r|e] db4];
    cbn [snd] in Hrec; [exact Hrec|].
  destruct e; try exact Hrec.
  eapply none_left_running_trans; [exact Hrec|].
  match goal with
  | |- none_left_running db4 (snd (?m db4)) =>
      assert (Hrest : preserved none_left_running m) by closed
  end.
  apply Hrest.
Qed.

Lemma execute_with_copilot_closes_its_execution_witness :
  let db' :=
    snd (PhaseExecutor.execute_with_copilot Example.copilot_times_out 10 "spec.md" 1
           Example.db0) in
  map Execution.status (executions db') = ["failed"]
  /\ forall e, In e (executions db') -> Execution.status e = "running" ->
               In e (executions Example.db0).
Proof.
  split; [reflexivity|].
  apply (execute_with_copilot_closes_its_execution Example.copilot_times_out 10
           "spec.md" 1 Example.db0). lia.
Defined.

Lemma resume_phase_edge_cases_witness :
  PhaseExecutor.resume_phase Example.copilot_times_out 10 "retry" None Example.db0
  = (Ok tt, Example.db0).
Proof.
  apply (proj1 (resume_phase_edge_cases Example.copilot_times_out 10 "retry" None
                  Example.db0
                  (Phase.mk 10 1 1 "medium" "pending" None None None 0 2) []
                  eq_refl eq_refl)).
  intros i [].
Defined.

(** ** Artifacts *)

(** X23.  When the artifacts of the run can be read and the new identifier
    is unused, register_artifact with a type that the artifacts table
    allows returns the new artifact, which get_artifact then returns and
    get_artifacts_for_run lists besides the earlier ones; with any other
    type it raises DatabaseError and stores nothing. *)
Theorem register_artifact_round_trip (run_id : nat) (artifact_type path : string)
    (phase_id execution_id : option nat) (db : DB) (l : list Artifact.t) :
  find (fun a => Artifact.artifact_id a =? next_uuid db)%nat (artifacts db) = None ->
  StateManager.get_artifacts_for_run run_id None db = (Ok l, db) ->
  let out :=
    StateManager.register_artifact run_id artifact_type path phase_id execution_id db in
  if str_in artifact_type Schema.artifacts_artifact_type
  then exists a l',
         out = (Ok a, snd out)
         /\ a = Artifact.mk (next_uuid db) run_id phase_id execution_id artifact_type
                  path (clock db)
         /\ StateManager.get_artifact (Artifact.artifact_id a) (snd out)
            = (Ok (Some a), snd out)
         /\ StateManager.get_artifacts_for_run run_id None (snd out) = (Ok l', snd out)
         /\ (forall b, In b l' <-> b = a \/ In b l)
  else fst out = Raise (DatabaseError "Failed to register artifact")
       /\ artifacts (snd out) = artifacts db.
Proof.
  intros Hfresh Hget. cbv zeta.
  unfold StateManager.register_artifact, bind, uuid4, now. cbv beta iota zeta.
  cbn [next_uuid clock artifacts].
  destruct (str_in artifact_type Schema.artifacts_artifact_type) eqn:Hty;
    [|split; reflexivity].
  set (a := Artifact.mk (next_uuid db) run_id phase_id execution_id artifact_type
              path (clock db)).
  assert (Ha : Models.Artifact_valid a = true).
  { unfold Models.Artifact_valid, a. cbn [Artifact.artifact_type].
    unfold Schema.artifacts_artifact_type in Hty. cbn [str_in existsb] in *.
    repeat (apply orb_true_iff in Hty as [Hty|Hty]); try discriminate;
      rewrite Hty; rewrite ?orb_true_r; reflexivity. }
  unfold StateManager.get_artifacts_for_run in Hget.
  set (key := fun a => Z.of_nat (Artifact.created_at a)) in *.
  set (old := List.filter _ (artifacts db)) in Hget.
  destruct (forallb Models.Artifact_valid (order_by key old)) eqn:Hold;
    [|discriminate].
  injection Hget as <-.
  exists a, (order_by key (old ++ [a])). cbn [snd].
  assert (Hin : forall b, In b (order_by key (old ++ [a]))
                          <-> b = a \/ In b (order_by key old)).
  { intros b. rewrite !order_by_In, in_app_iff. cbn. intuition. }
  split; [reflexivity|]. split; [reflexivity|]. split; [|split].
  - unfold StateManager.get_artifact. cbn [artifacts set_artifacts].
    rewrite (find_app_none _ _ _ Hfresh). cbn [find Artifact.artifact_id a].
    rewrite Nat.eqb_refl. fold a. now rewrite Ha.
  - unfold StateManager.get_artifacts_for_run. cbn [artifacts set_artifacts].
    rewrite filter_app_one. cbn [Artifact.run_id a]. rewrite Nat.eqb_refl.
    cbn [andb]. fold old. fold key.
    replace (forallb _ _) with true; [reflexivity|].
    symmetry. apply List.forallb_forall. intros b Hb.
    apply Hin in Hb as [->|Hb]; [exact Ha|].
    rewrite List.forallb_forall in Hold. now apply Hold.
  - exact Hin.
Qed.

Lemma register_artifact_round_trip_witness :
  fst (StateManager.register_artifact 1 "findings_report_md" "findings_report.md"
         (Some 10%nat) None Example.db0)
  = Raise (DatabaseError "Failed to register artifact")
  /\ exists a,
       fst (StateManager.register_artifact 1 "spec" "spec.md" (Some 10%nat) None
              Example.db0) = Ok a
       /\ Artifact.artifact_id a = 100%nat.
Proof.
  split.
  - apply (register_artifact_round_trip 1 "findings_report_md" "findings_report.md"
             (Some 10%nat) None Example.db0 [] eq_refl eq_refl).
  - destruct (register_artifact_round_trip 1 "spec" "spec.md" (Some 10%nat) None
                Example.db0 [] eq_refl eq_refl) as (a & l' & H1 & H2 & _).
    exists a. rewrite H1, H2. split; reflexivity.
Defined.

